(** * marina-operator: the Terminal and User reconcilers

    A shallow embedding of the reconciliation code of
    [internal/controller] (the current controllers) and of the earlier
    [controllers] package (module [Legacy]), together with a model of the
    object store the reconcilers talk to through [client.Client].

    Go pointers to the primary object ([terminal *Terminal], [user *User])
    are mutated in place by the reconcile helpers; here every helper
    returns the mutated in-memory object next to its error.  Calls to the
    logger have no effect on the store or on the returned values and are
    left out. *)

From stdpp Require Import gmap strings list fin_maps.
From Stdlib Require Import ZArith.

Open Scope string_scope.
Open Scope list_scope.
Open Scope Z_scope.

(** ** API errors *)

(** [metav1.StatusReason]: the machine-readable reason of an API error. *)
Inductive StatusReason :=
| StatusReasonUnknown
| StatusReasonUnauthorized
| StatusReasonForbidden
| StatusReasonNotFound
| StatusReasonAlreadyExists
| StatusReasonConflict
| StatusReasonGone
| StatusReasonInvalid
| StatusReasonServerTimeout
| StatusReasonTimeout
| StatusReasonTooManyRequests
| StatusReasonBadRequest
| StatusReasonInternalError
| StatusReasonServiceUnavailable.

#[global] Instance StatusReason_eq_dec : EqDecision StatusReason.
Proof. solve_decision. Defined.

(** A Go [error] value that is not nil: either the [*StatusError] of the
    API machinery, or the result of [fmt.Errorf(format + "%w", err)]. *)
Inductive error :=
| StatusError (reason : StatusReason)
| Errorf (format : string) (wrapped : error).

#[global] Instance error_eq_dec : EqDecision error.
Proof. solve_decision. Defined.

(** [apierrors.ReasonForError]: found through [errors.As], that is through
    every layer of wrapping. *)
Fixpoint ReasonForError (err : error) : StatusReason :=
  match err with
  | StatusError reason => reason
  | Errorf _ wrapped => ReasonForError wrapped
  end.

Definition reasonString (r : StatusReason) : string :=
  match r with
  | StatusReasonUnknown => "Unknown"
  | StatusReasonUnauthorized => "Unauthorized"
  | StatusReasonForbidden => "Forbidden"
  | StatusReasonNotFound => "NotFound"
  | StatusReasonAlreadyExists => "AlreadyExists"
  | StatusReasonConflict => "Conflict"
  | StatusReasonGone => "Gone"
  | StatusReasonInvalid => "Invalid"
  | StatusReasonServerTimeout => "ServerTimeout"
  | StatusReasonTimeout => "Timeout"
  | StatusReasonTooManyRequests => "TooManyRequests"
  | StatusReasonBadRequest => "BadRequest"
  | StatusReasonInternalError => "InternalError"
  | StatusReasonServiceUnavailable => "ServiceUnavailable"
  end.

(** [err.Error()]: a wrapping error prints its format with the message of
    the wrapped error in place of the verb. *)
Fixpoint errorString (err : error) : string :=
  match err with
  | StatusError reason => reasonString reason
  | Errorf format wrapped => format +:+ errorString wrapped
  end.

Definition IsNotFound (err : error) : bool :=
  bool_decide (ReasonForError err = StatusReasonNotFound).

Definition IsAlreadyExists (err : error) : bool :=
  bool_decide (ReasonForError err = StatusReasonAlreadyExists).

(** [client.IgnoreNotFound] and [client.IgnoreAlreadyExists] on a possibly
    nil error. *)
Definition IgnoreNotFound (err : option error) : option error :=
  match err with
  | Some e => if IsNotFound e then None else Some e
  | None => None
  end.

Definition IgnoreAlreadyExists (err : option error) : option error :=
  match err with
  | Some e => if IsAlreadyExists e then None else Some e
  | None => None
  end.

(** ** Objects *)

Definition Time := nat.

(** [types.NamespacedName], as the pair (namespace, name). *)
Abbreviation NamespacedName := (string * string)%type.

(** The fields of [metav1.ObjectMeta] the controllers read or write. *)
Record ObjectMeta := {
  Name : string;
  Namespace : string;
  Labels : gmap string string;
  DeletionTimestamp : option Time;
  Finalizers : list string;
}.

Definition emptyMeta : ObjectMeta :=
  {| Name := ""; Namespace := ""; Labels := ∅;
     DeletionTimestamp := None; Finalizers := [] |}.

Definition withFinalizers (fs : list string) (m : ObjectMeta) : ObjectMeta :=
  {| Name := Name m; Namespace := Namespace m; Labels := Labels m;
     DeletionTimestamp := DeletionTimestamp m; Finalizers := fs |}.

Definition withDeletionTimestamp (t : option Time) (m : ObjectMeta) : ObjectMeta :=
  {| Name := Name m; Namespace := Namespace m; Labels := Labels m;
     DeletionTimestamp := t; Finalizers := Finalizers m |}.

(** [marinacorev1.Terminal] *)
Record TerminalSpec := { Image : string }.
Record Terminal := { TerminalMeta : ObjectMeta; TerminalSpec_ : TerminalSpec }.

(** [marinacorev1.User] *)
Record UserSpec := {
  UserSpecName : string;
  Password : list Byte.byte;
  Roles : list string;
}.
Record User := { UserMeta : ObjectMeta; UserSpec_ : UserSpec }.

(** [appsv1.Deployment] *)
Record Container := {
  ContainerName : string;
  ContainerImage : string;
  Command : list string;
}.
Record PodSpec := { Containers : list Container }.
Record PodTemplateSpec := { TemplateMeta : ObjectMeta; TemplateSpec : PodSpec }.
Record LabelSelector := { MatchLabels : gmap string string }.
Record DeploymentSpec := {
  Replicas : option Z;
  Selector : option LabelSelector;
  Template : PodTemplateSpec;
}.
Record Deployment := { DeploymentMeta : ObjectMeta; DeploymentSpec_ : DeploymentSpec }.

(** [corev1.Service] *)
Inductive Protocol := ProtocolTCP | ProtocolUDP | ProtocolSCTP.
Inductive IntOrStringType := IntType | StringType.
Record IntOrString := { Type_ : IntOrStringType; IntVal : Z; StrVal : string }.
Record ServicePort := {
  PortName : string;
  PortProtocol : Protocol;
  Port : Z;
  TargetPort : IntOrString;
}.
Record ServiceSpec := { Ports : list ServicePort; ServiceSelector : gmap string string }.
Record Service := { ServiceMeta : ObjectMeta; ServiceSpec_ : ServiceSpec }.

(** [corev1.ServiceAccount], [rbacv1.Role], [rbacv1.RoleBinding] *)
Record ServiceAccount := { ServiceAccountMeta : ObjectMeta }.
Record Role := { RoleMeta : ObjectMeta }.
Record Subject := { SubjectKind : string; SubjectName : string; SubjectNamespace : string }.
Record RoleRef := { RoleRefKind : string; RoleRefName : string; APIGroup : string }.
Record RoleBinding := {
  RoleBindingMeta : ObjectMeta;
  Subjects : list Subject;
  RoleRef_ : RoleRef;
}.

(** ** The object store

    The store is keyed by (kind, namespace, name). *)

Inductive Kind :=
| KTerminal | KUser | KDeployment | KService | KServiceAccount | KRole | KRoleBinding.

#[global] Instance Kind_eq_dec : EqDecision Kind.
Proof. solve_decision. Defined.

Definition Kind_to_nat (k : Kind) : nat :=
  match k with
  | KTerminal => 0 | KUser => 1 | KDeployment => 2 | KService => 3
  | KServiceAccount => 4 | KRole => 5 | KRoleBinding => 6
  end%nat.

Definition Kind_of_nat (n : nat) : Kind :=
  match n with
  | 0 => KTerminal | 1 => KUser | 2 => KDeployment | 3 => KService
  | 4 => KServiceAccount | 5 => KRole | _ => KRoleBinding
  end%nat.

#[global] Instance Kind_countable : Countable Kind.
Proof. apply (inj_countable' Kind_to_nat Kind_of_nat). by intros []. Defined.

Inductive Object :=
| ObjTerminal (t : Terminal)
| ObjUser (u : User)
| ObjDeployment (d : Deployment)
| ObjService (s : Service)
| ObjServiceAccount (a : ServiceAccount)
| ObjRole (r : Role)
| ObjRoleBinding (b : RoleBinding).

Definition objKind (o : Object) : Kind :=
  match o with
  | ObjTerminal _ => KTerminal
  | ObjUser _ => KUser
  | ObjDeployment _ => KDeployment
  | ObjService _ => KService
  | ObjServiceAccount _ => KServiceAccount
  | ObjRole _ => KRole
  | ObjRoleBinding _ => KRoleBinding
  end.

Definition objMeta (o : Object) : ObjectMeta :=
  match o with
  | ObjTerminal t => TerminalMeta t
  | ObjUser u => UserMeta u
  | ObjDeployment d => DeploymentMeta d
  | ObjService s => ServiceMeta s
  | ObjServiceAccount a => ServiceAccountMeta a
  | ObjRole r => RoleMeta r
  | ObjRoleBinding b => RoleBindingMeta b
  end.

Definition setObjMeta (m : ObjectMeta) (o : Object) : Object :=
  match o with
  | ObjTerminal t => ObjTerminal {| TerminalMeta := m; TerminalSpec_ := TerminalSpec_ t |}
  | ObjUser u => ObjUser {| UserMeta := m; UserSpec_ := UserSpec_ u |}
  | ObjDeployment d =>
      ObjDeployment {| DeploymentMeta := m; DeploymentSpec_ := DeploymentSpec_ d |}
  | ObjService s => ObjService {| ServiceMeta := m; ServiceSpec_ := ServiceSpec_ s |}
  | ObjServiceAccount _ => ObjServiceAccount {| ServiceAccountMeta := m |}
  | ObjRole _ => ObjRole {| RoleMeta := m |}
  | ObjRoleBinding b =>
      ObjRoleBinding {| RoleBindingMeta := m; Subjects := Subjects b; RoleRef_ := RoleRef_ b |}
  end.

(** [client.ObjectKeyFromObject] *)
Definition ObjectKeyFromObject (o : Object) : NamespacedName :=
  (Namespace (objMeta o), Name (objMeta o)).

Abbreviation StoreKey := (Kind * NamespacedName)%type.

Definition storeKey (o : Object) : StoreKey := (objKind o, ObjectKeyFromObject o).

(** The typed view of the store that [client.Client] gives: a Go type
    that implements [client.Object]. *)
Class ClientObject (A : Type) := {
  kindOf : Kind;
  toObject : A → Object;
  fromObject : Object → option A;
  getMeta : A → ObjectMeta;
  setMeta : ObjectMeta → A → A;
}.
Arguments kindOf A {_}.

#[global] Instance Terminal_object : ClientObject Terminal :=
  {| kindOf := KTerminal; toObject := ObjTerminal;
     fromObject o := match o with ObjTerminal t => Some t | _ => None end;
     getMeta := TerminalMeta;
     setMeta := λ m t, {| TerminalMeta := m; TerminalSpec_ := TerminalSpec_ t |} |}.
#[global] Instance User_object : ClientObject User :=
  {| kindOf := KUser; toObject := ObjUser;
     fromObject o := match o with ObjUser u => Some u | _ => None end;
     getMeta := UserMeta;
     setMeta := λ m u, {| UserMeta := m; UserSpec_ := UserSpec_ u |} |}.
#[global] Instance Deployment_object : ClientObject Deployment :=
  {| kindOf := KDeployment; toObject := ObjDeployment;
     fromObject o := match o with ObjDeployment d => Some d | _ => None end;
     getMeta := DeploymentMeta;
     setMeta := λ m d, {| DeploymentMeta := m; DeploymentSpec_ := DeploymentSpec_ d |} |}.
#[global] Instance Service_object : ClientObject Service :=
  {| kindOf := KService; toObject := ObjService;
     fromObject o := match o with ObjService s => Some s | _ => None end;
     getMeta := ServiceMeta;
     setMeta := λ m s, {| ServiceMeta := m; ServiceSpec_ := ServiceSpec_ s |} |}.
#[global] Instance ServiceAccount_object : ClientObject ServiceAccount :=
  {| kindOf := KServiceAccount; toObject := ObjServiceAccount;
     fromObject o := match o with ObjServiceAccount a => Some a | _ => None end;
     getMeta := ServiceAccountMeta;
     setMeta := λ m _, {| ServiceAccountMeta := m |} |}.
#[global] Instance Role_object : ClientObject Role :=
  {| kindOf := KRole; toObject := ObjRole;
     fromObject o := match o with ObjRole r => Some r | _ => None end;
     getMeta := RoleMeta;
     setMeta := λ m _, {| RoleMeta := m |} |}.
#[global] Instance RoleBinding_object : ClientObject RoleBinding :=
  {| kindOf := KRoleBinding; toObject := ObjRoleBinding;
     fromObject o := match o with ObjRoleBinding b => Some b | _ => None end;
     getMeta := RoleBindingMeta;
     setMeta := λ m b, {| RoleBindingMeta := m; Subjects := Subjects b; RoleRef_ := RoleRef_ b |} |}.

(** The verbs of [client.Client]. *)
Inductive Verb := VerbGet | VerbList | VerbCreate | VerbUpdate | VerbDelete.

#[global] Instance Verb_eq_dec : EqDecision Verb.
Proof. solve_decision. Defined.

(** One call to the store, with the error it returned. *)
Record Event := {
  evVerb : Verb;
  evKind : Kind;
  evKey : NamespacedName;
  evErr : option StatusReason;
}.

#[global] Instance Event_eq_dec : EqDecision Event.
Proof. solve_decision. Defined.

(** The world a reconcile pass runs in: the objects of the store, the
    failures the store is going to report whatever its contents (one entry
    per call, [None] for a call that is served; an exhausted script serves
    every call), the store's clock, and the calls made so far (oldest
    first). *)
Record World := {
  store : gmap StoreKey Object;
  faults : list (option StatusReason);
  clock : Time;
  trace : list Event;
}.

Definition M (A : Type) : Type := World → A * World.

#[global] Instance M_ret : MRet M := λ A a w, (a, w).
#[global] Instance M_bind : MBind M :=
  λ A B f m w, let '(a, w') := m w in f a w'.

Definition nextFault (w : World) : option StatusReason :=
  match faults w with
  | f :: _ => f
  | [] => None
  end.

(** What one call leaves behind: the script advances, the call is logged. *)
Definition served (v : Verb) (k : StoreKey) (err : option StatusReason)
    (st : gmap StoreKey Object) (w : World) : World :=
  {| store := st;
     faults := tail (faults w);
     clock := clock w;
     trace := trace w ++ [ {| evVerb := v; evKind := k.1; evKey := k.2; evErr := err |} ] |}.

(** Modelled from the spec: the store's uniform CRUD surface,
    [Get(namespace, name) → object | NotFound],
    [Create(object) → AlreadyExists | other error | ok],
    [Update(object) → Conflict | ok], [Delete(object) → NotFound | ok].
    An object that carries finalizers is retained on [Delete] and marked
    with a deletion timestamp; the store erases a marked object once an
    [Update] leaves it without finalizers.  A failed call changes
    nothing. *)
Definition apiGet (k : StoreKey) : M (error + Object) := λ w,
  match nextFault w with
  | Some r => (inl (StatusError r), served VerbGet k (Some r) (store w) w)
  | None =>
      match store w !! k with
      | Some o => (inr o, served VerbGet k None (store w) w)
      | None =>
          (inl (StatusError StatusReasonNotFound),
           served VerbGet k (Some StatusReasonNotFound) (store w) w)
      end
  end.

Definition apiCreate (o : Object) : M (option error) := λ w,
  let k := storeKey o in
  match nextFault w with
  | Some r => (Some (StatusError r), served VerbCreate k (Some r) (store w) w)
  | None =>
      match store w !! k with
      | Some _ =>
          (Some (StatusError StatusReasonAlreadyExists),
           served VerbCreate k (Some StatusReasonAlreadyExists) (store w) w)
      | None => (None, served VerbCreate k None (<[k := o]> (store w)) w)
      end
  end.

Definition apiUpdate (o : Object) : M (option error) := λ w,
  let k := storeKey o in
  match nextFault w with
  | Some r => (Some (StatusError r), served VerbUpdate k (Some r) (store w) w)
  | None =>
      match store w !! k with
      | None =>
          (Some (StatusError StatusReasonNotFound),
           served VerbUpdate k (Some StatusReasonNotFound) (store w) w)
      | Some _ =>
          match DeletionTimestamp (objMeta o), Finalizers (objMeta o) with
          | Some _, [] => (None, served VerbUpdate k None (delete k (store w)) w)
          | _, _ => (None, served VerbUpdate k None (<[k := o]> (store w)) w)
          end
      end
  end.

Definition apiDelete (o : Object) : M (option error) := λ w,
  let k := storeKey o in
  match nextFault w with
  | Some r => (Some (StatusError r), served VerbDelete k (Some r) (store w) w)
  | None =>
      match store w !! k with
      | None =>
          (Some (StatusError StatusReasonNotFound),
           served VerbDelete k (Some StatusReasonNotFound) (store w) w)
      | Some old =>
          match Finalizers (objMeta old), DeletionTimestamp (objMeta old) with
          | [], _ => (None, served VerbDelete k None (delete k (store w)) w)
          | _ :: _, Some _ => (None, served VerbDelete k None (store w) w)
          | _ :: _, None =>
              let marked :=
                setObjMeta (withDeletionTimestamp (Some (clock w)) (objMeta old)) old in
              (None, served VerbDelete k None (<[k := marked]> (store w)) w)
          end
      end
  end.

(** The typed methods of [client.Client].  A stored object of another Go
    type than the one asked for cannot be decoded. *)
Definition Get {A} `{ClientObject A} (key : NamespacedName) : M (error + A) :=
  r ← apiGet (kindOf A, key);
  match r with
  | inl err => mret (inl err)
  | inr o =>
      match fromObject o with
      | Some a => mret (inr a)
      | None => mret (inl (StatusError StatusReasonInternalError))
      end
  end.

Definition Create {A} `{ClientObject A} (obj : A) : M (option error) :=
  apiCreate (toObject obj).

Definition Update {A} `{ClientObject A} (obj : A) : M (option error) :=
  apiUpdate (toObject obj).

Definition Delete {A} `{ClientObject A} (obj : A) : M (option error) :=
  apiDelete (toObject obj).

(** ** [controllerutil]: finalizers *)

Definition ContainsFinalizerMeta (m : ObjectMeta) (finalizer : string) : bool :=
  bool_decide (finalizer ∈ Finalizers m).

(** [AddFinalizer] appends the finalizer unless it is there already. *)
Definition AddFinalizerMeta (m : ObjectMeta) (finalizer : string) : ObjectMeta :=
  if ContainsFinalizerMeta m finalizer then m
  else withFinalizers (Finalizers m ++ [finalizer]) m.

(** [RemoveFinalizer] drops every occurrence. *)
Definition RemoveFinalizerMeta (m : ObjectMeta) (finalizer : string) : ObjectMeta :=
  withFinalizers (filter (λ f, f ≠ finalizer) (Finalizers m)) m.

Definition GetDeletionTimestamp {A} `{ClientObject A} (obj : A) : option Time :=
  DeletionTimestamp (getMeta obj).

Definition ContainsFinalizer {A} `{ClientObject A} (obj : A) (finalizer : string) : bool :=
  ContainsFinalizerMeta (getMeta obj) finalizer.

Definition AddFinalizer {A} `{ClientObject A} (obj : A) (finalizer : string) : A :=
  setMeta (AddFinalizerMeta (getMeta obj) finalizer) obj.

Definition RemoveFinalizer {A} `{ClientObject A} (obj : A) (finalizer : string) : A :=
  setMeta (RemoveFinalizerMeta (getMeta obj) finalizer) obj.

(** [ctrl.Request] and [ctrl.Result] *)
Record Request := { RequestNamespacedName : NamespacedName }.
Record Result := { Requeue : bool; RequeueAfter : Z }.

Definition zeroResult : Result := {| Requeue := false; RequeueAfter := 0 |}.

(** What [ctrl.NewControllerManagedBy(mgr).For(...).Owns(...).Complete(r)]
    registers with the manager: the primary kind, the owned kinds and the
    [reconcile.Reconciler] to call. *)
Record Controller := {
  For : Kind;
  Owns : list Kind;
  Do : Request → M (Result * option error);
}.

(** ** [internal/controller/terminal_controller.go] *)

Module TerminalReconciler.

Definition TerminalDeploymentFinalizer : string := "marina.io.deployment/finalizer".
Definition TerminalServiceFinalizer : string := "marina.io.service/finalizer".

Definition CommonLabels : gmap string string := {[ "app" := "marina-terminal" ]}.

Definition deploymentForTerminal (terminal : Terminal) : Deployment :=
  {| DeploymentMeta :=
       {| Name := "marina-terminal-" +:+ Name (TerminalMeta terminal);
          Namespace := Namespace (TerminalMeta terminal);
          Labels := CommonLabels;
          DeletionTimestamp := None;
          Finalizers := [] |};
     DeploymentSpec_ :=
       {| Replicas := Some 1;
          Selector := Some {| MatchLabels := CommonLabels |};
          Template :=
            {| TemplateMeta :=
                 {| Name := ""; Namespace := ""; Labels := CommonLabels;
                    DeletionTimestamp := None; Finalizers := [] |};
               TemplateSpec :=
                 {| Containers :=
                      [ {| ContainerName := "exec-shell";
                           ContainerImage := Image (TerminalSpec_ terminal);
                           Command :=
                             ["/bin/sh"; "-ec";
                              "trap : TERM INT; sleep infinity & wait"] |} ] |} |} |} |}.

Definition serviceForTerminal (terminal : Terminal) : Service :=
  {| ServiceMeta :=
       {| Name := "marina-terminal-" +:+ Name (TerminalMeta terminal);
          Namespace := Namespace (TerminalMeta terminal);
          Labels := ∅;
          DeletionTimestamp := None;
          Finalizers := [] |};
     ServiceSpec_ :=
       {| Ports :=
            [ {| PortName := "ssh";
                 PortProtocol := ProtocolTCP;
                 Port := 22;
                 TargetPort := {| Type_ := StringType; IntVal := 0; StrVal := "ssh" |} |} ];
          ServiceSelector := CommonLabels |} |}.

Definition reconcileDeployment (terminal : Terminal) : M (Terminal * option error) :=
  let deployment := deploymentForTerminal terminal in
  if GetDeletionTimestamp terminal is Some _ then
    if ContainsFinalizer terminal TerminalDeploymentFinalizer then
      err ← Delete deployment;
      match err with
      | Some err => mret (terminal, Some (Errorf "could not delete deployment: " err))
      | None => mret (RemoveFinalizer terminal TerminalDeploymentFinalizer, None)
      end
    else mret (terminal, None)
  else
    let terminal := AddFinalizer terminal TerminalDeploymentFinalizer in
    err ← Create deployment;
    match err with
    | Some err => mret (terminal, IgnoreAlreadyExists (Some err))
    | None => mret (terminal, None)
    end.

Definition reconcileService (terminal : Terminal) : M (Terminal * option error) :=
  let service := serviceForTerminal terminal in
  if GetDeletionTimestamp terminal is Some _ then
    if ContainsFinalizer terminal TerminalServiceFinalizer then
      err ← Delete service;
      match err with
      | Some err => mret (terminal, Some (Errorf "could not delete service: " err))
      | None => mret (RemoveFinalizer terminal TerminalServiceFinalizer, None)
      end
    else mret (terminal, None)
  else
    let terminal := AddFinalizer terminal TerminalServiceFinalizer in
    err ← Create service;
    match err with
    | Some err => mret (terminal, IgnoreAlreadyExists (Some err))
    | None => mret (terminal, None)
    end.

Definition Reconcile (req : Request) : M (Result * option error) :=
  r ← Get (A:=Terminal) (RequestNamespacedName req);
  match r with
  | inl err => mret (zeroResult, IgnoreNotFound (Some err))
  | inr terminal =>
      '(terminal, err) ← reconcileDeployment terminal;
      match err with
      | Some err => mret (zeroResult, Some err)
      | None =>
          '(terminal, err) ← reconcileService terminal;
          match err with
          | Some err => mret (zeroResult, Some err)
          | None =>
              err ← Update terminal;
              match err with
              | Some err => mret (zeroResult, Some err)
              | None => mret (zeroResult, None)
              end
          end
      end
  end.

Definition SetupWithManager : Controller :=
  {| For := KTerminal; Owns := [KService; KDeployment]; Do := Reconcile |}.

End TerminalReconciler.

(** ** [internal/controller/user_controller.go] *)

Module UserReconciler.

Definition UserServiceAccountFinalizer : string := "marina.io.serviceaccount/finalizer".
Definition UserRoleBindingFinalizer : string := "marina.io.rolebinding/finalizer".

Definition serviceAccountForUser (user : User) : ServiceAccount :=
  {| ServiceAccountMeta :=
       {| Name := Name (UserMeta user);
          Namespace := Namespace (UserMeta user);
          Labels := ∅;
          DeletionTimestamp := None;
          Finalizers := [] |} |}.

Definition userRoleBindingForRole (user : User) (role : string) : RoleBinding :=
  {| RoleBindingMeta :=
       {| Name := Name (UserMeta user) +:+ "-" +:+ role;
          Namespace := Namespace (UserMeta user);
          Labels := ∅;
          DeletionTimestamp := None;
          Finalizers := [] |};
     Subjects :=
       [ {| SubjectKind := "ServiceAccount";
            SubjectName := Name (UserMeta user);
            SubjectNamespace := Namespace (UserMeta user) |} ];
     RoleRef_ :=
       {| RoleRefKind := "Role";
          RoleRefName := role;
          APIGroup := "rbac.authorization.k8s.io" |} |}.

Definition reconcileServiceAccount (user : User) : M (User * option error) :=
  let serviceAccount := serviceAccountForUser user in
  if GetDeletionTimestamp user is Some _ then
    if ContainsFinalizer user UserServiceAccountFinalizer then
      err ← Delete serviceAccount;
      match err with
      | Some err => mret (user, Some err)
      | None => mret (RemoveFinalizer user UserServiceAccountFinalizer, None)
      end
    else mret (user, None)
  else
    let user := AddFinalizer user UserServiceAccountFinalizer in
    err ← Create serviceAccount;
    match err with
    | Some err => mret (user, IgnoreAlreadyExists (Some err))
    | None => mret (user, None)
    end.

(** The [for _, role := range user.Spec.Roles] loop of
    [reconcileRoleBindings].  [Some err] is a [return err] from inside the
    loop ([err] may be nil: [client.IgnoreAlreadyExists] on a binding that
    exists returns nil and leaves the function); [None] is the loop
    running to its end. *)
Fixpoint roleBindingsLoop (user : User) (isDeleting : bool) (roles : list string)
    : M (option (option error)) :=
  match roles with
  | [] => mret None
  | role :: roles =>
      let binding := userRoleBindingForRole user role in
      if isDeleting then
        if ContainsFinalizer user UserRoleBindingFinalizer then
          err ← Delete binding;
          match err with
          | Some err => mret (Some (Some err))
          | None => roleBindingsLoop user isDeleting roles
          end
        else roleBindingsLoop user isDeleting roles
      else
        err ← Create binding;
        match err with
        | Some err => mret (Some (IgnoreAlreadyExists (Some err)))
        | None => roleBindingsLoop user isDeleting roles
        end
  end.

Definition reconcileRoleBindings (user : User) : M (User * option error) :=
  let isDeleting := bool_decide (is_Some (GetDeletionTimestamp user)) in
  let user := if isDeleting then user else AddFinalizer user UserRoleBindingFinalizer in
  returned ← roleBindingsLoop user isDeleting (Roles (UserSpec_ user));
  match returned with
  | Some err => mret (user, err)
  | None =>
      let user := if isDeleting then RemoveFinalizer user UserRoleBindingFinalizer else user in
      mret (user, None)
  end.

Definition Reconcile (req : Request) : M (Result * option error) :=
  r ← Get (A:=User) (RequestNamespacedName req);
  match r with
  | inl err => mret (zeroResult, IgnoreNotFound (Some err))
  | inr user =>
      '(user, err) ← reconcileServiceAccount user;
      match err with
      | Some err => mret (zeroResult, Some err)
      | None =>
          '(user, err) ← reconcileRoleBindings user;
          match err with
          | Some err => mret (zeroResult, Some err)
          | None =>
              err ← Update user;
              match err with
              | Some err => mret (zeroResult, Some err)
              | None => mret (zeroResult, None)
              end
          end
      end
  end.

Definition SetupWithManager : Controller :=
  {| For := KUser; Owns := [KServiceAccount; KRole; KRoleBinding]; Do := Reconcile |}.

End UserReconciler.

(** ** [cmd/app.go]: the controllers [start] sets up with the manager *)

Definition registered : list Controller :=
  [TerminalReconciler.SetupWithManager; UserReconciler.SetupWithManager].

(** ** [controllers/user_controller.go]: the earlier generation of the
    User reconciler, which looks every object up before it creates it *)

Module Legacy.
Module UserReconciler.

Definition UserServiceAccountFinalizer : string := "marina.io.serviceaccount/finalizer".
Definition UserRoleBindingFinalizer : string := "marina.io.rolebinding/finalizer".

Definition desiredServiceAccount (user : User) : ServiceAccount :=
  {| ServiceAccountMeta :=
       {| Name := "user-" +:+ Name (UserMeta user);
          Namespace := Namespace (UserMeta user);
          Labels := ∅;
          DeletionTimestamp := None;
          Finalizers := [] |} |}.

Definition desiredRoleBinding (user : User) (role : string) : RoleBinding :=
  {| RoleBindingMeta :=
       {| Name := "user-" +:+ Name (UserMeta user) +:+ "-" +:+ role;
          Namespace := Namespace (UserMeta user);
          Labels := ∅;
          DeletionTimestamp := None;
          Finalizers := [] |};
     Subjects :=
       [ {| SubjectKind := "ServiceAccount";
            SubjectName := "user-" +:+ Name (UserMeta user);
            SubjectNamespace := Namespace (UserMeta user) |} ];
     RoleRef_ :=
       {| RoleRefKind := "Role";
          RoleRefName := role;
          APIGroup := "rbac.authorization.k8s.io" |} |}.

Definition reconcileServiceAccount (user : User) : M (User * option error) :=
  let desired := desiredServiceAccount user in
  if GetDeletionTimestamp user is Some _ then
    if ContainsFinalizer user UserServiceAccountFinalizer then
      err ← Delete desired;
      match err with
      | Some err => mret (user, Some err)
      | None => mret (RemoveFinalizer user UserServiceAccountFinalizer, None)
      end
    else mret (user, None)
  else
    found ← Get (A:=ServiceAccount) (ObjectKeyFromObject (toObject desired));
    match found with
    | inl err =>
        if IsNotFound err then
          err ← Create desired;
          match err with
          | Some err => mret (user, Some err)
          | None => mret (AddFinalizer user UserServiceAccountFinalizer, None)
          end
        else mret (user, Some err)
    | inr _ => mret (user, None)
    end.

(** The loop of [reconcileRoleBindingss]; the in-memory [user] is mutated
    inside the loop, so it is threaded through.  The result is the user
    and [Some err] for a [return err] from inside the loop, [None] for the
    loop running to its end. *)
Fixpoint roleBindingsLoop (user : User) (isDeleting : bool) (roles : list string)
    : M (User * option error) :=
  match roles with
  | [] => mret (user, None)
  | role :: roles =>
      let desired := desiredRoleBinding user role in
      if isDeleting then
        if ContainsFinalizer user UserRoleBindingFinalizer then
          err ← Delete desired;
          match err with
          | Some err =>
              if IsNotFound err then mret (user, Some err)
              else roleBindingsLoop user isDeleting roles
          | None => roleBindingsLoop user isDeleting roles
          end
        else roleBindingsLoop user isDeleting roles
      else
        foundRole ← Get (A:=Role) (Namespace (UserMeta user), role);
        match foundRole with
        | inl err =>
            if IsNotFound err then mret (user, Some (Errorf "role does not exist: " err))
            else mret (user, Some (Errorf "could not fetch role: " err))
        | inr _ =>
            foundRoleBinding ← Get (A:=RoleBinding) (ObjectKeyFromObject (toObject desired));
            match foundRoleBinding with
            | inl err =>
                if IsNotFound err then
                  err ← Create desired;
                  match err with
                  | Some err => mret (user, Some err)
                  | None =>
                      roleBindingsLoop
                        (AddFinalizer user UserRoleBindingFinalizer) isDeleting roles
                  end
                else mret (user, Some err)
            | inr _ =>
                roleBindingsLoop
                  (AddFinalizer user UserRoleBindingFinalizer) isDeleting roles
            end
        end
  end.

Definition reconcileRoleBindingss (user : User) : M (User * option error) :=
  let isDeleting := bool_decide (is_Some (GetDeletionTimestamp user)) in
  '(user, err) ← roleBindingsLoop user isDeleting (Roles (UserSpec_ user));
  match err with
  | Some err => mret (user, Some err)
  | None =>
      let user := if isDeleting then RemoveFinalizer user UserRoleBindingFinalizer else user in
      mret (user, None)
  end.

Definition Reconcile (req : Request) : M (Result * option error) :=
  r ← Get (A:=User) (RequestNamespacedName req);
  match r with
  | inl err =>
      if IsNotFound err then mret (zeroResult, IgnoreNotFound (Some err))
      else mret (zeroResult, Some err)
  | inr user =>
      '(user, err) ← reconcileServiceAccount user;
      match err with
      | Some err => mret (zeroResult, Some err)
      | None =>
          '(user, err) ← reconcileRoleBindingss user;
          match err with
          | Some err => mret (zeroResult, Some err)
          | None =>
              err ← Update user;
              match err with
              | Some err => mret (zeroResult, Some err)
              | None => mret (zeroResult, None)
              end
          end
      end
  end.

Definition SetupWithManager : Controller :=
  {| For := KUser; Owns := [KServiceAccount; KRole; KRoleBinding]; Do := Reconcile |}.

End UserReconciler.
End Legacy.

(** * Vocabulary of the properties *)

(** The events a piece of code added to the trace. *)
Definition emitted (w w' : World) (evs : list Event) : Prop :=
  trace w' = trace w ++ evs.

Definition mkEvent (v : Verb) (k : StoreKey) (err : option StatusReason) : Event :=
  {| evVerb := v; evKind := k.1; evKey := k.2; evErr := err |}.

(** The store of a cluster files every object under its own kind,
    namespace and name. *)
Definition wellKeyed (st : gmap StoreKey Object) : Prop :=
  map_Forall (λ k o, storeKey o = k) st.

(** A store that answers [NotFound] and [AlreadyExists] only when that is
    what its contents say: the failures of the script are of the other
    reasons (conflicts, timeouts, refusals, ...). *)
Definition truthful (f : option StatusReason) : Prop :=
  f ≠ Some StatusReasonNotFound ∧ f ≠ Some StatusReasonAlreadyExists.

Definition consistentFaults (fs : list (option StatusReason)) : Prop :=
  Forall truthful fs.

(** The same cluster with another failure script. *)
Definition withFaults (fs : list (option StatusReason)) (w : World) : World :=
  {| store := store w; faults := fs; clock := clock w; trace := trace w |}.

(** The dispatcher invoking a reconciler again and again, nobody else
    writing to the store in between; each pass has a failure script of its
    own. *)
Fixpoint reconcileRepeatedly (reconcile : M (Result * option error))
    (scripts : list (list (option StatusReason))) (w : World) : World :=
  match scripts with
  | [] => w
  | fs :: scripts => reconcileRepeatedly reconcile scripts (reconcile (withFaults fs w)).2
  end.

(** What a call to the store amounts to, case by case. *)
Inductive GetOutcome (k : StoreKey) (w : World) : error + Object → World → Prop :=
| GetFault r :
    nextFault w = Some r →
    GetOutcome k w (inl (StatusError r)) (served VerbGet k (Some r) (store w) w)
| GetNotFound :
    nextFault w = None → store w !! k = None →
    GetOutcome k w (inl (StatusError StatusReasonNotFound))
      (served VerbGet k (Some StatusReasonNotFound) (store w) w)
| GetFound o :
    nextFault w = None → store w !! k = Some o →
    GetOutcome k w (inr o) (served VerbGet k None (store w) w).

Inductive CreateOutcome (o : Object) (w : World) : option error → World → Prop :=
| CreateFault r :
    nextFault w = Some r →
    CreateOutcome o w (Some (StatusError r))
      (served VerbCreate (storeKey o) (Some r) (store w) w)
| CreateExists old :
    nextFault w = None → store w !! storeKey o = Some old →
    CreateOutcome o w (Some (StatusError StatusReasonAlreadyExists))
      (served VerbCreate (storeKey o) (Some StatusReasonAlreadyExists) (store w) w)
| CreateStored :
    nextFault w = None → store w !! storeKey o = None →
    CreateOutcome o w None
      (served VerbCreate (storeKey o) None (<[storeKey o := o]> (store w)) w).

Inductive UpdateOutcome (o : Object) (w : World) : option error → World → Prop :=
| UpdateFault r :
    nextFault w = Some r →
    UpdateOutcome o w (Some (StatusError r))
      (served VerbUpdate (storeKey o) (Some r) (store w) w)
| UpdateNotFound :
    nextFault w = None → store w !! storeKey o = None →
    UpdateOutcome o w (Some (StatusError StatusReasonNotFound))
      (served VerbUpdate (storeKey o) (Some StatusReasonNotFound) (store w) w)
| UpdateErased old t :
    nextFault w = None → store w !! storeKey o = Some old →
    DeletionTimestamp (objMeta o) = Some t → Finalizers (objMeta o) = [] →
    UpdateOutcome o w None
      (served VerbUpdate (storeKey o) None (delete (storeKey o) (store w)) w)
| UpdateStored old :
    nextFault w = None → store w !! storeKey o = Some old →
    (DeletionTimestamp (objMeta o) = None ∨ Finalizers (objMeta o) ≠ []) →
    UpdateOutcome o w None
      (served VerbUpdate (storeKey o) None (<[storeKey o := o]> (store w)) w).

Inductive DeleteOutcome (o : Object) (w : World) : option error → World → Prop :=
| DeleteFault r :
    nextFault w = Some r →
    DeleteOutcome o w (Some (StatusError r))
      (served VerbDelete (storeKey o) (Some r) (store w) w)
| DeleteNotFound :
    nextFault w = None → store w !! storeKey o = None →
    DeleteOutcome o w (Some (StatusError StatusReasonNotFound))
      (served VerbDelete (storeKey o) (Some StatusReasonNotFound) (store w) w)
| DeleteRemoved old :
    nextFault w = None → store w !! storeKey o = Some old →
    Finalizers (objMeta old) = [] →
    DeleteOutcome o w None
      (served VerbDelete (storeKey o) None (delete (storeKey o) (store w)) w)
| DeletePending old t :
    nextFault w = None → store w !! storeKey o = Some old →
    Finalizers (objMeta old) ≠ [] → DeletionTimestamp (objMeta old) = Some t →
    DeleteOutcome o w None (served VerbDelete (storeKey o) None (store w) w)
| DeleteMarked old :
    nextFault w = None → store w !! storeKey o = Some old →
    Finalizers (objMeta old) ≠ [] → DeletionTimestamp (objMeta old) = None →
    DeleteOutcome o w None
      (served VerbDelete (storeKey o) None
         (<[storeKey o :=
              setObjMeta (withDeletionTimestamp (Some (clock w)) (objMeta old)) old]>
            (store w)) w).

(** The three helpers [reconcileDeployment], [reconcileService] and
    [reconcileServiceAccount] of the current controllers have one shape:
    on a primary object marked for deletion, delete the derived object if
    the finalizer is there and drop the finalizer; otherwise add the
    finalizer and create the derived object, an existing one counting as
    created.  [wrap] is what the helper does to the error of a failed
    [Delete]. *)
Inductive DerivedOutcome {A D} `{ClientObject A} `{ClientObject D}
    (finalizer : string) (desired : D) (wrap : error → error) (obj : A) (w : World)
    : A * option error → World → Prop :=
| DerivedIdle t :
    GetDeletionTimestamp obj = Some t → ContainsFinalizer obj finalizer = false →
    DerivedOutcome finalizer desired wrap obj w (obj, None) w
| DerivedDeleteFailed t err w1 :
    GetDeletionTimestamp obj = Some t → ContainsFinalizer obj finalizer = true →
    DeleteOutcome (toObject desired) w (Some err) w1 →
    DerivedOutcome finalizer desired wrap obj w (obj, Some (wrap err)) w1
| DerivedDeleted t w1 :
    GetDeletionTimestamp obj = Some t → ContainsFinalizer obj finalizer = true →
    DeleteOutcome (toObject desired) w None w1 →
    DerivedOutcome finalizer desired wrap obj w (RemoveFinalizer obj finalizer, None) w1
| DerivedCreate err w1 :
    GetDeletionTimestamp obj = None →
    CreateOutcome (toObject desired) w err w1 →
    DerivedOutcome finalizer desired wrap obj w
      (AddFinalizer obj finalizer, IgnoreAlreadyExists err) w1.

(** An error of the store is accounted for by what the pass returns when
    it is the benign [AlreadyExists] of a [Create], or when the error the
    pass returns carries its reason. *)
Definition accounted (err : option error) (ev : Event) : Prop :=
  match evErr ev with
  | None => True
  | Some r =>
      (evVerb ev = VerbCreate ∧ r = StatusReasonAlreadyExists) ∨
      (∃ e, err = Some e ∧ ReasonForError e = r)
  end.

(** The primary object is gone: the initial [Get] answered [NotFound]. *)
Definition primaryNotFound (primary : Kind) (ev : Event) : Prop :=
  evVerb ev = VerbGet ∧ evKind ev = primary ∧ evErr ev = Some StatusReasonNotFound.

(** Where the binding of a role of a user is filed. *)
Definition bindingKey (user : User) (role : string) : StoreKey :=
  storeKey (toObject (UserReconciler.userRoleBindingForRole user role)).

(** The Go types agree with the untyped view the store has of them. *)
Class LawfulObject (A : Type) `{ClientObject A} : Prop := {
  objMeta_toObject (a : A) : objMeta (toObject a) = getMeta a;
  objKind_toObject (a : A) : objKind (toObject a) = kindOf A;
  getMeta_setMeta (m : ObjectMeta) (a : A) : getMeta (setMeta m a) = m;
  setMeta_getMeta (a : A) : setMeta (getMeta a) a = a;
  fromObject_Some (o : Object) (a : A) : fromObject o = Some a → o = toObject a;
  fromObject_kind (o : Object) : objKind o = kindOf A → is_Some (fromObject o);
}.

(** A primary object whose teardown is over: it is marked for deletion,
    the finalizers of its controller are gone, and it is still in the store
    only because somebody else's finalizer retains it. *)
Definition tornDown {A} `{ClientObject A} (finalizers : list string)
    (st : gmap StoreKey Object) (key : NamespacedName) : Prop :=
  ∃ obj : A,
    st !! (kindOf A, key) = Some (toObject obj) ∧
    storeKey (toObject obj) = (kindOf A, key) ∧
    is_Some (GetDeletionTimestamp obj) ∧
    (∀ f, f ∈ finalizers → ContainsFinalizer obj f = false) ∧
    Finalizers (getMeta obj) ≠ [].

(** A live Terminal that has been reconciled: both finalizers are on it
    and both derived objects are in the store. *)
Definition terminalSettled (st : gmap StoreKey Object) (key : NamespacedName) : Prop :=
  ∃ terminal : Terminal,
    st !! (KTerminal, key) = Some (ObjTerminal terminal) ∧
    storeKey (ObjTerminal terminal) = (KTerminal, key) ∧
    GetDeletionTimestamp terminal = None ∧
    ContainsFinalizer terminal TerminalReconciler.TerminalDeploymentFinalizer = true ∧
    ContainsFinalizer terminal TerminalReconciler.TerminalServiceFinalizer = true ∧
    is_Some (st !! storeKey (toObject (TerminalReconciler.deploymentForTerminal terminal))) ∧
    is_Some (st !! storeKey (toObject (TerminalReconciler.serviceForTerminal terminal))).

(** A live User that has been reconciled: both finalizers are on it, the
    ServiceAccount is in the store, and so is the binding of the first
    role of the list (the one the loop stops at on the next pass). *)
Definition userSettled (st : gmap StoreKey Object) (key : NamespacedName) : Prop :=
  ∃ user : User,
    st !! (KUser, key) = Some (ObjUser user) ∧
    storeKey (ObjUser user) = (KUser, key) ∧
    GetDeletionTimestamp user = None ∧
    ContainsFinalizer user UserReconciler.UserServiceAccountFinalizer = true ∧
    ContainsFinalizer user UserReconciler.UserRoleBindingFinalizer = true ∧
    is_Some (st !! storeKey (toObject (UserReconciler.serviceAccountForUser user))) ∧
    match Roles (UserSpec_ user) with
    | [] => True
    | role :: _ => is_Some (st !! bindingKey user role)
    end.

(** Where the earlier generation files the binding of a role of a user. *)
Definition legacyBindingKey (user : User) (role : string) : StoreKey :=
  storeKey (toObject (Legacy.UserReconciler.desiredRoleBinding user role)).

(** A [Delete] that answered [NotFound] shows in the error returned. *)
Definition deleteNotFoundReported (err : option error) (ev : Event) : Prop :=
  evVerb ev = VerbDelete → evErr ev = Some StatusReasonNotFound →
  ∃ e, err = Some e ∧ ReasonForError e = StatusReasonNotFound.

(** The reconcilers of the repository, of both generations. *)
Definition generations : list Controller :=
  registered ++ [Legacy.UserReconciler.SetupWithManager].

(** A failure of the [Get] of the primary object, other than [NotFound],
    shows in the error returned. *)
Definition primaryGetReported (primary : Kind) (err : option error) (ev : Event) : Prop :=
  evVerb ev = VerbGet → evKind ev = primary →
  ∀ rsn, evErr ev = Some rsn → rsn ≠ StatusReasonNotFound →
  ∃ e, err = Some e ∧ ReasonForError e = rsn.

(** The user reconcilers of both generations, each with the place where
    it files the binding of a role. *)
Definition userReconcilers : list (Controller * (User → string → StoreKey)) :=
  [(UserReconciler.SetupWithManager, bindingKey);
   (Legacy.UserReconciler.SetupWithManager, legacyBindingKey)].

(** A store that serves every call: no failure is scripted. *)
Definition faultFree (w : World) : Prop := faults w = [].

(** The world after a call that was served. *)
Definition afterGet {A} `{ClientObject A} (key : NamespacedName) (w : World) : World :=
  served VerbGet (kindOf A, key)
    (if store w !! (kindOf A, key) is Some _ then None else Some StatusReasonNotFound)
    (store w) w.

Definition afterCreate {A} `{ClientObject A} (obj : A) (w : World) : World :=
  served VerbCreate (storeKey (toObject obj)) None
    (<[storeKey (toObject obj) := toObject obj]> (store w)) w.

Definition afterUpdate {A} `{ClientObject A} (obj : A) (w : World) : World :=
  served VerbUpdate (storeKey (toObject obj)) None
    (<[storeKey (toObject obj) := toObject obj]> (store w)) w.

(** Somebody creates a Role between two passes; the next pass is served
    without failures. *)
Definition roleCreated (role : Role) (w : World) : World :=
  {| store := <[storeKey (ObjRole role) := ObjRole role]> (store w);
     faults := [];
     clock := clock w;
     trace := trace w |}.

(** Two in-memory copies of one object: same namespace, name, deletion
    timestamp and spec; the finalizers may differ. *)
Definition sameUser (u u' : User) : Prop :=
  Namespace (UserMeta u') = Namespace (UserMeta u) ∧
  Name (UserMeta u') = Name (UserMeta u) ∧
  DeletionTimestamp (UserMeta u') = DeletionTimestamp (UserMeta u) ∧
  UserSpec_ u' = UserSpec_ u.



(** * Scenarios *)

(** The objects of the repository's test suites, and clusters made of
    them. *)
Definition metaOf (ns name : string) (deleted : option Time) (fs : list string) : ObjectMeta :=
  {| Name := name; Namespace := ns; Labels := ∅;
     DeletionTimestamp := deleted; Finalizers := fs |}.

(** A cluster that holds the given objects, each under its own key, and
    answers with the given failure script. *)
Definition clusterOf (objs : list Object) (fs : list (option StatusReason)) : World :=
  {| store := list_to_map ((λ o, (storeKey o, o)) <$> objs);
     faults := fs;
     clock := 0%nat;
     trace := [] |}.

Definition testTerminal : Terminal :=
  {| TerminalMeta := metaOf "marina-system" "terminal-test" None [];
     TerminalSpec_ := {| Image := "busybox:1.36" |} |}.

Definition testTerminalRequest : Request :=
  {| RequestNamespacedName := ("marina-system", "terminal-test") |}.

(** The test Terminal after [kubectl delete]: marked, and retained for
    its two finalizers. *)
Definition deletedTerminal : Terminal :=
  {| TerminalMeta :=
       metaOf "marina-system" "terminal-test" (Some 1%nat)
         [TerminalReconciler.TerminalDeploymentFinalizer;
          TerminalReconciler.TerminalServiceFinalizer];
     TerminalSpec_ := {| Image := "busybox:1.36" |} |}.

Definition testUser (deleted : option Time) (fs : list string) (roles : list string) : User :=
  {| UserMeta := metaOf "marina-system" "user-test" deleted fs;
     UserSpec_ := {| UserSpecName := "user-test"; Password := []; Roles := roles |} |}.

Definition testUserRequest : Request :=
  {| RequestNamespacedName := ("marina-system", "user-test") |}.

Definition testRole (name : string) : Role :=
  {| RoleMeta := metaOf "marina-system" name None [] |}.

(** A new Terminal, nothing derived from it yet. *)
Definition newTerminalCluster : World := clusterOf [ObjTerminal testTerminal] [].

(** A Terminal under teardown whose Deployment is gone already (somebody
    removed it by hand); its Service is still there. *)
Definition deploymentGoneCluster : World :=
  clusterOf
    [ObjTerminal deletedTerminal;
     ObjService (TerminalReconciler.serviceForTerminal deletedTerminal)] [].

(** A Terminal under teardown with both derived objects in place. *)
Definition teardownCluster : World :=
  clusterOf
    [ObjTerminal deletedTerminal;
     ObjDeployment (TerminalReconciler.deploymentForTerminal deletedTerminal);
     ObjService (TerminalReconciler.serviceForTerminal deletedTerminal)] [].

(** A new Terminal whose Deployment somebody has created already. *)
Definition deploymentPresentCluster : World :=
  clusterOf
    [ObjTerminal testTerminal;
     ObjDeployment (TerminalReconciler.deploymentForTerminal testTerminal)] [].

(** A new Terminal in a cluster that refuses the second call of the
    pass, the [Create] of the Deployment. *)
Definition forbiddenCluster : World :=
  clusterOf [ObjTerminal testTerminal] [None; Some StatusReasonForbidden].

(** A User under teardown whose ServiceAccount is gone already. *)
Definition deletedUser : User :=
  testUser (Some 1%nat)
    [UserReconciler.UserServiceAccountFinalizer; UserReconciler.UserRoleBindingFinalizer]
    ["SomeRole"].

Definition serviceAccountGoneCluster : World := clusterOf [ObjUser deletedUser] [].

(** A new User that names a Role nobody has created. *)
Definition missingRoleUser : User := testUser None [] ["missing"].

Definition missingRoleCluster : World := clusterOf [ObjUser missingRoleUser] [].

(** The User of the partial-failure scenario: Roles "A" and "B" exist,
    Role "missing" does not. *)
Definition scenarioUser : User := testUser None [] ["A"; "missing"; "B"].

Definition scenarioCluster : World :=
  clusterOf [ObjUser scenarioUser; ObjRole (testRole "A"); ObjRole (testRole "B")] [].

(** A User that names one Role, with the binding of another Role left
    over from an earlier list of roles. *)
Definition shrunkUser : User := testUser None [] ["SomeRole"].

Definition orphanCluster : World :=
  clusterOf
    [ObjUser shrunkUser;
     ObjRole (testRole "SomeRole");
     ObjRoleBinding (UserReconciler.userRoleBindingForRole shrunkUser "AnotherRole");
     ObjRoleBinding (Legacy.UserReconciler.desiredRoleBinding shrunkUser "AnotherRole")] [].

(** The cluster after the first pass over the new Terminal, and after the
    pass that tears the deleted Terminal down. *)
Definition reconciledCluster : World :=
  (TerminalReconciler.Reconcile testTerminalRequest newTerminalCluster).2.

Definition tornDownCluster : World :=
  (TerminalReconciler.Reconcile testTerminalRequest teardownCluster).2.

(** * Vocabulary of the further properties *)

(** What a [Delete] that the store served leaves under a key: nothing,
    or an object that is marked for deletion and waits for its own
    finalizers. *)
Definition goneOrTerminating (st : gmap StoreKey Object) (k : StoreKey) : Prop :=
  match st !! k with
  | None => True
  | Some o => is_Some (DeletionTimestamp (objMeta o)) ∧ Finalizers (objMeta o) ≠ []
  end.

(** Whatever is stored under a key carries no finalizers: a [Delete]
    removes it at once. *)
Definition unguarded (st : gmap StoreKey Object) (k : StoreKey) : Prop :=
  ∀ o, st !! k = Some o → Finalizers (objMeta o) = [].

(** The test User under teardown, with its ServiceAccount and the
    binding of its one role in place. *)
Definition userTeardownCluster : World :=
  clusterOf
    [ObjUser deletedUser;
     ObjServiceAccount (UserReconciler.serviceAccountForUser deletedUser);
     ObjRoleBinding (UserReconciler.userRoleBindingForRole deletedUser "SomeRole")] [].


(** The test Terminal after its image was changed: the Deployment in the
    store is the one that was built for the earlier image. *)
Definition staleDeployment : Deployment :=
  TerminalReconciler.deploymentForTerminal
    {| TerminalMeta := metaOf "marina-system" "terminal-test" None [];
       TerminalSpec_ := {| Image := "busybox:1.35" |} |}.

Definition staleDeploymentCluster : World :=
  clusterOf [ObjTerminal testTerminal; ObjDeployment staleDeployment] [].

(** The test User after a role was added to its list: the binding of the
    first role is there from an earlier pass, the added Role exists. *)
Definition grownUser : User :=
  testUser None
    [UserReconciler.UserServiceAccountFinalizer; UserReconciler.UserRoleBindingFinalizer]
    ["SomeRole"; "AnotherRole"].

Definition grownCluster : World :=
  clusterOf
    [ObjUser grownUser;
     ObjRole (testRole "SomeRole");
     ObjRole (testRole "AnotherRole");
     ObjServiceAccount (UserReconciler.serviceAccountForUser grownUser);
     ObjRoleBinding (UserReconciler.userRoleBindingForRole grownUser "SomeRole")] [].

(** The calls of one pass, as the current reconcilers make them: the
    [Get] of the primary object under the name of the request first, then
    creations and deletions of objects of the owned kinds, and then at
    most one [Update], of an object of the primary kind, last. *)
Definition passShape (c : Controller) (req : Request) (evs : list Event) : Prop :=
  ∃ rsn owned last,
    evs = mkEvent VerbGet (For c, RequestNamespacedName req) rsn :: owned ++ last ∧
    Forall (λ ev, evKind ev ∈ Owns c ∧ (evVerb ev = VerbCreate ∨ evVerb ev = VerbDelete))
      owned ∧
    (last = [] ∨ ∃ key r, last = [mkEvent VerbUpdate (For c, key) r]).

(** A second Terminal of the namespace, next to the test Terminal, with
    its Deployment. *)
Definition otherTerminal : Terminal :=
  {| TerminalMeta := metaOf "marina-system" "other" None [];
     TerminalSpec_ := {| Image := "alpine:3" |} |}.

Definition twoTerminalsCluster : World :=
  clusterOf
    [ObjTerminal testTerminal;
     ObjTerminal otherTerminal;
     ObjDeployment (TerminalReconciler.deploymentForTerminal otherTerminal)] [].

(** [labels.SelectorFromSet(selector).Matches(labels)]: a set of labels
    is selected when it carries every label of the selector, with the
    same value. *)
Definition selects (selector labels : gmap string string) : Prop :=
  selector ⊆ labels.

(** Two Users of one namespace, "a" with the role "b-c" and "a-b" with
    the role "c"; the first one has been reconciled. *)
Definition userA : User :=
  {| UserMeta := metaOf "marina-system" "a" None [];
     UserSpec_ := {| UserSpecName := "a"; Password := []; Roles := ["b-c"] |} |}.

Definition userAB : User :=
  {| UserMeta := metaOf "marina-system" "a-b" None [];
     UserSpec_ := {| UserSpecName := "a-b"; Password := []; Roles := ["c"] |} |}.

Definition collisionCluster : World :=
  clusterOf
    [ObjUser userAB;
     ObjRoleBinding (UserReconciler.userRoleBindingForRole userA "b-c")] [].

(** A User under teardown in the earlier generation, its binding in
    place, in a cluster that refuses the [Delete] of the binding. *)
Definition legacyDeletedUser : User :=
  testUser (Some 1%nat) [Legacy.UserReconciler.UserRoleBindingFinalizer] ["SomeRole"].

Definition refusedDeleteCluster : World :=
  clusterOf
    [ObjUser legacyDeletedUser;
     ObjRoleBinding (Legacy.UserReconciler.desiredRoleBinding legacyDeletedUser "SomeRole")]
    [Some StatusReasonForbidden].

(** A new User with two roles, neither bound yet. *)
Definition newUser : User := testUser None [] ["SomeRole"; "AnotherRole"].

Definition newUserCluster : World :=
  clusterOf
    [ObjUser newUser; ObjRole (testRole "SomeRole"); ObjRole (testRole "AnotherRole")] [].

(** An empty cluster. *)
Definition emptyCluster : World := clusterOf [] [].

(** A User under teardown whose list names a role twice, with its
    ServiceAccount and the binding of that role in place. *)
Definition repeatedRoleUser : User :=
  testUser (Some 1%nat)
    [UserReconciler.UserServiceAccountFinalizer; UserReconciler.UserRoleBindingFinalizer]
    ["SomeRole"; "SomeRole"].

Definition repeatedRoleCluster : World :=
  clusterOf
    [ObjUser repeatedRoleUser;
     ObjServiceAccount (UserReconciler.serviceAccountForUser repeatedRoleUser);
     ObjRoleBinding (UserReconciler.userRoleBindingForRole repeatedRoleUser "SomeRole")] [].

(** A new User whose list names "SomeRole" twice, before "AnotherRole". *)
Definition stutterUser : User :=
  testUser None [] ["SomeRole"; "SomeRole"; "AnotherRole"].

Definition stutterCluster : World := clusterOf [ObjUser stutterUser] [].

(** * [cmd]: the command line of the manager *)

Module cmd.

(** The flags of [cli.App], as [App] declares them: name, default value
    and environment variables. *)
Inductive FlagValue :=
| StringValue (s : string)
| BoolValue (b : bool)
| IntValue (n : Z).

Record Flag := {
  FlagName : string;
  Value : FlagValue;
  EnvVars : list string;
}.

(** [App().Flags] *)
Definition Flags : list Flag :=
  [ {| FlagName := "kubeconfig"; Value := StringValue ""; EnvVars := ["KUBECONFIG"] |};
    {| FlagName := "metrics-bind-address"; Value := StringValue "0"; EnvVars := [] |};
    {| FlagName := "enable-leader-election"; Value := BoolValue false; EnvVars := [] |};
    {| FlagName := "health-probe-bind-address"; Value := StringValue ":8081"; EnvVars := [] |};
    {| FlagName := "metrics-secure"; Value := BoolValue false; EnvVars := [] |};
    {| FlagName := "enable-http2"; Value := BoolValue false; EnvVars := [] |};
    {| FlagName := "webhook-port"; Value := IntValue 9443; EnvVars := [] |} ].

(** [*cli.Context], through the accessors [start] reads it with. *)
Record Context := {
  String_ : string → string;
  Bool : string → bool;
  Int : string → Z;
}.

(** The contexts the library hands to the action of an App with the
    given flags: looking up a name that is not among the flags gives the
    zero value of the type asked for ([cli.Context.Bool] and its
    siblings return it when [lookupFlagSet] finds no flag set that
    defines the name). *)
Definition parsedBy (flags : list Flag) (ctx : Context) : Prop :=
  ∀ name, name ∉ FlagName <$> flags →
    String_ ctx name = "" ∧ Bool ctx name = false ∧ Int ctx name = 0.

(** The context of a command line that sets some of the flags of an
    App: what the command line sets, else the default of the flag (the
    environment is left out). *)
Definition contextOf (flags : list Flag) (given : gmap string FlagValue) : Context :=
  let lookup name :=
    match given !! name with
    | Some v => Some v
    | None => (λ p, Value p.2) <$> list_find (λ f, FlagName f = name) flags
    end in
  let declared name := bool_decide (name ∈ FlagName <$> flags) in
  {| String_ name :=
       if declared name then
         match lookup name with Some (StringValue s) => s | _ => "" end
       else "";
     Bool name :=
       if declared name then
         match lookup name with Some (BoolValue b) => b | _ => false end
       else false;
     Int name :=
       if declared name then
         match lookup name with Some (IntValue n) => n | _ => 0 end
       else 0 |}.

(** [tls.Config], as far as [start] touches it. *)
Record TLSConfig := { NextProtos : list string }.

(** Where the [rest.Config] comes from. *)
Inductive ConfigSource :=
| BuildConfigFromFlags (masterUrl kubeconfigPath : string)
| InClusterConfig.

(** [metricsserver.Options], [webhook.Options] and [ctrl.Options], the
    fields [start] sets. *)
Record MetricsOptions := {
  BindAddress : string;
  SecureServing : bool;
  MetricsTLSOpts : list (TLSConfig → TLSConfig);
}.

Record WebhookOptions := {
  Port : Z;
  WebhookTLSOpts : list (TLSConfig → TLSConfig);
}.

Record Options := {
  Metrics : MetricsOptions;
  WebhookServer : WebhookOptions;
  HealthProbeBindAddress : string;
  LeaderElection : bool;
  LeaderElectionID : string;
}.

(** What [start] sets up before it starts the manager: the source of
    the configuration, the options of [ctrl.NewManager], the controllers
    and the health checks.  The calls into the framework are taken to
    succeed (on a failure [start] logs it and exits). *)
Record Manager := {
  Config : ConfigSource;
  ManagerOptions : Options;
  Controllers : list Controller;
  Checks : list string;
}.

Definition disableHTTP2 (c : TLSConfig) : TLSConfig :=
  {| NextProtos := ["http/1.1"] |}.

Definition start (ctx : Context) : Manager :=
  let metricsAddr := String_ ctx "metrics-bind-address" in
  let enableLeaderElection := Bool ctx "enable-leader-elect" in
  let probeAddr := String_ ctx "health-probe-bind-address" in
  let secureMetrics := Bool ctx "metrics-secure" in
  let enableHTTP2 := Bool ctx "enable-http2" in
  let tlsOpts := if negb enableHTTP2 then [disableHTTP2] else [] in
  let webhookServer := {| Port := Int ctx "webhook-port"; WebhookTLSOpts := tlsOpts |} in
  let kubeconfig := String_ ctx "kubeconfig" in
  let config :=
    if bool_decide (kubeconfig ≠ "") then BuildConfigFromFlags "" kubeconfig
    else InClusterConfig in
  {| Config := config;
     ManagerOptions :=
       {| Metrics :=
            {| BindAddress := metricsAddr;
               SecureServing := secureMetrics;
               MetricsTLSOpts := tlsOpts |};
          WebhookServer := webhookServer;
          HealthProbeBindAddress := probeAddr;
          LeaderElection := enableLeaderElection;
          LeaderElectionID := "763ba5de.marina.io" |};
     Controllers := [TerminalReconciler.SetupWithManager; UserReconciler.SetupWithManager];
     Checks := ["healthz"; "readyz"] |}.

End cmd.

(** The command line [manager --enable-leader-election]. *)
Definition leaderElectionAsked : gmap string cmd.FlagValue :=
  {[ "enable-leader-election" := cmd.BoolValue true ]}.

(** Somebody deletes an object ([kubectl delete]): one [Delete], served
    by the store. *)
Definition kubectlDelete (o : Object) (w : World) : World :=
  (apiDelete o (withFaults [] w)).2.
(** * Properties *)

(** ** Running monadic code *)

Lemma bind_run {A B} (m : M A) (f : A → M B) (w : World) :
  (m ≫= f) w = f (m w).1 (m w).2.
Proof. unfold mbind, M_bind. by destruct (m w). Qed.

Lemma bind_inv {A B} (m : M A) (f : A → M B) w b w2 :
  (m ≫= f) w = (b, w2) → ∃ a w1, m w = (a, w1) ∧ f a w1 = (b, w2).
Proof. rewrite bind_run. destruct (m w) as [a w1]. eauto. Qed.

Lemma ret_inv {A} (a b : A) (w w' : World) :
  mret (M:=M) a w = (b, w') → a = b ∧ w = w'.
Proof. unfold mret, M_ret. by intros [= -> ->]. Qed.

(** [run_inv H] splits an equation [code w = (result, w')] along the
    first bind of [code]. *)
Ltac run_inv H :=
  lazymatch type of H with
  | (_ ≫= _) _ = (_, _) =>
      let a := fresh "a" in
      let w1 := fresh "w" in
      let H1 := fresh "Hcall" in
      let H2 := fresh "Hrest" in
      apply bind_inv in H as (a & w1 & H1 & H2)
  | mret _ _ = (_, _) => apply ret_inv in H as [? ?]; simplify_eq
  end.

(** ** Finalizers *)

Lemma AddFinalizerMeta_Name m f : Name (AddFinalizerMeta m f) = Name m.
Proof. unfold AddFinalizerMeta. by destruct (ContainsFinalizerMeta m f). Qed.

Lemma AddFinalizerMeta_Namespace m f : Namespace (AddFinalizerMeta m f) = Namespace m.
Proof. unfold AddFinalizerMeta. by destruct (ContainsFinalizerMeta m f). Qed.

Lemma AddFinalizerMeta_DeletionTimestamp m f :
  DeletionTimestamp (AddFinalizerMeta m f) = DeletionTimestamp m.
Proof. unfold AddFinalizerMeta. by destruct (ContainsFinalizerMeta m f). Qed.

Lemma AddFinalizerMeta_contains m f : ContainsFinalizerMeta (AddFinalizerMeta m f) f = true.
Proof.
  unfold AddFinalizerMeta. destruct (ContainsFinalizerMeta m f) eqn:Hc; [done|].
  apply bool_decide_eq_true. simpl. apply elem_of_app. right. by left.
Qed.

Lemma AddFinalizerMeta_contains_other m f g :
  ContainsFinalizerMeta m g = true → ContainsFinalizerMeta (AddFinalizerMeta m f) g = true.
Proof.
  unfold AddFinalizerMeta. destruct (ContainsFinalizerMeta m f) eqn:Hc; [done|].
  intros Hg%bool_decide_eq_true. apply bool_decide_eq_true. simpl.
  apply elem_of_app. by left.
Qed.

Lemma AddFinalizerMeta_id m f : ContainsFinalizerMeta m f = true → AddFinalizerMeta m f = m.
Proof. unfold AddFinalizerMeta. by intros ->. Qed.

Lemma AddFinalizerMeta_nonempty m f : Finalizers (AddFinalizerMeta m f) ≠ [].
Proof.
  pose proof (AddFinalizerMeta_contains m f) as Hc%bool_decide_eq_true.
  intros Hnil. rewrite Hnil in Hc. by apply elem_of_nil in Hc.
Qed.

Lemma RemoveFinalizerMeta_contains m f : ContainsFinalizerMeta (RemoveFinalizerMeta m f) f = false.
Proof.
  apply bool_decide_eq_false. simpl. rewrite list_elem_of_filter. by intros [? _].
Qed.

Lemma RemoveFinalizerMeta_contains_other m f g :
  ContainsFinalizerMeta m g = false → ContainsFinalizerMeta (RemoveFinalizerMeta m f) g = false.
Proof.
  intros Hg%bool_decide_eq_false. apply bool_decide_eq_false. simpl.
  rewrite list_elem_of_filter. by intros [_ ?].
Qed.

Lemma filter_other_id (l : list string) f : f ∉ l → filter (λ g, g ≠ f) l = l.
Proof.
  induction l as [|g l IH]; [done|]. intros [Hne Hl]%not_elem_of_cons.
  rewrite filter_cons_True by done. by rewrite IH.
Qed.

Lemma RemoveFinalizerMeta_id m f :
  ContainsFinalizerMeta m f = false → RemoveFinalizerMeta m f = m.
Proof.
  intros Hc%bool_decide_eq_false. unfold RemoveFinalizerMeta.
  rewrite filter_other_id by done. by destruct m.
Qed.

Lemma bindingKey_AddFinalizer user f role :
  bindingKey (AddFinalizer user f) role = bindingKey user role.
Proof.
  unfold bindingKey, storeKey, ObjectKeyFromObject. simpl.
  by rewrite AddFinalizerMeta_Name, AddFinalizerMeta_Namespace.
Qed.

(** ** The events of a run *)

Lemma emitted_refl w : emitted w w [].
Proof. unfold emitted. by rewrite app_nil_r. Qed.

Lemma emitted_trans w1 w2 w3 evs1 evs2 :
  emitted w1 w2 evs1 → emitted w2 w3 evs2 → emitted w1 w3 (evs1 ++ evs2).
Proof. unfold emitted. intros H1 H2. by rewrite H2, H1, app_assoc. Qed.

Lemma emitted_inj w w' evs1 evs2 : emitted w w' evs1 → emitted w w' evs2 → evs1 = evs2.
Proof. unfold emitted. intros H1 H2. rewrite H1 in H2. by apply app_inv_head in H2. Qed.

Lemma emitted_served v k err st w : emitted w (served v k err st w) [mkEvent v k err].
Proof. done. Qed.

(** ** The store calls *)

Lemma apiGet_outcome k w r w1 : apiGet k w = (r, w1) → GetOutcome k w r w1.
Proof.
  unfold apiGet. destruct (nextFault w) eqn:Hf.
  - intros [= <- <-]. by constructor.
  - destruct (store w !! k) eqn:Hk; intros [= <- <-]; by constructor.
Qed.

Lemma apiCreate_outcome o w r w1 : apiCreate o w = (r, w1) → CreateOutcome o w r w1.
Proof.
  unfold apiCreate. destruct (nextFault w) eqn:Hf.
  - intros [= <- <-]. by constructor.
  - destruct (store w !! storeKey o) eqn:Hk; intros [= <- <-]; by econstructor.
Qed.

Lemma apiUpdate_outcome o w r w1 : apiUpdate o w = (r, w1) → UpdateOutcome o w r w1.
Proof.
  unfold apiUpdate. destruct (nextFault w) eqn:Hf.
  - intros [= <- <-]. by constructor.
  - destruct (store w !! storeKey o) eqn:Hk.
    + destruct (DeletionTimestamp (objMeta o)) eqn:Hd;
        [destruct (Finalizers (objMeta o)) eqn:Hfin|]; intros [= <- <-].
      * by eapply UpdateErased.
      * eapply UpdateStored; eauto. right. by rewrite Hfin.
      * eapply UpdateStored; eauto.
    + intros [= <- <-]. by constructor.
Qed.

Lemma apiDelete_outcome o w r w1 : apiDelete o w = (r, w1) → DeleteOutcome o w r w1.
Proof.
  unfold apiDelete. destruct (nextFault w) eqn:Hf.
  - intros [= <- <-]. by constructor.
  - destruct (store w !! storeKey o) as [old|] eqn:Hk.
    + destruct (Finalizers (objMeta old)) eqn:Hfin;
        [|destruct (DeletionTimestamp (objMeta old)) eqn:Hd]; intros [= <- <-].
      * by eapply DeleteRemoved.
      * eapply DeletePending; eauto. by rewrite Hfin.
      * eapply DeleteMarked; eauto. by rewrite Hfin.
    + intros [= <- <-]. by constructor.
Qed.

Lemma Get_outcome {A} `{ClientObject A} key w (r : error + A) w1 :
  Get key w = (r, w1) →
  ∃ r0, GetOutcome (kindOf A, key) w r0 w1 ∧
    r = match r0 with
        | inl err => inl err
        | inr o =>
            match fromObject o with
            | Some a => inr a
            | None => inl (StatusError StatusReasonInternalError)
            end
        end.
Proof.
  unfold Get. intros Hrun. run_inv Hrun. apply apiGet_outcome in Hcall.
  exists a. by destruct a as [e|o]; [|destruct (fromObject o)]; run_inv Hrest.
Qed.

Lemma Create_outcome {A} `{ClientObject A} (obj : A) w r w1 :
  Create obj w = (r, w1) → CreateOutcome (toObject obj) w r w1.
Proof. apply apiCreate_outcome. Qed.

Lemma Update_outcome {A} `{ClientObject A} (obj : A) w r w1 :
  Update obj w = (r, w1) → UpdateOutcome (toObject obj) w r w1.
Proof. apply apiUpdate_outcome. Qed.

Lemma Delete_outcome {A} `{ClientObject A} (obj : A) w r w1 :
  Delete obj w = (r, w1) → DeleteOutcome (toObject obj) w r w1.
Proof. apply apiDelete_outcome. Qed.

Lemma GetOutcome_store k w r w1 : GetOutcome k w r w1 → store w1 = store w.
Proof. by destruct 1. Qed.

Lemma GetOutcome_emitted k w r w1 :
  GetOutcome k w r w1 →
  emitted w w1
    [mkEvent VerbGet k (match r with inl e => Some (ReasonForError e) | inr _ => None end)].
Proof. by destruct 1. Qed.

Lemma CreateOutcome_frame o w r w1 :
  CreateOutcome o w r w1 → ∀ k, k ≠ storeKey o → store w1 !! k = store w !! k.
Proof. destruct 1; intros k Hk; simpl; [done..|]. by rewrite lookup_insert_ne. Qed.

Lemma CreateOutcome_emitted o w r w1 :
  CreateOutcome o w r w1 →
  emitted w w1 [mkEvent VerbCreate (storeKey o) (ReasonForError <$> r)].
Proof. by destruct 1. Qed.

Lemma DeleteOutcome_frame o w r w1 :
  DeleteOutcome o w r w1 → ∀ k, k ≠ storeKey o → store w1 !! k = store w !! k.
Proof.
  destruct 1; intros k Hk; simpl; [done..| | |]; try done.
  - by rewrite lookup_delete_ne.
  - by rewrite lookup_insert_ne.
Qed.

Lemma DeleteOutcome_emitted o w r w1 :
  DeleteOutcome o w r w1 →
  emitted w w1 [mkEvent VerbDelete (storeKey o) (ReasonForError <$> r)].
Proof. by destruct 1. Qed.

Lemma UpdateOutcome_frame o w r w1 :
  UpdateOutcome o w r w1 → ∀ k, k ≠ storeKey o → store w1 !! k = store w !! k.
Proof.
  destruct 1; intros k Hk; simpl; [done..| |].
  - by rewrite lookup_delete_ne.
  - by rewrite lookup_insert_ne.
Qed.

Lemma UpdateOutcome_failed o w e w1 : UpdateOutcome o w (Some e) w1 → store w1 = store w.
Proof. by inversion 1. Qed.

Lemma UpdateOutcome_emitted o w r w1 :
  UpdateOutcome o w r w1 →
  emitted w w1 [mkEvent VerbUpdate (storeKey o) (ReasonForError <$> r)].
Proof. by destruct 1. Qed.

(** ** Errors accounted for *)

Lemma accounted_served v k :  ∀ err, accounted err (mkEvent v k None).
Proof. done. Qed.

Lemma accounted_success err ev : accounted None ev → accounted err ev.
Proof.
  unfold accounted. destruct (evErr ev); [|done].
  intros [?|(e & ? & _)]; [by left|done].
Qed.

Lemma accounted_reported v k e :
  accounted (Some e) (mkEvent v k (Some (ReasonForError e))).
Proof. right. by exists e. Qed.

Lemma accounted_ignored k err : 
  accounted (IgnoreAlreadyExists err) (mkEvent VerbCreate k (ReasonForError <$> err)).
Proof.
  destruct err as [e|]; [|done]. unfold accounted, IgnoreAlreadyExists, IsAlreadyExists. simpl.
  case_bool_decide; [by left|]. right. by exists e.
Qed.

(** ** The helpers for one derived object *)

Section derived.
Context {A D} `{ClientObject A} `{ClientObject D}.
Variables (finalizer : string) (desired : D) (wrap : error → error).
Hypothesis wrap_reason : ∀ e, ReasonForError (wrap e) = ReasonForError e.

Lemma DerivedOutcome_frame (obj : A) w r w1 :
  DerivedOutcome finalizer desired wrap obj w r w1 →
  ∀ k, k ≠ storeKey (toObject desired) → store w1 !! k = store w !! k.
Proof.
  destruct 1; [done|..]; eauto using DeleteOutcome_frame, CreateOutcome_frame.
Qed.

Lemma DerivedOutcome_accounted (obj : A) w r w1 :
  DerivedOutcome finalizer desired wrap obj w r w1 →
  ∃ evs, emitted w w1 evs ∧ Forall (accounted r.2) evs.
Proof.
  destruct 1 as [t Hd Hc|t err w1 Hd Hc Hdel|t w1 Hd Hc Hdel|err w1 Hd Hcr].
  - exists []. split; [apply emitted_refl|constructor].
  - eexists. split; [by eapply DeleteOutcome_emitted|].
    apply Forall_singleton. right. exists (wrap err). by rewrite wrap_reason.
  - eexists. split; [by eapply DeleteOutcome_emitted|]. by apply Forall_singleton.
  - eexists. split; [by eapply CreateOutcome_emitted|].
    apply Forall_singleton, accounted_ignored.
Qed.

Lemma DerivedOutcome_live (obj obj' : A) err w w1 :
  GetDeletionTimestamp obj = None →
  DerivedOutcome finalizer desired wrap obj w (obj', err) w1 →
  ∃ cerr, obj' = AddFinalizer obj finalizer ∧ err = IgnoreAlreadyExists cerr ∧
    CreateOutcome (toObject desired) w cerr w1.
Proof.
  intros Hd Hout. inversion Hout as [t Hd'|t e w2 Hd'|t w2 Hd'|cerr w2 _ Hcr];
    [congruence..|]. by exists cerr.
Qed.

Lemma DerivedOutcome_idle (obj obj' : A) err w w1 t :
  GetDeletionTimestamp obj = Some t → ContainsFinalizer obj finalizer = false →
  DerivedOutcome finalizer desired wrap obj w (obj', err) w1 →
  obj' = obj ∧ err = None ∧ w1 = w.
Proof.
  intros Hd Hc Hout.
  inversion Hout as [t' Hd'|t' e w2 _ Hc'|t' w2 _ Hc'|cerr w2 Hd' Hcr];
    [done|congruence..].
Qed.

Lemma DerivedOutcome_teardown (obj obj' : A) err w w1 t :
  GetDeletionTimestamp obj = Some t → ContainsFinalizer obj finalizer = true →
  DerivedOutcome finalizer desired wrap obj w (obj', err) w1 →
  ∃ derr, DeleteOutcome (toObject desired) w derr w1 ∧
    ((∃ e, derr = Some e ∧ err = Some (wrap e) ∧ obj' = obj) ∨
     (derr = None ∧ err = None ∧ obj' = RemoveFinalizer obj finalizer)).
Proof.
  intros Hd Hc Hout.
  inversion Hout as [t' _ Hc'|t' e w2 _ _ Hdel|t' w2 _ _ Hdel|cerr w2 Hd' Hcr];
    [congruence| | |congruence].
  - exists (Some e). split; [done|]. left. by exists e.
  - exists None. split; [done|]. by right.
Qed.
End derived.


Lemma reconcileDeployment_outcome terminal w r w1 :
  TerminalReconciler.reconcileDeployment terminal w = (r, w1) →
  DerivedOutcome TerminalReconciler.TerminalDeploymentFinalizer
    (TerminalReconciler.deploymentForTerminal terminal)
    (Errorf "could not delete deployment: ") terminal w r w1.
Proof.
  unfold TerminalReconciler.reconcileDeployment. intros Hrun.
  destruct (GetDeletionTimestamp terminal) as [t|] eqn:Hd.
  - destruct (ContainsFinalizer terminal _) eqn:Hc.
    + run_inv Hrun. apply Delete_outcome in Hcall.
      destruct a as [err|]; run_inv Hrest.
      * by eapply DerivedDeleteFailed.
      * by eapply DerivedDeleted.
    + run_inv Hrun. by eapply DerivedIdle.
  - run_inv Hrun. apply Create_outcome in Hcall.
    destruct a as [err|]; run_inv Hrest; by apply (DerivedCreate _ _ _ _ _ _ _ Hd Hcall).
Qed.

Lemma reconcileService_outcome terminal w r w1 :
  TerminalReconciler.reconcileService terminal w = (r, w1) →
  DerivedOutcome TerminalReconciler.TerminalServiceFinalizer
    (TerminalReconciler.serviceForTerminal terminal)
    (Errorf "could not delete service: ") terminal w r w1.
Proof.
  unfold TerminalReconciler.reconcileService. intros Hrun.
  destruct (GetDeletionTimestamp terminal) as [t|] eqn:Hd.
  - destruct (ContainsFinalizer terminal _) eqn:Hc.
    + run_inv Hrun. apply Delete_outcome in Hcall.
      destruct a as [err|]; run_inv Hrest.
      * by eapply DerivedDeleteFailed.
      * by eapply DerivedDeleted.
    + run_inv Hrun. by eapply DerivedIdle.
  - run_inv Hrun. apply Create_outcome in Hcall.
    destruct a as [err|]; run_inv Hrest; by apply (DerivedCreate _ _ _ _ _ _ _ Hd Hcall).
Qed.

Lemma reconcileServiceAccount_outcome user w r w1 :
  UserReconciler.reconcileServiceAccount user w = (r, w1) →
  DerivedOutcome UserReconciler.UserServiceAccountFinalizer
    (UserReconciler.serviceAccountForUser user) id user w r w1.
Proof.
  unfold UserReconciler.reconcileServiceAccount. intros Hrun.
  destruct (GetDeletionTimestamp user) as [t|] eqn:Hd.
  - destruct (ContainsFinalizer user _) eqn:Hc.
    + run_inv Hrun. apply Delete_outcome in Hcall.
      destruct a as [err|]; run_inv Hrest.
      * by apply (DerivedDeleteFailed _ _ id _ _ _ _ _ Hd Hc Hcall).
      * by eapply DerivedDeleted.
    + run_inv Hrun. by eapply DerivedIdle.
  - run_inv Hrun. apply Create_outcome in Hcall.
    destruct a as [err|]; run_inv Hrest; by apply (DerivedCreate _ _ _ _ _ _ _ Hd Hcall).
Qed.

(** ** One pass of the Terminal reconciler *)

Lemma Forall_accounted_success err evs :
  Forall (accounted None) evs → Forall (accounted err) evs.
Proof. intros Hevs. eapply Forall_impl; [done|]. intros ev. apply accounted_success. Qed.

(** The steps of [TerminalReconciler.Reconcile], one case per exit. *)
Lemma Terminal_Reconcile_inv req w res err w' :
  TerminalReconciler.Reconcile req w = ((res, err), w') →
  ∃ r0 w1,
    GetOutcome (KTerminal, RequestNamespacedName req) w r0 w1 ∧
    match r0 with
    | inl e => err = IgnoreNotFound (Some e) ∧ w' = w1
    | inr o =>
        match fromObject (A:=Terminal) o with
        | None => err = Some (StatusError StatusReasonInternalError) ∧ w' = w1
        | Some terminal =>
            ∃ t1 e1 w2,
              DerivedOutcome TerminalReconciler.TerminalDeploymentFinalizer
                (TerminalReconciler.deploymentForTerminal terminal)
                (Errorf "could not delete deployment: ") terminal w1 (t1, e1) w2 ∧
              match e1 with
              | Some e => err = Some e ∧ w' = w2
              | None =>
                  ∃ t2 e2 w3,
                    DerivedOutcome TerminalReconciler.TerminalServiceFinalizer
                      (TerminalReconciler.serviceForTerminal t1)
                      (Errorf "could not delete service: ") t1 w2 (t2, e2) w3 ∧
                    match e2 with
                    | Some e => err = Some e ∧ w' = w3
                    | None => UpdateOutcome (ObjTerminal t2) w3 err w'
                    end
              end
        end
    end.
Proof.
  unfold TerminalReconciler.Reconcile. intros Hrun. run_inv Hrun.
  apply Get_outcome in Hcall as (r0 & Hget & ->). exists r0, w0. split; [done|].
  destruct r0 as [e|o]; [by run_inv Hrest|].
  destruct (fromObject o) as [terminal|]; [|by run_inv Hrest].
  run_inv Hrest. destruct a as [t1 e1]. apply reconcileDeployment_outcome in Hcall.
  exists t1, e1, w1. split; [done|].
  destruct e1 as [e|]; [by run_inv Hrest0|].
  run_inv Hrest0. destruct a as [t2 e2]. apply reconcileService_outcome in Hcall0.
  exists t2, e2, w2. split; [done|].
  destruct e2 as [e|]; [by run_inv Hrest|].
  run_inv Hrest. apply Update_outcome in Hcall1.
  by destruct a as [e|]; run_inv Hrest0.
Qed.

Lemma Get_event_accounted primary key w r0 w1 :
  GetOutcome (primary, key) w r0 w1 →
  ∃ ev, emitted w w1 [ev] ∧
    match r0 with
    | inl e => accounted (IgnoreNotFound (Some e)) ev ∨ primaryNotFound primary ev
    | inr _ => evErr ev = None
    end.
Proof.
  destruct 1 as [r Hf|Hf Hk|o Hf Hk]; eexists; (split; [apply emitted_served|]);
    [|by right|done].
  destruct (decide (r = StatusReasonNotFound)) as [->|Hr]; [by right|left].
  unfold IgnoreNotFound, IsNotFound. simpl. rewrite bool_decide_eq_false_2 by done.
  apply (accounted_reported _ _ (StatusError r)).
Qed.

Lemma Terminal_Reconcile_accounted req w res err w' :
  TerminalReconciler.Reconcile req w = ((res, err), w') →
  ∃ evs, emitted w w' evs ∧
    Forall (λ ev, accounted err ev ∨ primaryNotFound KTerminal ev) evs.
Proof.
  intros (r0 & w1 & Hget & Hrest)%Terminal_Reconcile_inv.
  apply Get_event_accounted in Hget as (ev & Hev & Hget).
  destruct r0 as [e|o];
    [destruct Hrest as [-> ->]; exists [ev]; by rewrite Forall_singleton|].
  assert (accounted err ev) as Hacc by (by unfold accounted; rewrite Hget).
  destruct (fromObject o) as [terminal|];
    [|destruct Hrest as [-> ->]; exists [ev]; rewrite Forall_singleton; split; [done|by left]].
  destruct Hrest as (t1 & e1 & w2 & Hdep & Hrest).
  apply DerivedOutcome_accounted in Hdep as (evs1 & Hevs1 & Hacc1); [|done].
  destruct e1 as [e|].
  { destruct Hrest as [-> ->]. exists (ev :: evs1).
    split; [apply (emitted_trans _ _ _ [ev] _ Hev Hevs1)|].
    constructor; [by left|]. eapply Forall_impl; [done|]. by left. }
  destruct Hrest as (t2 & e2 & w3 & Hsvc & Hrest).
  apply DerivedOutcome_accounted in Hsvc as (evs2 & Hevs2 & Hacc2); [|done].
  apply (Forall_accounted_success err) in Hacc1.
  pose proof (emitted_trans _ _ _ _ _ (emitted_trans _ _ _ [ev] _ Hev Hevs1) Hevs2) as Hevs.
  destruct e2 as [e|].
  { destruct Hrest as [-> ->]. eexists. split; [done|].
    rewrite !Forall_app, Forall_singleton. repeat split; [by left|..];
      (eapply Forall_impl; [done|]); by left. }
  apply (Forall_accounted_success err) in Hacc2.
  pose proof (UpdateOutcome_emitted _ _ _ _ Hrest) as Hup.
  eexists. split; [apply (emitted_trans _ _ _ _ _ Hevs Hup)|].
  rewrite !Forall_app, !Forall_singleton. repeat split; [by left|..].
  - eapply Forall_impl; [done|]. by left.
  - eapply Forall_impl; [done|]. by left.
  - left. destruct err as [e|]; [|done]. apply accounted_reported.
Qed.

Lemma Terminal_Reconcile_failed_frame req w res e w' :
  TerminalReconciler.Reconcile req w = ((res, Some e), w') →
  ∀ key, store w' !! (KTerminal, key) = store w !! (KTerminal, key).
Proof.
  intros (r0 & w1 & Hget & Hrest)%Terminal_Reconcile_inv key.
  apply GetOutcome_store in Hget. rewrite <-Hget.
  destruct r0 as [e0|o]; [by destruct Hrest as [_ ->]|].
  destruct (fromObject o) as [terminal|]; [|by destruct Hrest as [_ ->]].
  destruct Hrest as (t1 & e1 & w2 & Hdep & Hrest).
  eapply DerivedOutcome_frame in Hdep as <-; [|done].
  destruct e1 as [e1|]; [by destruct Hrest as [_ ->]|].
  destruct Hrest as (t2 & e2 & w3 & Hsvc & Hrest).
  eapply DerivedOutcome_frame in Hsvc as <-; [|done].
  destruct e2 as [e2|]; [by destruct Hrest as [_ ->]|].
  by rewrite (UpdateOutcome_failed _ _ _ _ Hrest).
Qed.

(** ** One pass of the User reconciler *)

(** What the loop over the roles does: every call is a [Create] or a
    [Delete] of the binding of a role of the list. *)
Lemma roleBindingsLoop_events user isDeleting roles w ret w1 :
  UserReconciler.roleBindingsLoop user isDeleting roles w = (ret, w1) →
  ∃ evs, emitted w w1 evs ∧
    Forall (accounted (default None ret)) evs ∧
    Forall (λ ev, (evVerb ev = VerbCreate ∨ evVerb ev = VerbDelete) ∧
                  ∃ role, role ∈ roles ∧ (evKind ev, evKey ev) = bindingKey user role) evs.
Proof.
  revert w. induction roles as [|role roles IH]; intros w Hrun; simpl in Hrun.
  { run_inv Hrun. exists []. by split; [apply emitted_refl|]. }
  assert (∀ w0 v r,
    UserReconciler.roleBindingsLoop user isDeleting roles w0 = (ret, w1) →
    emitted w w0 [mkEvent v (bindingKey user role) r] →
    (v = VerbCreate ∨ v = VerbDelete) →
    (r = None) →
    ∃ evs, emitted w w1 evs ∧
      Forall (accounted (default None ret)) evs ∧
      Forall (λ ev, (evVerb ev = VerbCreate ∨ evVerb ev = VerbDelete) ∧
                    ∃ role', role' ∈ role :: roles ∧
                      (evKind ev, evKey ev) = bindingKey user role') evs) as Hnext.
  { intros w0 v r (evs & Hevs & Hacc & Hkeys)%IH Hev Hv ->.
    exists ([mkEvent v (bindingKey user role) None] ++ evs).
    split; [by eapply emitted_trans|]. rewrite !Forall_app, !Forall_singleton.
    repeat split; [done..| |].
    - exists role. split; [left|]; done.
    - eapply Forall_impl; [done|]. intros ev [? (role' & ? & ?)].
      split; [done|]. exists role'. split; [by right|done]. }
  destruct isDeleting.
  - destruct (ContainsFinalizer user _).
    + run_inv Hrun. apply Delete_outcome in Hcall.
      pose proof (DeleteOutcome_emitted _ _ _ _ Hcall) as Hev.
      destruct a as [err|].
      * run_inv Hrest. eexists. split; [done|]. rewrite !Forall_singleton.
        repeat split.
        -- apply accounted_reported.
        -- by right.
        -- exists role. split; [left|]; done.
      * eapply Hnext; eauto.
    + apply IH in Hrun as (evs & Hevs & Hacc & Hkeys). exists evs.
      repeat split; [done..|]. eapply Forall_impl; [done|].
      intros ev [? (role' & ? & ?)]. split; [done|]. exists role'. split; [by right|done].
  - run_inv Hrun. apply Create_outcome in Hcall.
    pose proof (CreateOutcome_emitted _ _ _ _ Hcall) as Hev.
    destruct a as [err|].
    + run_inv Hrest. eexists. split; [done|]. rewrite !Forall_singleton.
      repeat split.
      * apply (accounted_ignored _ (Some err)).
      * by left.
      * exists role. split; [left|]; done.
    + eapply Hnext; eauto.
Qed.

Lemma roleBindingsLoop_frame user isDeleting roles w ret w1 :
  UserReconciler.roleBindingsLoop user isDeleting roles w = (ret, w1) →
  ∀ k, (∀ role, role ∈ roles → k ≠ bindingKey user role) →
       store w1 !! k = store w !! k.
Proof.
  revert w. induction roles as [|role roles IH]; intros w Hrun k Hk; simpl in Hrun.
  { by run_inv Hrun. }
  assert (k ≠ bindingKey user role) as Hrole by (apply Hk; left).
  assert (∀ role', role' ∈ roles → k ≠ bindingKey user role') as Hroles
    by (intros; apply Hk; by right).
  destruct isDeleting.
  - destruct (ContainsFinalizer user _); [|by eapply IH].
    run_inv Hrun. apply Delete_outcome in Hcall.
    eapply DeleteOutcome_frame in Hcall as <-; [|done].
    destruct a as [err|]; [by run_inv Hrest|by eapply IH].
  - run_inv Hrun. apply Create_outcome in Hcall.
    eapply CreateOutcome_frame in Hcall as <-; [|done].
    destruct a as [err|]; [by run_inv Hrest|by eapply IH].
Qed.

Lemma reconcileRoleBindings_events user w u' err w1 :
  UserReconciler.reconcileRoleBindings user w = ((u', err), w1) →
  ∃ evs, emitted w w1 evs ∧
    Forall (accounted err) evs ∧
    Forall (λ ev, (evVerb ev = VerbCreate ∨ evVerb ev = VerbDelete) ∧
                  ∃ role, role ∈ Roles (UserSpec_ user) ∧
                    (evKind ev, evKey ev) = bindingKey user role) evs.
Proof.
  unfold UserReconciler.reconcileRoleBindings. intros Hrun. run_inv Hrun.
  assert (err = default None a) as -> by (by destruct a; run_inv Hrest).
  assert (w1 = w0) as -> by (by destruct a; run_inv Hrest).
  destruct (bool_decide _); [by eapply roleBindingsLoop_events|].
  apply roleBindingsLoop_events in Hcall as (evs & Hevs & Hacc & Hkeys).
  exists evs. repeat split; [done..|]. eapply Forall_impl; [done|].
  intros ev [? (role & ? & ?)]. split; [done|]. exists role.
  by rewrite <-(bindingKey_AddFinalizer user UserReconciler.UserRoleBindingFinalizer).
Qed.

Lemma reconcileRoleBindings_frame user w r w1 :
  UserReconciler.reconcileRoleBindings user w = (r, w1) →
  ∀ k, (∀ role, role ∈ Roles (UserSpec_ user) → k ≠ bindingKey user role) →
       store w1 !! k = store w !! k.
Proof.
  unfold UserReconciler.reconcileRoleBindings. intros Hrun k Hk. run_inv Hrun.
  assert (w1 = w0) as -> by (by destruct a; run_inv Hrest).
  destruct (bool_decide _); [by eapply roleBindingsLoop_frame|].
  eapply roleBindingsLoop_frame; [done|]. intros role Hrole.
  rewrite bindingKey_AddFinalizer. by apply Hk.
Qed.

(** The steps of [UserReconciler.Reconcile], one case per exit. *)
Lemma User_Reconcile_inv req w res err w' :
  UserReconciler.Reconcile req w = ((res, err), w') →
  ∃ r0 w1,
    GetOutcome (KUser, RequestNamespacedName req) w r0 w1 ∧
    match r0 with
    | inl e => err = IgnoreNotFound (Some e) ∧ w' = w1
    | inr o =>
        match fromObject (A:=User) o with
        | None => err = Some (StatusError StatusReasonInternalError) ∧ w' = w1
        | Some user =>
            ∃ u1 e1 w2,
              DerivedOutcome UserReconciler.UserServiceAccountFinalizer
                (UserReconciler.serviceAccountForUser user) id user w1 (u1, e1) w2 ∧
              match e1 with
              | Some e => err = Some e ∧ w' = w2
              | None =>
                  ∃ u2 e2 w3,
                    UserReconciler.reconcileRoleBindings u1 w2 = ((u2, e2), w3) ∧
                    match e2 with
                    | Some e => err = Some e ∧ w' = w3
                    | None => UpdateOutcome (ObjUser u2) w3 err w'
                    end
              end
        end
    end.
Proof.
  unfold UserReconciler.Reconcile. intros Hrun. run_inv Hrun.
  apply Get_outcome in Hcall as (r0 & Hget & ->). exists r0, w0. split; [done|].
  destruct r0 as [e|o]; [by run_inv Hrest|].
  destruct (fromObject o) as [user|]; [|by run_inv Hrest].
  run_inv Hrest. destruct a as [u1 e1]. apply reconcileServiceAccount_outcome in Hcall.
  exists u1, e1, w1. split; [done|].
  destruct e1 as [e|]; [by run_inv Hrest0|].
  run_inv Hrest0. destruct a as [u2 e2].
  exists u2, e2, w2. split; [done|].
  destruct e2 as [e|]; [by run_inv Hrest|].
  run_inv Hrest. apply Update_outcome in Hcall1.
  by destruct a as [e|]; run_inv Hrest0.
Qed.

Lemma User_Reconcile_accounted req w res err w' :
  UserReconciler.Reconcile req w = ((res, err), w') →
  ∃ evs, emitted w w' evs ∧
    Forall (λ ev, accounted err ev ∨ primaryNotFound KUser ev) evs.
Proof.
  intros (r0 & w1 & Hget & Hrest)%User_Reconcile_inv.
  apply Get_event_accounted in Hget as (ev & Hev & Hget).
  destruct r0 as [e|o];
    [destruct Hrest as [-> ->]; exists [ev]; by rewrite Forall_singleton|].
  assert (accounted err ev) as Hacc by (by unfold accounted; rewrite Hget).
  destruct (fromObject o) as [user|];
    [|destruct Hrest as [-> ->]; exists [ev]; rewrite Forall_singleton; split; [done|by left]].
  destruct Hrest as (u1 & e1 & w2 & Hsa & Hrest).
  apply DerivedOutcome_accounted in Hsa as (evs1 & Hevs1 & Hacc1); [|done].
  destruct e1 as [e|].
  { destruct Hrest as [-> ->]. exists (ev :: evs1).
    split; [apply (emitted_trans _ _ _ [ev] _ Hev Hevs1)|].
    constructor; [by left|]. eapply Forall_impl; [done|]. by left. }
  destruct Hrest as (u2 & e2 & w3 & Hrb & Hrest).
  apply reconcileRoleBindings_events in Hrb as (evs2 & Hevs2 & Hacc2 & _).
  apply (Forall_accounted_success err) in Hacc1.
  pose proof (emitted_trans _ _ _ _ _ (emitted_trans _ _ _ [ev] _ Hev Hevs1) Hevs2) as Hevs.
  destruct e2 as [e|].
  { destruct Hrest as [-> ->]. eexists. split; [done|].
    rewrite !Forall_app, Forall_singleton. repeat split; [by left|..];
      (eapply Forall_impl; [done|]); by left. }
  apply (Forall_accounted_success err) in Hacc2.
  pose proof (UpdateOutcome_emitted _ _ _ _ Hrest) as Hup.
  eexists. split; [apply (emitted_trans _ _ _ _ _ Hevs Hup)|].
  rewrite !Forall_app, !Forall_singleton. repeat split; [by left|..].
  - eapply Forall_impl; [done|]. by left.
  - eapply Forall_impl; [done|]. by left.
  - left. destruct err as [e|]; [|done]. apply accounted_reported.
Qed.

Lemma User_Reconcile_failed_frame req w res e w' :
  UserReconciler.Reconcile req w = ((res, Some e), w') →
  ∀ key, store w' !! (KUser, key) = store w !! (KUser, key).
Proof.
  intros (r0 & w1 & Hget & Hrest)%User_Reconcile_inv key.
  apply GetOutcome_store in Hget. rewrite <-Hget.
  destruct r0 as [e0|o]; [by destruct Hrest as [_ ->]|].
  destruct (fromObject o) as [user|]; [|by destruct Hrest as [_ ->]].
  destruct Hrest as (u1 & e1 & w2 & Hsa & Hrest).
  eapply DerivedOutcome_frame in Hsa as <-; [|done].
  destruct e1 as [e1|]; [by destruct Hrest as [_ ->]|].
  destruct Hrest as (u2 & e2 & w3 & Hrb & Hrest).
  eapply reconcileRoleBindings_frame in Hrb as <-; [|done].
  destruct e2 as [e2|]; [by destruct Hrest as [_ ->]|].
  by rewrite (UpdateOutcome_failed _ _ _ _ Hrest).
Qed.



(** ** A store that answers truthfully *)

Lemma consistentFaults_next w r :
  consistentFaults (faults w) → nextFault w = Some r →
  r ≠ StatusReasonNotFound ∧ r ≠ StatusReasonAlreadyExists.
Proof.
  unfold consistentFaults, nextFault. destruct (faults w) as [|f fs]; [done|].
  intros [Hf _]%Forall_cons -> . destruct Hf. split; congruence.
Qed.

Lemma consistentFaults_tail fs : consistentFaults fs → consistentFaults (tail fs).
Proof. destruct fs; [done|]. by intros [_ ?]%Forall_cons. Qed.

Lemma GetOutcome_faults k w r w1 : GetOutcome k w r w1 → faults w1 = tail (faults w).
Proof. by destruct 1. Qed.

Lemma CreateOutcome_faults o w r w1 : CreateOutcome o w r w1 → faults w1 = tail (faults w).
Proof. by destruct 1. Qed.

Lemma UpdateOutcome_faults o w r w1 : UpdateOutcome o w r w1 → faults w1 = tail (faults w).
Proof. by destruct 1. Qed.

Lemma DeleteOutcome_faults o w r w1 : DeleteOutcome o w r w1 → faults w1 = tail (faults w).
Proof. by destruct 1. Qed.

Lemma IgnoreNotFound_None r :
  IgnoreNotFound (Some (StatusError r)) = None → r = StatusReasonNotFound.
Proof. unfold IgnoreNotFound, IsNotFound. simpl. by case_bool_decide. Qed.

Lemma IgnoreAlreadyExists_None r :
  IgnoreAlreadyExists (Some (StatusError r)) = None → r = StatusReasonAlreadyExists.
Proof. unfold IgnoreAlreadyExists, IsAlreadyExists. simpl. by case_bool_decide. Qed.

(** A [Get] that a truthful store served to a pass that went on. *)
Lemma GetOutcome_truthful k w r0 w1 :
  GetOutcome k w r0 w1 → consistentFaults (faults w) →
  consistentFaults (faults w1) ∧ store w1 = store w ∧
  match r0 with
  | inl e => IgnoreNotFound (Some e) = None → store w !! k = None
  | inr o => store w !! k = Some o
  end.
Proof.
  intros Hget Hfs. split; [|split].
  - rewrite (GetOutcome_faults _ _ _ _ Hget). by apply consistentFaults_tail.
  - by eapply GetOutcome_store.
  - destruct Hget as [r Hf|Hf Hk|o Hf Hk]; [|done..].
    intros ->%IgnoreNotFound_None. by destruct (consistentFaults_next _ _ Hfs Hf).
Qed.

(** A [Create] whose error, if any, [client.IgnoreAlreadyExists] dropped:
    on a truthful store the object is there afterwards, stored by this
    call if it was missing. *)
Lemma CreateOutcome_truthful o w err w1 :
  CreateOutcome o w err w1 → consistentFaults (faults w) →
  IgnoreAlreadyExists err = None →
  consistentFaults (faults w1) ∧
  ((store w !! storeKey o = None ∧ store w1 = <[storeKey o := o]> (store w)) ∨
   (is_Some (store w !! storeKey o) ∧ store w1 = store w)).
Proof.
  intros Hcr Hfs Herr. split.
  { rewrite (CreateOutcome_faults _ _ _ _ Hcr). by apply consistentFaults_tail. }
  destruct Hcr as [r Hf|old Hf Hk|Hf Hk].
  - apply IgnoreAlreadyExists_None in Herr as ->.
    by destruct (consistentFaults_next _ _ Hfs Hf).
  - right. by rewrite Hk.
  - by left.
Qed.

(** ** The derived objects depend on the name and the image only *)

Lemma deploymentForTerminal_AddFinalizer terminal f :
  TerminalReconciler.deploymentForTerminal (AddFinalizer terminal f) =
  TerminalReconciler.deploymentForTerminal terminal.
Proof.
  unfold TerminalReconciler.deploymentForTerminal. simpl.
  by rewrite AddFinalizerMeta_Name, AddFinalizerMeta_Namespace.
Qed.

Lemma serviceForTerminal_AddFinalizer terminal f :
  TerminalReconciler.serviceForTerminal (AddFinalizer terminal f) =
  TerminalReconciler.serviceForTerminal terminal.
Proof.
  unfold TerminalReconciler.serviceForTerminal. simpl.
  by rewrite AddFinalizerMeta_Name, AddFinalizerMeta_Namespace.
Qed.

Lemma storeKey_deploymentForTerminal terminal :
  storeKey (toObject (TerminalReconciler.deploymentForTerminal terminal)) =
  (KDeployment, (Namespace (TerminalMeta terminal),
                 "marina-terminal-" +:+ Name (TerminalMeta terminal))).
Proof. done. Qed.

Lemma storeKey_serviceForTerminal terminal :
  storeKey (toObject (TerminalReconciler.serviceForTerminal terminal)) =
  (KService, (Namespace (TerminalMeta terminal),
              "marina-terminal-" +:+ Name (TerminalMeta terminal))).
Proof. done. Qed.

(** ** Convergence on creation *)

(** C1: a new Terminal with image [I] (no deletion timestamp, no derived
    object yet), reconciled once with success against a store that answers
    truthfully: the store then holds a Deployment and a Service named
    ["marina-terminal-" + name] in the Terminal's namespace; the Deployment
    has one container, of image [I], and one replica; the Service has one
    port, TCP 22, routed to the target port named ["ssh"]. *)
Theorem Terminal_converges_on_creation (req : Request) (w w' : World)
    (terminal : Terminal) (res : Result) :
  let ns := Namespace (TerminalMeta terminal) in
  let name := "marina-terminal-" +:+ Name (TerminalMeta terminal) in
  store w !! (KTerminal, RequestNamespacedName req) = Some (ObjTerminal terminal) →
  GetDeletionTimestamp terminal = None →
  store w !! (KDeployment, (ns, name)) = None →
  store w !! (KService, (ns, name)) = None →
  consistentFaults (faults w) →
  TerminalReconciler.Reconcile req w = ((res, None), w') →
  ∃ d s c p,
    store w' !! (KDeployment, (ns, name)) = Some (ObjDeployment d) ∧
    store w' !! (KService, (ns, name)) = Some (ObjService s) ∧
    Name (DeploymentMeta d) = name ∧ Namespace (DeploymentMeta d) = ns ∧
    Name (ServiceMeta s) = name ∧ Namespace (ServiceMeta s) = ns ∧
    Containers (TemplateSpec (Template (DeploymentSpec_ d))) = [c] ∧
    ContainerImage c = Image (TerminalSpec_ terminal) ∧
    Replicas (DeploymentSpec_ d) = Some 1 ∧
    Ports (ServiceSpec_ s) = [p] ∧
    PortProtocol p = ProtocolTCP ∧ Port p = 22 ∧
    Type_ (TargetPort p) = StringType ∧ StrVal (TargetPort p) = "ssh".
Proof.
  intros ns name Hterminal Hlive Hnodep Hnosvc Hfs
    (r0 & w1 & Hget & Hrest)%Terminal_Reconcile_inv.
  subst ns name.
  destruct (GetOutcome_truthful _ _ _ _ Hget Hfs) as (Hfs1 & Hst1 & Hfound).
  destruct r0 as [e|o].
  { destruct Hrest as [Herr _]. symmetry in Herr. apply Hfound in Herr. congruence. }
  rewrite Hterminal in Hfound. injection Hfound as <-. simpl in Hrest.
  destruct Hrest as (t1 & e1 & w2 & Hdep & Hrest).
  destruct e1 as [e|]; [by destruct Hrest|].
  destruct Hrest as (t2 & e2 & w3 & Hsvc & Hrest).
  destruct e2 as [e|]; [by destruct Hrest|].
  apply (DerivedOutcome_live _ _ _ _ _ _ _ _ Hlive) in Hdep as (cerr & -> & Herr & Hcr).
  rewrite serviceForTerminal_AddFinalizer in Hsvc.
  destruct (CreateOutcome_truthful _ _ _ _ Hcr Hfs1) as (Hfs2 & [[_ Hst2]|[[? Hex] _]]);
    [done| |rewrite Hst1, storeKey_deploymentForTerminal in Hex; congruence].
  apply DerivedOutcome_live in Hsvc as (cerr' & -> & Herr' & Hcr');
    [|unfold GetDeletionTimestamp, AddFinalizer; simpl;
      by rewrite AddFinalizerMeta_DeletionTimestamp].
  destruct (CreateOutcome_truthful _ _ _ _ Hcr' Hfs2) as (Hfs3 & [[_ Hst3]|[[? Hex] _]]);
    [done| |rewrite Hst2, lookup_insert_ne, Hst1, storeKey_serviceForTerminal in Hex by done;
            congruence].
  rewrite storeKey_deploymentForTerminal in Hst2.
  rewrite storeKey_serviceForTerminal in Hst3.
  eexists _, _, _, _.
  split; [|split].
  - rewrite (UpdateOutcome_frame _ _ _ _ Hrest) by done.
    rewrite Hst3, lookup_insert_ne, Hst2 by done. apply lookup_insert_eq.
  - rewrite (UpdateOutcome_frame _ _ _ _ Hrest) by done.
    rewrite Hst3. apply lookup_insert_eq.
  - done.
Qed.

(** ** The typed objects *)

Ltac lawful :=
  split; try done;
  [by intros []
  |intros [] ?; simpl; congruence
  |intros []; simpl; intros [=]; by eexists].

#[global] Instance Terminal_lawful : LawfulObject Terminal.
Proof. lawful. Qed.

#[global] Instance User_lawful : LawfulObject User.
Proof. lawful. Qed.

#[global] Instance ServiceAccount_lawful : LawfulObject ServiceAccount.
Proof. lawful. Qed.

#[global] Instance Role_lawful : LawfulObject Role.
Proof. lawful. Qed.

#[global] Instance RoleBinding_lawful : LawfulObject RoleBinding.
Proof. lawful. Qed.

Section typed.
Context {A} `{LawfulObject A}.
Implicit Types (obj : A) (f g : string).

Lemma storeKey_toObject obj :
  storeKey (toObject obj) = (kindOf A, (Namespace (getMeta obj), Name (getMeta obj))).
Proof.
  unfold storeKey, ObjectKeyFromObject. by rewrite objKind_toObject, objMeta_toObject.
Qed.

Lemma GetDeletionTimestamp_AddFinalizer obj f :
  GetDeletionTimestamp (AddFinalizer obj f) = GetDeletionTimestamp obj.
Proof.
  unfold GetDeletionTimestamp, AddFinalizer.
  by rewrite getMeta_setMeta, AddFinalizerMeta_DeletionTimestamp.
Qed.

Lemma GetDeletionTimestamp_RemoveFinalizer obj f :
  GetDeletionTimestamp (RemoveFinalizer obj f) = GetDeletionTimestamp obj.
Proof. unfold GetDeletionTimestamp, RemoveFinalizer. by rewrite getMeta_setMeta. Qed.

Lemma storeKey_AddFinalizer obj f :
  storeKey (toObject (AddFinalizer obj f)) = storeKey (toObject obj).
Proof.
  rewrite !storeKey_toObject. unfold AddFinalizer.
  by rewrite getMeta_setMeta, AddFinalizerMeta_Name, AddFinalizerMeta_Namespace.
Qed.

Lemma storeKey_RemoveFinalizer obj f :
  storeKey (toObject (RemoveFinalizer obj f)) = storeKey (toObject obj).
Proof. rewrite !storeKey_toObject. unfold RemoveFinalizer. by rewrite getMeta_setMeta. Qed.

Lemma ContainsFinalizer_AddFinalizer obj f : ContainsFinalizer (AddFinalizer obj f) f = true.
Proof.
  unfold ContainsFinalizer, AddFinalizer.
  by rewrite getMeta_setMeta, AddFinalizerMeta_contains.
Qed.

Lemma ContainsFinalizer_AddFinalizer_other obj f g :
  ContainsFinalizer obj g = true → ContainsFinalizer (AddFinalizer obj f) g = true.
Proof.
  unfold ContainsFinalizer, AddFinalizer. rewrite getMeta_setMeta.
  apply AddFinalizerMeta_contains_other.
Qed.

Lemma AddFinalizer_id obj f : ContainsFinalizer obj f = true → AddFinalizer obj f = obj.
Proof.
  unfold ContainsFinalizer, AddFinalizer. intros Hc.
  by rewrite AddFinalizerMeta_id, setMeta_getMeta.
Qed.

Lemma ContainsFinalizer_RemoveFinalizer obj f :
  ContainsFinalizer (RemoveFinalizer obj f) f = false.
Proof.
  unfold ContainsFinalizer, RemoveFinalizer.
  by rewrite getMeta_setMeta, RemoveFinalizerMeta_contains.
Qed.

Lemma ContainsFinalizer_RemoveFinalizer_other obj f g :
  ContainsFinalizer obj g = false → ContainsFinalizer (RemoveFinalizer obj f) g = false.
Proof.
  unfold ContainsFinalizer, RemoveFinalizer. rewrite getMeta_setMeta.
  apply RemoveFinalizerMeta_contains_other.
Qed.

Lemma RemoveFinalizer_id obj f :
  ContainsFinalizer obj f = false → RemoveFinalizer obj f = obj.
Proof.
  unfold ContainsFinalizer, RemoveFinalizer. intros Hc.
  by rewrite RemoveFinalizerMeta_id, setMeta_getMeta.
Qed.

(** The object goes back to the store unerased: it is live, or it
    still carries a finalizer. *)
Lemma UpdateOutcome_live obj w err w1 :
  GetDeletionTimestamp obj = None →
  UpdateOutcome (toObject obj) w err w1 → err = None →
  store w1 = <[storeKey (toObject obj) := toObject obj]> (store w).
Proof.
  unfold GetDeletionTimestamp. intros Hd Hup ->.
  inversion Hup as [| |old t Hf Hk Hd'|old Hf Hk _]; [|done].
  rewrite objMeta_toObject in Hd'. congruence.
Qed.
End typed.

(** ** One helper, settled *)

Section settled.
Context {A D} `{LawfulObject A} `{ClientObject D}.
Variables (finalizer : string) (desired : D) (wrap : error → error).

(** On a live primary object, a helper that succeeds against a truthful
    store leaves the derived object in the store, and changes nothing if
    it was there already. *)
Lemma DerivedOutcome_live_settles (obj obj' : A) w w1 :
  GetDeletionTimestamp obj = None → consistentFaults (faults w) →
  DerivedOutcome finalizer desired wrap obj w (obj', None) w1 →
  obj' = AddFinalizer obj finalizer ∧ consistentFaults (faults w1) ∧
  is_Some (store w1 !! storeKey (toObject desired)) ∧
  (is_Some (store w !! storeKey (toObject desired)) → store w1 = store w).
Proof.
  intros Hd Hfs (cerr & -> & Herr & Hcr)%DerivedOutcome_live; [|done].
  destruct (CreateOutcome_truthful _ _ _ _ Hcr Hfs) as (Hfs1 & [[Hno ->]|[Hex ->]]);
    [done|..]; repeat split; try done.
  - rewrite lookup_insert_eq. by eexists.
  - rewrite Hno. by intros [??].
Qed.

(** On a primary object marked for deletion, a helper that succeeds
    leaves the object without the finalizer. *)
Lemma DerivedOutcome_teardown_settles (obj obj' : A) w w1 t :
  GetDeletionTimestamp obj = Some t →
  DerivedOutcome finalizer desired wrap obj w (obj', None) w1 →
  (obj' = obj ∨ obj' = RemoveFinalizer obj finalizer) ∧
  ContainsFinalizer obj' finalizer = false.
Proof.
  intros Hd Hout. destruct (ContainsFinalizer obj finalizer) eqn:Hc.
  - eapply DerivedOutcome_teardown in Hout as (derr & _ & [(e & _ & ? & _)|(_ & _ & ->)]);
      [done| |done..].
    split; [by right|apply ContainsFinalizer_RemoveFinalizer].
  - eapply DerivedOutcome_idle in Hout as (-> & _ & _); [|done..]. by split; [left|].
Qed.
End settled.

(** ** The Terminal reconciler, pass after pass *)

Lemma Forall_two {X} (P : X → Prop) x y : P x → P y → Forall P ([x] ++ [y]).
Proof. intros. by repeat constructor. Qed.

Lemma deploymentForTerminal_RemoveFinalizer terminal f :
  TerminalReconciler.deploymentForTerminal (RemoveFinalizer terminal f) =
  TerminalReconciler.deploymentForTerminal terminal.
Proof. done. Qed.

Lemma serviceForTerminal_RemoveFinalizer terminal f :
  TerminalReconciler.serviceForTerminal (RemoveFinalizer terminal f) =
  TerminalReconciler.serviceForTerminal terminal.
Proof. done. Qed.

(** Once the teardown of a Terminal is over (or the Terminal is gone), a
    pass neither deletes anything nor changes the store. *)
Lemma Terminal_tornDown_pass req w res err w' :
  let key := RequestNamespacedName req in
  store w !! (KTerminal, key) = None ∨
  tornDown (A:=Terminal)
    [TerminalReconciler.TerminalDeploymentFinalizer;
     TerminalReconciler.TerminalServiceFinalizer] (store w) key →
  TerminalReconciler.Reconcile req w = ((res, err), w') →
  store w' = store w ∧
  ∃ evs, emitted w w' evs ∧ Forall (λ ev, evVerb ev ≠ VerbDelete) evs.
Proof.
  intros key Hinv (r0 & w1 & Hget & Hrest)%Terminal_Reconcile_inv.
  pose proof (GetOutcome_store _ _ _ _ Hget) as Hst1.
  pose proof (GetOutcome_emitted _ _ _ _ Hget) as Hev1.
  assert ((∃ o, r0 = inr o ∧ store w !! (KTerminal, key) = Some o) ∨ ∃ e, r0 = inl e)
    as [(o & -> & Hr0)|[e ->]].
  { destruct Hget as [r Hf|Hf Hk|o Hf Hk]; [right; by eexists..|left; by exists o]. }
  2:{ destruct Hrest as [_ ->]. split; [done|]. eexists. split; [done|].
      by apply Forall_singleton. }
  destruct Hinv as [Hk|(t & Hk & Hkey & [ts Hd] & Hfin & Hret)];
    cbn [kindOf toObject Terminal_object] in *; rewrite Hk in Hr0; [done|].
  injection Hr0 as <-. simpl in Hrest.
  destruct Hrest as (t1 & e1 & w2 & Hdep & Hrest).
  eapply DerivedOutcome_idle in Hdep as (-> & -> & ->); [|done|apply Hfin; by repeat constructor].
  destruct Hrest as (t2 & e2 & w3 & Hsvc & Hrest).
  eapply DerivedOutcome_idle in Hsvc as (-> & -> & ->); [|done|apply Hfin; by repeat constructor].
  split.
  - inversion Hrest as [| |old t' Hf Hk' Hd' Hnil|old Hf Hk' _]; subst; simpl; try done.
    rewrite Hkey, Hst1. by apply insert_id.
  - eexists. split; [exact (emitted_trans _ _ _ _ _ Hev1 (UpdateOutcome_emitted _ _ _ _ Hrest))|].
    by apply Forall_two.
Qed.

(** A pass that succeeds on a Terminal marked for deletion, against a
    truthful store, completes the teardown. *)
Lemma Terminal_teardown_pass req w res w' terminal t :
  let key := RequestNamespacedName req in
  store w !! (KTerminal, key) = Some (ObjTerminal terminal) →
  storeKey (ObjTerminal terminal) = (KTerminal, key) →
  GetDeletionTimestamp terminal = Some t →
  consistentFaults (faults w) →
  TerminalReconciler.Reconcile req w = ((res, None), w') →
  store w' !! (KTerminal, key) = None ∨
  tornDown (A:=Terminal)
    [TerminalReconciler.TerminalDeploymentFinalizer;
     TerminalReconciler.TerminalServiceFinalizer] (store w') key.
Proof.
  intros key Hk Hkey Hd Hfs (r0 & w1 & Hget & Hrest)%Terminal_Reconcile_inv.
  destruct (GetOutcome_truthful _ _ _ _ Hget Hfs) as (Hfs1 & Hst1 & Hfound).
  destruct r0 as [e|o].
  { destruct Hrest as [Herr _]. symmetry in Herr. apply Hfound in Herr.
    unfold key in *. congruence. }
  unfold key in *. rewrite Hk in Hfound. injection Hfound as <-. simpl in Hrest.
  destruct Hrest as (t1 & e1 & w2 & Hdep & Hrest).
  destruct e1 as [e|]; [by destruct Hrest|].
  destruct Hrest as (t2 & e2 & w3 & Hsvc & Hrest).
  destruct e2 as [e|]; [by destruct Hrest|].
  destruct (DerivedOutcome_teardown_settles _ _ _ _ _ _ _ _ Hd Hdep) as [Ht1 Hc1].
  assert (GetDeletionTimestamp t1 = Some t) as Hd1 by (by destruct Ht1 as [->| ->]).
  assert (storeKey (ObjTerminal t1) = (KTerminal, RequestNamespacedName req)) as Hkey1
    by (by destruct Ht1 as [->| ->]).
  destruct (DerivedOutcome_teardown_settles _ _ _ _ _ _ _ _ Hd1 Hsvc) as [Ht2 Hc2].
  assert (GetDeletionTimestamp t2 = Some t) as Hd2 by (by destruct Ht2 as [->| ->]).
  assert (storeKey (ObjTerminal t2) = (KTerminal, RequestNamespacedName req)) as Hkey2
    by (by destruct Ht2 as [->| ->]).
  assert (ContainsFinalizer t2 TerminalReconciler.TerminalDeploymentFinalizer = false) as Hc1'.
  { destruct Ht2 as [->| ->]; [done|]. by apply ContainsFinalizer_RemoveFinalizer_other. }
  inversion Hrest as [| |old t' Hf Hk' Hd' Hnil|old Hf Hk' Hkeep]; subst; simpl.
  - left. rewrite Hkey2. apply lookup_delete_eq.
  - right. exists t2. cbn [kindOf toObject Terminal_object].
    rewrite Hkey2, lookup_insert_eq. do 3 (split; [by eauto|]). split.
    + intros f [->|[->|[]%elem_of_nil]%elem_of_cons]%elem_of_cons; done.
    + destruct Hkeep as [Hlive|?]; [|done]. simpl in Hlive.
      unfold GetDeletionTimestamp in Hd2. simpl in Hd2. congruence.
Qed.

(** A pass that succeeds on a live Terminal, against a truthful store,
    settles it. *)
Lemma Terminal_live_pass_settles req w res w' terminal :
  let key := RequestNamespacedName req in
  store w !! (KTerminal, key) = Some (ObjTerminal terminal) →
  storeKey (ObjTerminal terminal) = (KTerminal, key) →
  GetDeletionTimestamp terminal = None →
  consistentFaults (faults w) →
  TerminalReconciler.Reconcile req w = ((res, None), w') →
  terminalSettled (store w') key.
Proof.
  intros key Hk Hkey Hd Hfs (r0 & w1 & Hget & Hrest)%Terminal_Reconcile_inv.
  destruct (GetOutcome_truthful _ _ _ _ Hget Hfs) as (Hfs1 & Hst1 & Hfound).
  destruct r0 as [e|o].
  { destruct Hrest as [Herr _]. symmetry in Herr. apply Hfound in Herr.
    unfold key in *. congruence. }
  unfold key in *. rewrite Hk in Hfound. injection Hfound as <-. simpl in Hrest.
  destruct Hrest as (t1 & e1 & w2 & Hdep & Hrest).
  destruct e1 as [e|]; [by destruct Hrest|].
  destruct Hrest as (t2 & e2 & w3 & Hsvc & Hrest).
  destruct e2 as [e|]; [by destruct Hrest|].
  destruct (DerivedOutcome_live_settles _ _ _ _ _ _ _ Hd Hfs1 Hdep)
    as (-> & Hfs2 & Hdep2 & _).
  rewrite serviceForTerminal_AddFinalizer in Hsvc.
  pose proof (DerivedOutcome_frame _ _ _ _ _ _ _ Hsvc) as Hframe.
  eapply DerivedOutcome_live_settles in Hsvc as (-> & Hfs3 & Hsvc3 & _);
    [|by rewrite GetDeletionTimestamp_AddFinalizer|done].
  rewrite <-Hframe in Hdep2 by done.
  set (t2 := AddFinalizer (AddFinalizer terminal _) _) in *.
  assert (GetDeletionTimestamp t2 = None) as Hd2
    by (unfold t2; by rewrite !GetDeletionTimestamp_AddFinalizer).
  assert (storeKey (toObject t2) = (KTerminal, RequestNamespacedName req)) as Hkey2
    by (unfold t2; by rewrite !storeKey_AddFinalizer).
  pose proof (UpdateOutcome_live t2 _ _ _ Hd2 Hrest eq_refl) as Hst.
  exists t2. rewrite Hst. cbn [toObject Terminal_object] in *.
  rewrite Hkey2, lookup_insert_eq. do 3 (split; [done|]).
  split; [apply ContainsFinalizer_AddFinalizer_other, ContainsFinalizer_AddFinalizer|].
  split; [apply ContainsFinalizer_AddFinalizer|].
  unfold t2.
  rewrite serviceForTerminal_AddFinalizer, serviceForTerminal_AddFinalizer.
  rewrite deploymentForTerminal_AddFinalizer, deploymentForTerminal_AddFinalizer.
  by rewrite !lookup_insert_ne by done.
Qed.

(** A pass that succeeds on a settled Terminal changes nothing. *)
Lemma Terminal_settled_pass req w res w' :
  terminalSettled (store w) (RequestNamespacedName req) →
  consistentFaults (faults w) →
  TerminalReconciler.Reconcile req w = ((res, None), w') →
  store w' = store w.
Proof.
  intros (t & Hk & Hkey & Hd & Hc1 & Hc2 & Hdep & Hsvc) Hfs
    (r0 & w1 & Hget & Hrest)%Terminal_Reconcile_inv.
  destruct (GetOutcome_truthful _ _ _ _ Hget Hfs) as (Hfs1 & Hst1 & Hfound).
  destruct r0 as [e|o].
  { destruct Hrest as [Herr _]. symmetry in Herr. apply Hfound in Herr. congruence. }
  rewrite Hk in Hfound. injection Hfound as <-. simpl in Hrest.
  destruct Hrest as (t1 & e1 & w2 & Hdep1 & Hrest).
  destruct e1 as [e|]; [by destruct Hrest|].
  destruct Hrest as (t2 & e2 & w3 & Hsvc2 & Hrest).
  destruct e2 as [e|]; [by destruct Hrest|].
  destruct (DerivedOutcome_live_settles _ _ _ _ _ _ _ Hd Hfs1 Hdep1)
    as (-> & Hfs2 & _ & Hst2).
  rewrite AddFinalizer_id in * by done.
  rewrite Hst1 in Hst2. specialize (Hst2 Hdep).
  destruct (DerivedOutcome_live_settles _ _ _ _ _ _ _ Hd Hfs2 Hsvc2)
    as (-> & Hfs3 & _ & Hst3).
  rewrite AddFinalizer_id in * by done.
  rewrite Hst2 in Hst3. specialize (Hst3 Hsvc).
  rewrite (UpdateOutcome_live t _ _ _ Hd Hrest eq_refl), Hst3. apply insert_id. cbn [toObject Terminal_object]. by rewrite Hkey.
Qed.

(** ** The User reconciler, pass after pass *)

Lemma roleBindingsLoop_idle user roles w :
  ContainsFinalizer user UserReconciler.UserRoleBindingFinalizer = false →
  UserReconciler.roleBindingsLoop user true roles w = (None, w).
Proof. intros Hc. induction roles as [|role roles IH]; simpl; [done|]. by rewrite Hc. Qed.

(** On the delete path the loop is left early only with an error. *)
Lemma roleBindingsLoop_teardown user roles w ret w1 :
  UserReconciler.roleBindingsLoop user true roles w = (ret, w1) →
  default None ret = None → ret = None.
Proof.
  revert w. induction roles as [|role roles IH]; intros w Hrun Hret; simpl in Hrun.
  { by run_inv Hrun. }
  destruct (ContainsFinalizer user _); [|by eapply IH].
  run_inv Hrun. destruct a as [err|]; [by run_inv Hrest|by eapply IH].
Qed.

(** On the create path nothing leaves the store. *)
Lemma roleBindingsLoop_live_keeps user roles w ret w1 k :
  UserReconciler.roleBindingsLoop user false roles w = (ret, w1) →
  is_Some (store w !! k) → is_Some (store w1 !! k).
Proof.
  revert w. induction roles as [|role roles IH]; intros w Hrun Hk; simpl in Hrun.
  { by run_inv Hrun. }
  run_inv Hrun. apply Create_outcome in Hcall.
  assert (is_Some (store w0 !! k)) as Hk0.
  { destruct Hcall; simpl; [done..|]. rewrite lookup_insert. by case_decide. }
  destruct a as [err|]; [by run_inv Hrest|by eapply IH].
Qed.

Lemma roleBindingsLoop_live_settles user roles w ret w1 :
  UserReconciler.roleBindingsLoop user false roles w = (ret, w1) →
  default None ret = None → consistentFaults (faults w) →
  match roles with
  | [] => True
  | role :: _ => is_Some (store w1 !! bindingKey user role)
  end.
Proof.
  destruct roles as [|role roles]; [done|]. simpl. intros Hrun Hret Hfs.
  run_inv Hrun. apply Create_outcome in Hcall.
  assert (IgnoreAlreadyExists a = None) as Herr.
  { destruct a as [err|]; [|done]. run_inv Hrest. simpl in Hret.
    unfold IgnoreAlreadyExists. by destruct (IsAlreadyExists err). }
  assert (is_Some (store w0 !! bindingKey user role)) as Hk.
  { destruct (CreateOutcome_truthful _ _ _ _ Hcall Hfs Herr) as (_ & [[_ ->]|[? ->]]);
      [|done]. unfold bindingKey. by rewrite lookup_insert_eq. }
  destruct a as [err|]; [by run_inv Hrest|by eapply roleBindingsLoop_live_keeps].
Qed.

Lemma roleBindingsLoop_live_stable user roles w ret w1 :
  match roles with
  | [] => True
  | role :: _ => is_Some (store w !! bindingKey user role)
  end →
  UserReconciler.roleBindingsLoop user false roles w = (ret, w1) →
  default None ret = None → consistentFaults (faults w) →
  store w1 = store w.
Proof.
  destruct roles as [|role roles]; simpl; intros Hk Hrun Hret Hfs; [by run_inv Hrun|].
  run_inv Hrun. apply Create_outcome in Hcall. unfold bindingKey in Hk.
  destruct a as [err|].
  - run_inv Hrest. simpl in Hret.
    assert (IgnoreAlreadyExists (Some err) = None) as Herr
      by (unfold IgnoreAlreadyExists; by destruct (IsAlreadyExists err)).
    by destruct (CreateOutcome_truthful _ _ _ _ Hcall Hfs Herr) as (_ & [[Hno _]|[_ ->]]);
      [rewrite Hno in Hk; by destruct Hk|].
  - destruct (CreateOutcome_truthful _ _ _ _ Hcall Hfs eq_refl) as (_ & [[Hno _]|[_ Hst]]).
    + rewrite Hno in Hk. by destruct Hk.
    + inversion Hcall; subst. destruct Hk. congruence.
Qed.

Lemma reconcileRoleBindings_idle user w t :
  GetDeletionTimestamp user = Some t →
  ContainsFinalizer user UserReconciler.UserRoleBindingFinalizer = false →
  UserReconciler.reconcileRoleBindings user w = ((user, None), w).
Proof.
  intros Hd Hc. unfold UserReconciler.reconcileRoleBindings.
  rewrite Hd, bool_decide_eq_true_2 by done. rewrite bind_run, roleBindingsLoop_idle by done.
  cbn [fst snd]. by rewrite RemoveFinalizer_id.
Qed.

Lemma reconcileRoleBindings_teardown user w u' w1 t :
  GetDeletionTimestamp user = Some t →
  UserReconciler.reconcileRoleBindings user w = ((u', None), w1) →
  u' = RemoveFinalizer user UserReconciler.UserRoleBindingFinalizer.
Proof.
  intros Hd. unfold UserReconciler.reconcileRoleBindings.
  rewrite Hd, bool_decide_eq_true_2 by done. intros Hrun. run_inv Hrun.
  assert (default None a = None) as Hret by (by destruct a; run_inv Hrest).
  apply roleBindingsLoop_teardown in Hcall as ->; [|done]. by run_inv Hrest.
Qed.

Lemma reconcileRoleBindings_live user w u' w1 :
  GetDeletionTimestamp user = None →
  UserReconciler.reconcileRoleBindings user w = ((u', None), w1) →
  let added := AddFinalizer user UserReconciler.UserRoleBindingFinalizer in
  u' = added ∧
  ∃ ret, default None ret = None ∧
    UserReconciler.roleBindingsLoop added false (Roles (UserSpec_ user)) w = (ret, w1).
Proof.
  intros Hd. unfold UserReconciler.reconcileRoleBindings.
  rewrite Hd, bool_decide_eq_false_2 by (by intros [??]). intros Hrun. run_inv Hrun.
  split; [by destruct a; run_inv Hrest|].
  exists a. by destruct a; run_inv Hrest.
Qed.

Lemma serviceAccountForUser_AddFinalizer user f :
  UserReconciler.serviceAccountForUser (AddFinalizer user f) =
  UserReconciler.serviceAccountForUser user.
Proof.
  unfold UserReconciler.serviceAccountForUser. simpl.
  by rewrite AddFinalizerMeta_Name, AddFinalizerMeta_Namespace.
Qed.

(** Once the teardown of a User is over (or the User is gone), a pass
    neither deletes anything nor changes the store. *)
Lemma User_tornDown_pass req w res err w' :
  let key := RequestNamespacedName req in
  store w !! (KUser, key) = None ∨
  tornDown (A:=User)
    [UserReconciler.UserServiceAccountFinalizer;
     UserReconciler.UserRoleBindingFinalizer] (store w) key →
  UserReconciler.Reconcile req w = ((res, err), w') →
  store w' = store w ∧
  ∃ evs, emitted w w' evs ∧ Forall (λ ev, evVerb ev ≠ VerbDelete) evs.
Proof.
  intros key Hinv (r0 & w1 & Hget & Hrest)%User_Reconcile_inv.
  pose proof (GetOutcome_store _ _ _ _ Hget) as Hst1.
  pose proof (GetOutcome_emitted _ _ _ _ Hget) as Hev1.
  assert ((∃ o, r0 = inr o ∧ store w !! (KUser, key) = Some o) ∨ ∃ e, r0 = inl e)
    as [(o & -> & Hr0)|[e ->]].
  { destruct Hget as [r Hf|Hf Hk|o Hf Hk]; [right; by eexists..|left; by exists o]. }
  2:{ destruct Hrest as [_ ->]. split; [done|]. eexists. split; [done|].
      by apply Forall_singleton. }
  destruct Hinv as [Hk|(u & Hk & Hkey & [ts Hd] & Hfin & Hret)];
    cbn [kindOf toObject User_object] in *; rewrite Hk in Hr0; [done|].
  injection Hr0 as <-. simpl in Hrest.
  destruct Hrest as (u1 & e1 & w2 & Hsa & Hrest).
  eapply DerivedOutcome_idle in Hsa as (-> & -> & ->); [|done|apply Hfin; by repeat constructor].
  destruct Hrest as (u2 & e2 & w3 & Hrb & Hrest).
  rewrite (reconcileRoleBindings_idle _ _ _ Hd) in Hrb by (apply Hfin; by repeat constructor).
  injection Hrb as <- <- <-.
  split.
  - inversion Hrest as [| |old t' Hf Hk' Hd' Hnil|old Hf Hk' _]; subst; simpl; try done.
    rewrite Hkey, Hst1. by apply insert_id.
  - eexists. split; [exact (emitted_trans _ _ _ _ _ Hev1 (UpdateOutcome_emitted _ _ _ _ Hrest))|].
    by apply Forall_two.
Qed.

(** A pass that succeeds on a User marked for deletion, against a truthful
    store, completes the teardown. *)
Lemma User_teardown_pass req w res w' user t :
  let key := RequestNamespacedName req in
  store w !! (KUser, key) = Some (ObjUser user) →
  storeKey (ObjUser user) = (KUser, key) →
  GetDeletionTimestamp user = Some t →
  consistentFaults (faults w) →
  UserReconciler.Reconcile req w = ((res, None), w') →
  store w' !! (KUser, key) = None ∨
  tornDown (A:=User)
    [UserReconciler.UserServiceAccountFinalizer;
     UserReconciler.UserRoleBindingFinalizer] (store w') key.
Proof.
  intros key Hk Hkey Hd Hfs (r0 & w1 & Hget & Hrest)%User_Reconcile_inv.
  destruct (GetOutcome_truthful _ _ _ _ Hget Hfs) as (Hfs1 & Hst1 & Hfound).
  destruct r0 as [e|o].
  { destruct Hrest as [Herr _]. symmetry in Herr. apply Hfound in Herr.
    unfold key in *. congruence. }
  unfold key in *. rewrite Hk in Hfound. injection Hfound as <-. simpl in Hrest.
  destruct Hrest as (u1 & e1 & w2 & Hsa & Hrest).
  destruct e1 as [e|]; [by destruct Hrest|].
  destruct Hrest as (u2 & e2 & w3 & Hrb & Hrest).
  destruct e2 as [e|]; [by destruct Hrest|].
  destruct (DerivedOutcome_teardown_settles _ _ _ _ _ _ _ _ Hd Hsa) as [Hu1 Hc1].
  assert (GetDeletionTimestamp u1 = Some t) as Hd1 by (by destruct Hu1 as [->| ->]).
  assert (storeKey (ObjUser u1) = (KUser, RequestNamespacedName req)) as Hkey1
    by (by destruct Hu1 as [->| ->]).
  apply (reconcileRoleBindings_teardown _ _ _ _ _ Hd1) in Hrb as ->.
  set (u2 := RemoveFinalizer u1 _) in *.
  assert (GetDeletionTimestamp u2 = Some t) as Hd2 by done.
  assert (storeKey (ObjUser u2) = (KUser, RequestNamespacedName req)) as Hkey2 by done.
  inversion Hrest as [| |old t' Hf Hk' Hd' Hnil|old Hf Hk' Hkeep]; subst; simpl.
  - left. rewrite Hkey2. apply lookup_delete_eq.
  - right. exists u2. cbn [kindOf toObject User_object].
    rewrite Hkey2, lookup_insert_eq. do 3 (split; [by eauto|]). split.
    + intros f [->|[->|[]%elem_of_nil]%elem_of_cons]%elem_of_cons.
      * by apply ContainsFinalizer_RemoveFinalizer_other.
      * apply ContainsFinalizer_RemoveFinalizer.
    + destruct Hkeep as [Hlive|?]; [|done]. simpl in Hlive.
      unfold GetDeletionTimestamp in Hd2. simpl in Hd2. congruence.
Qed.

(** A pass that succeeds on a live User, against a truthful store, settles
    it. *)
Lemma User_live_pass_settles req w res w' user :
  let key := RequestNamespacedName req in
  store w !! (KUser, key) = Some (ObjUser user) →
  storeKey (ObjUser user) = (KUser, key) →
  GetDeletionTimestamp user = None →
  consistentFaults (faults w) →
  UserReconciler.Reconcile req w = ((res, None), w') →
  userSettled (store w') key.
Proof.
  intros key Hk Hkey Hd Hfs (r0 & w1 & Hget & Hrest)%User_Reconcile_inv.
  destruct (GetOutcome_truthful _ _ _ _ Hget Hfs) as (Hfs1 & Hst1 & Hfound).
  destruct r0 as [e|o].
  { destruct Hrest as [Herr _]. symmetry in Herr. apply Hfound in Herr.
    unfold key in *. congruence. }
  unfold key in *. rewrite Hk in Hfound. injection Hfound as <-. simpl in Hrest.
  destruct Hrest as (u1 & e1 & w2 & Hsa & Hrest).
  destruct e1 as [e|]; [by destruct Hrest|].
  destruct Hrest as (u2 & e2 & w3 & Hrb & Hrest).
  destruct e2 as [e|]; [by destruct Hrest|].
  destruct (DerivedOutcome_live_settles _ _ _ _ _ _ _ Hd Hfs1 Hsa)
    as (-> & Hfs2 & Hsa2 & _).
  pose proof (reconcileRoleBindings_frame _ _ _ _ Hrb) as Hframe.
  apply reconcileRoleBindings_live in Hrb as (-> & ret & Hret & Hloop);
    [|by rewrite GetDeletionTimestamp_AddFinalizer].
  rewrite <-Hframe in Hsa2 by done.
  apply roleBindingsLoop_live_settles in Hloop; [|done..].
  set (u2 := AddFinalizer (AddFinalizer user _) _) in *.
  assert (GetDeletionTimestamp u2 = None) as Hd2
    by (unfold u2; by rewrite !GetDeletionTimestamp_AddFinalizer).
  assert (storeKey (toObject u2) = (KUser, RequestNamespacedName req)) as Hkey2
    by (unfold u2; by rewrite !storeKey_AddFinalizer).
  pose proof (UpdateOutcome_live u2 _ _ _ Hd2 Hrest eq_refl) as Hst.
  exists u2. rewrite Hst. cbn [toObject User_object] in *.
  rewrite Hkey2, lookup_insert_eq. do 3 (split; [done|]).
  split; [apply ContainsFinalizer_AddFinalizer_other, ContainsFinalizer_AddFinalizer|].
  split; [apply ContainsFinalizer_AddFinalizer|].
  split.
  - unfold u2. rewrite !serviceAccountForUser_AddFinalizer.
    by rewrite lookup_insert_ne by done.
  - change (Roles (UserSpec_ u2)) with (Roles (UserSpec_ user)).
    change (Roles (UserSpec_ (AddFinalizer user _))) with (Roles (UserSpec_ user)) in Hloop.
    destruct (Roles (UserSpec_ user)) as [|role roles]; [done|].
    by rewrite lookup_insert_ne by done.
Qed.

(** A pass that succeeds on a settled User changes nothing. *)
Lemma User_settled_pass req w res w' :
  userSettled (store w) (RequestNamespacedName req) →
  consistentFaults (faults w) →
  UserReconciler.Reconcile req w = ((res, None), w') →
  store w' = store w.
Proof.
  intros (u & Hk & Hkey & Hd & Hc1 & Hc2 & Hsa & Hrb) Hfs
    (r0 & w1 & Hget & Hrest)%User_Reconcile_inv.
  destruct (GetOutcome_truthful _ _ _ _ Hget Hfs) as (Hfs1 & Hst1 & Hfound).
  destruct r0 as [e|o].
  { destruct Hrest as [Herr _]. symmetry in Herr. apply Hfound in Herr. congruence. }
  rewrite Hk in Hfound. injection Hfound as <-. simpl in Hrest.
  destruct Hrest as (u1 & e1 & w2 & Hsa1 & Hrest).
  destruct e1 as [e|]; [by destruct Hrest|].
  destruct Hrest as (u2 & e2 & w3 & Hrb2 & Hrest).
  destruct e2 as [e|]; [by destruct Hrest|].
  destruct (DerivedOutcome_live_settles _ _ _ _ _ _ _ Hd Hfs1 Hsa1)
    as (-> & Hfs2 & _ & Hst2).
  rewrite AddFinalizer_id in * by done.
  rewrite Hst1 in Hst2. specialize (Hst2 Hsa).
  apply reconcileRoleBindings_live in Hrb2 as (-> & ret & Hret & Hloop); [|done].
  rewrite AddFinalizer_id in * by done.
  apply roleBindingsLoop_live_stable in Hloop; [|by rewrite Hst2|done..].
  rewrite (UpdateOutcome_live u _ _ _ Hd Hrest eq_refl), Hloop, Hst2.
  apply insert_id. cbn [toObject User_object]. by rewrite Hkey.
Qed.

(** ** Repeated passes *)

Lemma registered_inv (c : Controller) :
  c ∈ registered →
  c = TerminalReconciler.SetupWithManager ∨ c = UserReconciler.SetupWithManager.
Proof. intros [->|[->|[]%elem_of_nil]%elem_of_cons]%elem_of_cons; auto. Qed.

Lemma wellKeyed_lookup st k o : wellKeyed st → st !! k = Some o → storeKey o = k.
Proof. intros Hwf Hk. by apply (Hwf k o). Qed.

Lemma stored_Terminal key o :
  storeKey o = (KTerminal, key) → ∃ terminal, o = ObjTerminal terminal.
Proof. destruct o; intros [=]. by eexists. Qed.

Lemma stored_User key o : storeKey o = (KUser, key) → ∃ user, o = ObjUser user.
Proof. destruct o; intros [=]. by eexists. Qed.

(** Passes that neither change the store nor delete: any number of
    them. *)
Lemma reconcileRepeatedly_quiet (reconcile : M (Result * option error))
    (P : gmap StoreKey Object → Prop) :
  (∀ w res err w', P (store w) → reconcile w = ((res, err), w') →
     store w' = store w ∧
     ∃ evs, emitted w w' evs ∧ Forall (λ ev, evVerb ev ≠ VerbDelete) evs) →
  ∀ scripts w, P (store w) →
    store (reconcileRepeatedly reconcile scripts w) = store w ∧
    ∃ evs, emitted w (reconcileRepeatedly reconcile scripts w) evs ∧
      Forall (λ ev, evVerb ev ≠ VerbDelete) evs.
Proof.
  intros Hpass scripts. induction scripts as [|fs scripts IH]; intros w HP; simpl.
  { split; [done|]. exists []. split; [apply emitted_refl|done]. }
  destruct (reconcile (withFaults fs w)) as [[res err] w1] eqn:Hrun. cbn [snd].
  destruct (Hpass (withFaults fs w) _ _ _ HP Hrun) as (Hst & evs1 & Hevs1 & Hquiet1).
  simpl in Hst. destruct (IH w1) as (Hst' & evs2 & Hevs2 & Hquiet2); [by rewrite Hst|].
  split; [by rewrite Hst', Hst|].
  exists (evs1 ++ evs2). split; [|by apply Forall_app].
  eapply emitted_trans; [|done]. done.
Qed.

(** C7: once a pass on a primary object marked for deletion has succeeded
    against a truthful store (the derived objects deleted, the finalizers
    removed and the removal written back), no later pass on that object
    issues a [Delete], however many passes follow and whatever the store
    answers them: with the finalizers gone the delete branch is not
    entered again. *)
Theorem teardown_deletes_once (c : Controller) (req : Request) (w w1 : World)
    (res : Result) (o : Object) (scripts : list (list (option StatusReason))) :
  c ∈ registered →
  store w !! (For c, RequestNamespacedName req) = Some o →
  storeKey o = (For c, RequestNamespacedName req) →
  is_Some (DeletionTimestamp (objMeta o)) →
  consistentFaults (faults w) →
  Do c req w = ((res, None), w1) →
  ∃ evs, emitted w1 (reconcileRepeatedly (Do c req) scripts w1) evs ∧
    Forall (λ ev, evVerb ev ≠ VerbDelete) evs.
Proof.
  intros [->| ->]%registered_inv Hk Hkey [t Hd] Hfs Hrun; simpl in *.
  - destruct (stored_Terminal _ _ Hkey) as [terminal ->].
    pose proof (Terminal_teardown_pass _ _ _ _ _ _ Hk Hkey Hd Hfs Hrun) as Hdone.
    eapply (reconcileRepeatedly_quiet (TerminalReconciler.Reconcile req)
      (λ st, st !! (KTerminal, RequestNamespacedName req) = None ∨
             tornDown (A:=Terminal)
               [TerminalReconciler.TerminalDeploymentFinalizer;
                TerminalReconciler.TerminalServiceFinalizer] st
               (RequestNamespacedName req))); [|exact Hdone].
    intros w0 res0 err0 w0'. apply Terminal_tornDown_pass.
  - destruct (stored_User _ _ Hkey) as [user ->].
    pose proof (User_teardown_pass _ _ _ _ _ _ Hk Hkey Hd Hfs Hrun) as Hdone.
    eapply (reconcileRepeatedly_quiet (UserReconciler.Reconcile req)
      (λ st, st !! (KUser, RequestNamespacedName req) = None ∨
             tornDown (A:=User)
               [UserReconciler.UserServiceAccountFinalizer;
                UserReconciler.UserRoleBindingFinalizer] st
               (RequestNamespacedName req))); [|exact Hdone].
    intros w0 res0 err0 w0'. apply User_tornDown_pass.
Qed.

(** C9: two successful passes in a row on an unchanged Terminal or User,
    against a store that answers truthfully: the second pass leaves the
    store exactly as the first pass left it; no object is created,
    deleted or changed. *)
Theorem Reconcile_idempotent (c : Controller) (req : Request) (w w1 w2 : World)
    (fs : list (option StatusReason)) (res1 res2 : Result) :
  c ∈ registered →
  wellKeyed (store w) →
  consistentFaults (faults w) → consistentFaults fs →
  Do c req w = ((res1, None), w1) →
  Do c req (withFaults fs w1) = ((res2, None), w2) →
  store w2 = store w1.
Proof.
  intros [->| ->]%registered_inv Hwf Hfs Hfs2 Hrun1 Hrun2; simpl in *.
  - destruct (store w !! (KTerminal, RequestNamespacedName req)) as [o|] eqn:Hk.
    + pose proof (wellKeyed_lookup _ _ _ Hwf Hk) as Hkey.
      destruct (stored_Terminal _ _ Hkey) as [terminal ->].
      destruct (GetDeletionTimestamp terminal) as [t|] eqn:Hd.
      * pose proof (Terminal_teardown_pass _ _ _ _ _ _ Hk Hkey Hd Hfs Hrun1) as Hdone.
        by destruct (Terminal_tornDown_pass req (withFaults fs w1) _ _ _ Hdone Hrun2).
      * pose proof (Terminal_live_pass_settles _ _ _ _ _ Hk Hkey Hd Hfs Hrun1) as Hdone.
        exact (Terminal_settled_pass req (withFaults fs w1) _ _ Hdone Hfs2 Hrun2).
    + destruct (Terminal_tornDown_pass req w _ _ _ (or_introl Hk) Hrun1) as [Hst _].
      rewrite <-Hst in Hk.
      by destruct (Terminal_tornDown_pass req (withFaults fs w1) _ _ _ (or_introl Hk) Hrun2).
  - destruct (store w !! (KUser, RequestNamespacedName req)) as [o|] eqn:Hk.
    + pose proof (wellKeyed_lookup _ _ _ Hwf Hk) as Hkey.
      destruct (stored_User _ _ Hkey) as [user ->].
      destruct (GetDeletionTimestamp user) as [t|] eqn:Hd.
      * pose proof (User_teardown_pass _ _ _ _ _ _ Hk Hkey Hd Hfs Hrun1) as Hdone.
        by destruct (User_tornDown_pass req (withFaults fs w1) _ _ _ Hdone Hrun2).
      * pose proof (User_live_pass_settles _ _ _ _ _ Hk Hkey Hd Hfs Hrun1) as Hdone.
        exact (User_settled_pass req (withFaults fs w1) _ _ Hdone Hfs2 Hrun2).
    + destruct (User_tornDown_pass req w _ _ _ (or_introl Hk) Hrun1) as [Hst _].
      rewrite <-Hst in Hk.
      by destruct (User_tornDown_pass req (withFaults fs w1) _ _ _ (or_introl Hk) Hrun2).
Qed.

(** ** The earlier generation of the User reconciler *)

Lemma legacyBindingKey_AddFinalizer user f role :
  legacyBindingKey (AddFinalizer user f) role = legacyBindingKey user role.
Proof.
  unfold legacyBindingKey, storeKey, ObjectKeyFromObject. simpl.
  by rewrite AddFinalizerMeta_Name, AddFinalizerMeta_Namespace.
Qed.

Lemma Get_typed_outcome {A} `{ClientObject A} key w (r : error + A) w1 :
  Get key w = (r, w1) →
  store w1 = store w ∧ faults w1 = tail (faults w) ∧
  ∃ rsn, emitted w w1 [mkEvent VerbGet (kindOf A, key) rsn] ∧
    match r with
    | inl e =>
        (rsn = Some (ReasonForError e) ∧
         (nextFault w = None → ReasonForError e = StatusReasonNotFound ∧
                               store w !! (kindOf A, key) = None)) ∨
        (rsn = None ∧ e = StatusError StatusReasonInternalError ∧
         is_Some (store w !! (kindOf A, key)))
    | inr a => rsn = None ∧ nextFault w = None ∧
               ∃ o, store w !! (kindOf A, key) = Some o ∧ fromObject o = Some a
    end.
Proof.
  intros (r0 & Hget & ->)%Get_outcome.
  split; [by eapply GetOutcome_store|]. split; [by eapply GetOutcome_faults|].
  destruct Hget as [rsn Hf|Hf Hk|o Hf Hk]; eexists; (split; [apply emitted_served|]).
  - left. split; [done|]. congruence.
  - left. by split.
  - destruct (fromObject o) eqn:Ho; [by eauto|]. right. by eauto.
Qed.

(** What the loop of [reconcileRoleBindingss] does: it reads Roles, and
    reads, creates or deletes the bindings of the roles of the list; the
    in-memory user keeps its name, namespace and roles. *)
Lemma legacy_roleBindingsLoop_spec user isDeleting roles w u' err w1 :
  Legacy.UserReconciler.roleBindingsLoop user isDeleting roles w = ((u', err), w1) →
  (∀ k, (∀ role, role ∈ roles → k ≠ legacyBindingKey user role) →
        store w1 !! k = store w !! k) ∧
  (∀ role, legacyBindingKey u' role = legacyBindingKey user role) ∧
  storeKey (ObjUser u') = storeKey (ObjUser user) ∧
  ∃ evs, emitted w w1 evs ∧
    Forall (λ ev, evVerb ev ≠ VerbList ∧ evVerb ev ≠ VerbUpdate ∧
                  deleteNotFoundReported err ev ∧
                  (evKind ev = KRole ∧ evVerb ev = VerbGet ∨
                   ∃ role, role ∈ roles ∧ (evKind ev, evKey ev) = legacyBindingKey user role))
      evs.
Proof.
  revert user w. induction roles as [|role roles IH]; intros user w Hrun; simpl in Hrun.
  { run_inv Hrun. do 3 (split; [done|]). exists []. split; [apply emitted_refl|done]. }
  (* the rest of the loop, entered from [w0] after the events [evs0] of this round *)
  assert (∀ user0 w0 evs0,
    Legacy.UserReconciler.roleBindingsLoop user0 isDeleting roles w0 = ((u', err), w1) →
    (∀ k, k ≠ legacyBindingKey user role → store w0 !! k = store w !! k) →
    (∀ role', legacyBindingKey user0 role' = legacyBindingKey user role') →
    storeKey (ObjUser user0) = storeKey (ObjUser user) →
    emitted w w0 evs0 →
    Forall (λ ev, evVerb ev ≠ VerbList ∧ evVerb ev ≠ VerbUpdate ∧
                  deleteNotFoundReported None ev ∧
                  (evKind ev = KRole ∧ evVerb ev = VerbGet ∨
                   (evKind ev, evKey ev) = legacyBindingKey user role)) evs0 →
    (∀ k, (∀ role', role' ∈ role :: roles → k ≠ legacyBindingKey user role') →
          store w1 !! k = store w !! k) ∧
    (∀ role', legacyBindingKey u' role' = legacyBindingKey user role') ∧
    storeKey (ObjUser u') = storeKey (ObjUser user) ∧
    ∃ evs, emitted w w1 evs ∧
      Forall (λ ev, evVerb ev ≠ VerbList ∧ evVerb ev ≠ VerbUpdate ∧
                    deleteNotFoundReported err ev ∧
                    (evKind ev = KRole ∧ evVerb ev = VerbGet ∨
                     ∃ role', role' ∈ role :: roles ∧
                       (evKind ev, evKey ev) = legacyBindingKey user role')) evs) as Hnext.
  { intros user0 w0 evs0 (Hframe & Hkeys & Hkey & evs & Hevs & Hall)%IH
      Hframe0 Hkeys0 Hkey0 Hevs0 Hall0.
    split; [|split; [|split]].
    - intros k Hk. rewrite Hframe, Hframe0; [done|apply Hk; by left|].
      intros role' Hrole'. rewrite Hkeys0. apply Hk. by right.
    - intros role'. by rewrite Hkeys, Hkeys0.
    - by rewrite Hkey, Hkey0.
    - exists (evs0 ++ evs). split; [by eapply emitted_trans|]. apply Forall_app. split.
      + eapply Forall_impl; [done|]. intros ev (? & ? & Hdel & Hwhere).
        split; [done|]. split; [done|]. split.
        * intros Hv Hr. by destruct (Hdel Hv Hr) as (? & ? & _).
        * destruct Hwhere as [?|?]; [by left|right]. exists role. split; [by left|done].
      + eapply Forall_impl; [done|]. intros ev (? & ? & ? & Hwhere).
        do 3 (split; [done|]). destruct Hwhere as [?|(role' & ? & ?)]; [by left|right].
        exists role'. split; [by right|]. by rewrite <-Hkeys0. }
  (* leaving the loop from [w1] after the events [evs0] of this round *)
  assert (∀ evs0,
    u' = user →
    (∀ k, k ≠ legacyBindingKey user role → store w1 !! k = store w !! k) →
    emitted w w1 evs0 →
    Forall (λ ev, evVerb ev ≠ VerbList ∧ evVerb ev ≠ VerbUpdate ∧
                  deleteNotFoundReported err ev ∧
                  (evKind ev = KRole ∧ evVerb ev = VerbGet ∨
                   (evKind ev, evKey ev) = legacyBindingKey user role)) evs0 →
    (∀ k, (∀ role', role' ∈ role :: roles → k ≠ legacyBindingKey user role') →
          store w1 !! k = store w !! k) ∧
    (∀ role', legacyBindingKey u' role' = legacyBindingKey user role') ∧
    storeKey (ObjUser u') = storeKey (ObjUser user) ∧
    ∃ evs, emitted w w1 evs ∧
      Forall (λ ev, evVerb ev ≠ VerbList ∧ evVerb ev ≠ VerbUpdate ∧
                    deleteNotFoundReported err ev ∧
                    (evKind ev = KRole ∧ evVerb ev = VerbGet ∨
                     ∃ role', role' ∈ role :: roles ∧
                       (evKind ev, evKey ev) = legacyBindingKey user role')) evs) as Hleave.
  { intros evs0 -> Hframe0 Hevs0 Hall0. split; [|split; [done|split; [done|]]].
    - intros k Hk. apply Hframe0, Hk. by left.
    - exists evs0. split; [done|]. eapply Forall_impl; [done|].
      intros ev (? & ? & ? & Hwhere). do 3 (split; [done|]).
      destruct Hwhere as [?|?]; [by left|right]. exists role. split; [by left|done]. }
  destruct isDeleting.
  - destruct (ContainsFinalizer user _).
    2:{ eapply (Hnext user w []); eauto using emitted_refl. }
    run_inv Hrun. apply Delete_outcome in Hcall.
    pose proof (DeleteOutcome_emitted _ _ _ _ Hcall) as Hev.
    pose proof (DeleteOutcome_frame _ _ _ _ Hcall) as Hfr.
    destruct a as [e|]; [destruct (IsNotFound e) eqn:Hnf|].
    + run_inv Hrest. eapply Hleave; eauto. apply Forall_singleton.
      repeat split; [done..| |by right]. intros _ _. exists e. split; [done|].
      by apply bool_decide_eq_true in Hnf.
    + eapply Hnext; eauto. apply Forall_singleton. repeat split; [done..| |by right].
      intros _ [= Hr]. apply bool_decide_eq_false in Hnf. done.
    + eapply Hnext; eauto. apply Forall_singleton. repeat split; [done..| |by right].
      by intros _ [=].
  - run_inv Hrun. apply Get_typed_outcome in Hcall as (Hst0 & _ & rsn0 & Hev0 & Hrole).
    assert (Forall (λ ev, evVerb ev ≠ VerbList ∧ evVerb ev ≠ VerbUpdate ∧
                      deleteNotFoundReported None ev ∧
                      (evKind ev = KRole ∧ evVerb ev = VerbGet ∨
                       (evKind ev, evKey ev) = legacyBindingKey user role))
              [mkEvent VerbGet (kindOf Role, (Namespace (UserMeta user), role)) rsn0]) as Hall0.
    { apply Forall_singleton. repeat split; [done..| |by left]. by intros [=]. }
    assert (∀ errx, Forall (λ ev, evVerb ev ≠ VerbList ∧ evVerb ev ≠ VerbUpdate ∧
                      deleteNotFoundReported errx ev ∧
                      (evKind ev = KRole ∧ evVerb ev = VerbGet ∨
                       (evKind ev, evKey ev) = legacyBindingKey user role))
              [mkEvent VerbGet (kindOf Role, (Namespace (UserMeta user), role)) rsn0]) as Hall0'.
    { intros errx. apply Forall_singleton. repeat split; [done..| |by left]. by intros [=]. }
    destruct a as [e|r].
    { assert (u' = user ∧ w1 = w0) as [-> ->]
        by (destruct (IsNotFound e); by run_inv Hrest).
      eapply Hleave; eauto. intros k _. by rewrite Hst0. }
    run_inv Hrest. apply Get_typed_outcome in Hcall as (Hst2 & _ & rsn2 & Hev2 & Hbinding).
    assert (∀ errx, Forall (λ ev, evVerb ev ≠ VerbList ∧ evVerb ev ≠ VerbUpdate ∧
                      deleteNotFoundReported errx ev ∧
                      (evKind ev = KRole ∧ evVerb ev = VerbGet ∨
                       (evKind ev, evKey ev) = legacyBindingKey user role))
              ([mkEvent VerbGet (kindOf Role, (Namespace (UserMeta user), role)) rsn0] ++
               [mkEvent VerbGet
                  (kindOf RoleBinding,
                   ObjectKeyFromObject
                     (toObject (Legacy.UserReconciler.desiredRoleBinding user role))) rsn2]))
      as Hall2.
    { intros errx. apply Forall_app. split; [done|]. apply Forall_singleton.
      repeat split; [done..| |by right]. by intros [=]. }
    pose proof (emitted_trans _ _ _ _ _ Hev0 Hev2) as Hevs2.
    destruct a as [e|b].
    2:{ eapply (Hnext (AddFinalizer (H:=User_object) user
                       Legacy.UserReconciler.UserRoleBindingFinalizer)
                 w2 _ Hrest0); [| | |exact Hevs2|exact (Hall2 None)].
        - intros k _. by rewrite Hst2, Hst0.
        - intros role'. apply legacyBindingKey_AddFinalizer.
        - exact (storeKey_AddFinalizer (A:=User) user _). }
    destruct (IsNotFound e).
    2:{ run_inv Hrest0. eapply Hleave; eauto. intros k _. by rewrite Hst2, Hst0. }
    run_inv Hrest0. apply Create_outcome in Hcall.
    pose proof (CreateOutcome_emitted _ _ _ _ Hcall) as Hev3.
    pose proof (CreateOutcome_frame _ _ _ _ Hcall) as Hfr3.
    pose proof (emitted_trans _ _ _ _ _ Hevs2 Hev3) as Hevs3.
    assert (∀ errx, Forall (λ ev, evVerb ev ≠ VerbList ∧ evVerb ev ≠ VerbUpdate ∧
                      deleteNotFoundReported errx ev ∧
                      (evKind ev = KRole ∧ evVerb ev = VerbGet ∨
                       (evKind ev, evKey ev) = legacyBindingKey user role))
              [mkEvent VerbCreate
                 (storeKey (toObject (Legacy.UserReconciler.desiredRoleBinding user role)))
                 (ReasonForError <$> a)]) as Hall3.
    { intros errx. apply Forall_singleton. repeat split; [done..| |by right]. by intros [=]. }
    destruct a as [e3|].
    + run_inv Hrest. eapply Hleave; eauto.
      * intros k Hk. by rewrite Hfr3, Hst2, Hst0.
      * apply Forall_app. split; [apply Hall2|apply Hall3].
    + eapply (Hnext (AddFinalizer (H:=User_object) user
                       Legacy.UserReconciler.UserRoleBindingFinalizer)
               w3 _ Hrest); [| | |exact Hevs3|].
      * intros k Hk. by rewrite Hfr3, Hst2, Hst0.
      * intros role'. apply legacyBindingKey_AddFinalizer.
      * exact (storeKey_AddFinalizer (A:=User) user _).
      * apply Forall_app. split; [apply Hall2|apply Hall3].
Qed.

(** ** Bindings of roles that are not in the list *)

Lemma append_inj_l (s a b : string) : s +:+ a = s +:+ b → a = b.
Proof. induction s as [|c s IH]; simpl; [done|]. intros [= ?]. auto. Qed.

Lemma bindingKey_inj user role role' :
  bindingKey user role = bindingKey user role' → role = role'.
Proof.
  unfold bindingKey, storeKey, ObjectKeyFromObject. simpl.
  intros [= Heq%append_inj_l]. by apply append_inj_l in Heq.
Qed.

Lemma legacyBindingKey_inj user role role' :
  legacyBindingKey user role = legacyBindingKey user role' → role = role'.
Proof.
  unfold legacyBindingKey, storeKey, ObjectKeyFromObject.
  cbn [objMeta objKind toObject RoleBinding_object RoleBindingMeta Name Namespace
       Legacy.UserReconciler.desiredRoleBinding].
  intros [= Heq%append_inj_l]. apply append_inj_l in Heq. by apply append_inj_l in Heq.
Qed.

Lemma bindingKey_RemoveFinalizer user f role :
  bindingKey (RemoveFinalizer user f) role = bindingKey user role.
Proof. done. Qed.

Section derived_events.
Context {A D} `{ClientObject A} `{ClientObject D}.
Variables (finalizer : string) (desired : D) (wrap : error → error).

Lemma DerivedOutcome_result (obj : A) w r w1 :
  DerivedOutcome finalizer desired wrap obj w r w1 →
  r.1 = obj ∨ r.1 = RemoveFinalizer obj finalizer ∨ r.1 = AddFinalizer obj finalizer.
Proof. destruct 1; auto. Qed.

Lemma DerivedOutcome_events (obj : A) w r w1 :
  DerivedOutcome finalizer desired wrap obj w r w1 →
  ∃ evs, emitted w w1 evs ∧
    Forall (λ ev, (evVerb ev = VerbCreate ∨ evVerb ev = VerbDelete) ∧
                  (evKind ev, evKey ev) = storeKey (toObject desired)) evs.
Proof.
  destruct 1 as [t Hd Hc|t err w1 Hd Hc Hdel|t w1 Hd Hc Hdel|err w1 Hd Hcr].
  - exists []. split; [apply emitted_refl|constructor].
  - eexists. split; [by eapply DeleteOutcome_emitted|].
    apply Forall_singleton. split; [by right|done].
  - eexists. split; [by eapply DeleteOutcome_emitted|].
    apply Forall_singleton. split; [by right|done].
  - eexists. split; [by eapply CreateOutcome_emitted|].
    apply Forall_singleton. split; [by left|done].
Qed.
End derived_events.

(** The current reconciler never touches the binding of a role that is
    not in the list of the user it reconciles. *)
Lemma User_Reconcile_orphan req w user role res err w' :
  store w !! (KUser, RequestNamespacedName req) = Some (ObjUser user) →
  role ∉ Roles (UserSpec_ user) →
  UserReconciler.Reconcile req w = ((res, err), w') →
  store w' !! bindingKey user role = store w !! bindingKey user role ∧
  ∃ evs, emitted w w' evs ∧
    Forall (λ ev, evVerb ev ≠ VerbList ∧ (evKind ev, evKey ev) ≠ bindingKey user role) evs.
Proof.
  intros Hk Hrole (r0 & w1 & Hget & Hrest)%User_Reconcile_inv.
  pose proof (GetOutcome_store _ _ _ _ Hget) as Hst1.
  pose proof (GetOutcome_emitted _ _ _ _ Hget) as Hev1.
  assert (Forall (λ ev, evVerb ev ≠ VerbList ∧ (evKind ev, evKey ev) ≠ bindingKey user role)
            [mkEvent VerbGet (KUser, RequestNamespacedName req)
               match r0 with inl e => Some (ReasonForError e) | inr _ => None end]) as Hall1
    by (by apply Forall_singleton).
  assert ((∃ e, r0 = inl e) ∨ r0 = inr (ObjUser user)) as [[e ->]| ->].
  { destruct Hget as [r Hf|Hf Hk'|o Hf Hk']; [left; by eexists..|right; congruence]. }
  { destruct Hrest as [_ ->]. rewrite Hst1. eauto. }
  simpl in Hrest. destruct Hrest as (u1 & e1 & w2 & Hsa & Hrest).
  pose proof (DerivedOutcome_frame _ _ _ _ _ _ _ Hsa (bindingKey user role)) as Hst2.
  destruct (DerivedOutcome_events _ _ _ _ _ _ _ Hsa) as (evs2 & Hevs2 & Hall2).
  assert (Forall (λ ev, evVerb ev ≠ VerbList ∧ (evKind ev, evKey ev) ≠ bindingKey user role)
            evs2) as Hall2'.
  { eapply Forall_impl; [done|]. intros ev [[Hv|Hv] Hkey]; rewrite Hv, Hkey; by split. }
  assert (∀ r, bindingKey u1 r = bindingKey user r) as Hu1.
  { intros r. destruct (DerivedOutcome_result _ _ _ _ _ _ _ Hsa) as [Hu|[Hu|Hu]];
      simpl in Hu; rewrite Hu; [done|done|apply bindingKey_AddFinalizer]. }
  assert (Roles (UserSpec_ u1) = Roles (UserSpec_ user)) as Hroles.
  { destruct (DerivedOutcome_result _ _ _ _ _ _ _ Hsa) as [Hu|[Hu|Hu]];
      simpl in Hu; by rewrite Hu. }
  pose proof (emitted_trans _ _ _ _ _ Hev1 Hevs2) as Hevs12.
  destruct e1 as [e|].
  { destruct Hrest as [_ ->]. rewrite Hst2, Hst1 by done. split; [done|].
    eexists. split; [done|]. by apply Forall_app. }
  destruct Hrest as (u2 & e2 & w3 & Hrb & Hrest).
  pose proof (reconcileRoleBindings_frame _ _ _ _ Hrb (bindingKey user role)) as Hst3.
  destruct (reconcileRoleBindings_events _ _ _ _ _ Hrb) as (evs3 & Hevs3 & _ & Hall3).
  assert (Forall (λ ev, evVerb ev ≠ VerbList ∧ (evKind ev, evKey ev) ≠ bindingKey user role)
            evs3) as Hall3'.
  { eapply Forall_impl; [done|]. intros ev [Hv (r & Hr & Hkey)]. split.
    - by destruct Hv as [-> | ->].
    - rewrite Hkey, Hu1. intros ->%bindingKey_inj. rewrite Hroles in Hr. done. }
  assert (store w3 !! bindingKey user role = store w !! bindingKey user role) as Hst.
  { rewrite Hst3, Hst2, Hst1; [done..|]. intros r Hr. rewrite Hu1.
    intros ->%bindingKey_inj. rewrite Hroles in Hr. done. }
  pose proof (emitted_trans _ _ _ _ _ Hevs12 Hevs3) as Hevs123.
  destruct e2 as [e|].
  { destruct Hrest as [_ ->]. split; [done|]. eexists. split; [done|].
    rewrite !Forall_app. by repeat split. }
  split.
  - by rewrite (UpdateOutcome_frame _ _ _ _ Hrest).
  - eexists. split; [exact (emitted_trans _ _ _ _ _ Hevs123 (UpdateOutcome_emitted _ _ _ _ Hrest))|].
    rewrite !Forall_app. repeat split; [done..|]. by apply Forall_singleton.
Qed.

(** ** One pass of the earlier User reconciler *)

Lemma legacyBindingKey_RemoveFinalizer user f role :
  legacyBindingKey (RemoveFinalizer user f) role = legacyBindingKey user role.
Proof. done. Qed.

(** [reconcileServiceAccount] reads, creates or deletes the one
    ServiceAccount of the user. *)
Lemma legacy_reconcileServiceAccount_spec user w u' err w1 :
  Legacy.UserReconciler.reconcileServiceAccount user w = ((u', err), w1) →
  (∀ k, k.1 ≠ KServiceAccount → store w1 !! k = store w !! k) ∧
  (u' = user ∨ u' = RemoveFinalizer user Legacy.UserReconciler.UserServiceAccountFinalizer ∨
   u' = AddFinalizer user Legacy.UserReconciler.UserServiceAccountFinalizer) ∧
  ∃ evs, emitted w w1 evs ∧
    Forall (λ ev, evVerb ev ≠ VerbList ∧ evVerb ev ≠ VerbUpdate ∧
                  deleteNotFoundReported err ev ∧ evKind ev = KServiceAccount) evs.
Proof.
  unfold Legacy.UserReconciler.reconcileServiceAccount. intros Hrun.
  destruct (GetDeletionTimestamp user) as [t|].
  - destruct (ContainsFinalizer user _).
    2:{ run_inv Hrun. split; [done|]. split; [by left|]. exists [].
        split; [apply emitted_refl|done]. }
    run_inv Hrun. apply Delete_outcome in Hcall.
    pose proof (DeleteOutcome_emitted _ _ _ _ Hcall) as Hev.
    pose proof (DeleteOutcome_frame _ _ _ _ Hcall) as Hfr.
    split; [|split].
    + intros k Hk. assert (w1 = w0) as -> by (by destruct a; run_inv Hrest).
      apply Hfr. by intros ->.
    + destruct a; run_inv Hrest; auto.
    + exists [mkEvent VerbDelete
                (storeKey (toObject (Legacy.UserReconciler.desiredServiceAccount user)))
                (ReasonForError <$> a)].
      split; [by destruct a; run_inv Hrest|].
      apply Forall_singleton. repeat split; [done..|].
      intros _ Hr. destruct a as [e|]; [|done]. run_inv Hrest. exists e.
      split; [done|]. simpl in Hr. congruence.
  - run_inv Hrun. apply Get_typed_outcome in Hcall as (Hst0 & _ & rsn0 & Hev0 & _).
    assert (∀ errx, Forall (λ ev, evVerb ev ≠ VerbList ∧ evVerb ev ≠ VerbUpdate ∧
                      deleteNotFoundReported errx ev ∧ evKind ev = KServiceAccount)
              [mkEvent VerbGet
                 (kindOf ServiceAccount,
                  ObjectKeyFromObject
                    (toObject (Legacy.UserReconciler.desiredServiceAccount user))) rsn0])
      as Hall0.
    { intros errx. apply Forall_singleton. repeat split; [done..|]. by intros [=]. }
    destruct a as [e|sa]; [destruct (IsNotFound e)|].
    + run_inv Hrest. apply Create_outcome in Hcall.
      pose proof (CreateOutcome_emitted _ _ _ _ Hcall) as Hev.
      pose proof (CreateOutcome_frame _ _ _ _ Hcall) as Hfr.
      split; [|split].
      * intros k Hk. assert (w1 = w2) as -> by (by destruct a; run_inv Hrest0).
        rewrite Hfr, Hst0; [done|]. by intros ->.
      * destruct a; run_inv Hrest0; auto.
      * eexists. split.
        { assert (w1 = w2) as -> by (by destruct a; run_inv Hrest0).
          exact (emitted_trans _ _ _ _ _ Hev0 Hev). }
        apply Forall_app. split; [done|]. apply Forall_singleton.
        repeat split; [done..|]. by intros [=].
    + run_inv Hrest. split; [by intros; rewrite Hst0|]. split; [by left|]. by eexists.
    + run_inv Hrest. split; [by intros; rewrite Hst0|]. split; [by left|]. by eexists.
Qed.

Lemma legacy_reconcileRoleBindingss_spec user w u' err w1 :
  Legacy.UserReconciler.reconcileRoleBindingss user w = ((u', err), w1) →
  (∀ k, (∀ role, role ∈ Roles (UserSpec_ user) → k ≠ legacyBindingKey user role) →
        store w1 !! k = store w !! k) ∧
  storeKey (ObjUser u') = storeKey (ObjUser user) ∧
  ∃ evs, emitted w w1 evs ∧
    Forall (λ ev, evVerb ev ≠ VerbList ∧ evVerb ev ≠ VerbUpdate ∧
                  deleteNotFoundReported err ev ∧
                  (evKind ev = KRole ∧ evVerb ev = VerbGet ∨
                   ∃ role, role ∈ Roles (UserSpec_ user) ∧
                     (evKind ev, evKey ev) = legacyBindingKey user role)) evs.
Proof.
  unfold Legacy.UserReconciler.reconcileRoleBindingss. intros Hrun. run_inv Hrun.
  destruct a as [u0 e0].
  apply legacy_roleBindingsLoop_spec in Hcall as (Hframe & _ & Hkey & evs & Hevs & Hall).
  assert (w1 = w0 ∧ err = e0 ∧ storeKey (ObjUser u') = storeKey (ObjUser u0)) as (-> & -> & ->).
  { destruct e0; run_inv Hrest; [done|]. by destruct (bool_decide _). }
  repeat split; [done..|]. by exists evs.
Qed.

(** The steps of the earlier [Reconcile], one case per exit. *)
Lemma Legacy_Reconcile_inv req w res err w' :
  Legacy.UserReconciler.Reconcile req w = ((res, err), w') →
  ∃ r w1,
    Get (A:=User) (RequestNamespacedName req) w = (r, w1) ∧
    match r with
    | inl e => err = (if IsNotFound e then None else Some e) ∧ w' = w1
    | inr user =>
        ∃ u1 e1 w2,
          Legacy.UserReconciler.reconcileServiceAccount user w1 = ((u1, e1), w2) ∧
          match e1 with
          | Some e => err = Some e ∧ w' = w2
          | None =>
              ∃ u2 e2 w3,
                Legacy.UserReconciler.reconcileRoleBindingss u1 w2 = ((u2, e2), w3) ∧
                match e2 with
                | Some e => err = Some e ∧ w' = w3
                | None => UpdateOutcome (ObjUser u2) w3 err w'
                end
          end
    end.
Proof.
  unfold Legacy.UserReconciler.Reconcile. intros Hrun. run_inv Hrun.
  exists a, w0. split; [done|].
  destruct a as [e|user].
  { unfold IgnoreNotFound in Hrest. by destruct (IsNotFound e); run_inv Hrest. }
  run_inv Hrest. destruct a as [u1 e1]. exists u1, e1, w1. split; [done|].
  destruct e1 as [e|]; [by run_inv Hrest0|].
  run_inv Hrest0. destruct a as [u2 e2]. exists u2, e2, w2. split; [done|].
  destruct e2 as [e|]; [by run_inv Hrest|].
  run_inv Hrest.
  match goal with H : Update _ _ = _ |- _ => apply Update_outcome in H end.
  by destruct a as [e|]; run_inv Hrest0.
Qed.

Lemma Legacy_Reconcile_events req w res err w' :
  Legacy.UserReconciler.Reconcile req w = ((res, err), w') →
  ∃ evs, emitted w w' evs ∧
    Forall (λ ev, evVerb ev ≠ VerbList ∧ deleteNotFoundReported err ev ∧
                  primaryGetReported KUser err ev) evs.
Proof.
  intros (r & w1 & Hget & Hrest)%Legacy_Reconcile_inv.
  apply Get_typed_outcome in Hget as (_ & _ & rsn0 & Hev0 & Hr).
  assert (Forall (λ ev, evVerb ev ≠ VerbList ∧ deleteNotFoundReported err ev ∧
                        primaryGetReported KUser err ev)
            [mkEvent VerbGet (kindOf User, RequestNamespacedName req) rsn0]) as Hall0.
  { apply Forall_singleton. split; [done|]. split; [by intros [=]|].
    intros _ _ rsn Hrsn Hnf. simpl in Hrsn. subst rsn0.
    destruct r as [e|user]; [|by destruct Hr]. destruct Hrest as [-> _].
    destruct Hr as [[[= ->] _]|[[=] _]]. exists e. split; [|done].
    unfold IsNotFound. by rewrite bool_decide_eq_false_2. }
  destruct r as [e|user]; [destruct Hrest as [_ ->]; by eexists|].
  destruct Hrest as (u1 & e1 & w2 & Hsa & Hrest).
  apply legacy_reconcileServiceAccount_spec in Hsa as (_ & _ & evs1 & Hevs1 & Hall1).
  assert (∀ errx, (e1 = None ∨ errx = e1) →
    Forall (λ ev, evVerb ev ≠ VerbList ∧ deleteNotFoundReported errx ev ∧
                  primaryGetReported KUser errx ev) evs1) as Hall1'.
  { intros errx Herrx. eapply Forall_impl; [done|]. intros ev (? & _ & Hdel & Hkind).
    split; [done|]. split; [|by intros _ Hk; rewrite Hkind in Hk].
    intros Hv Hrsn. destruct (Hdel Hv Hrsn) as (e & He & ?).
    destruct Herrx as [->| ->]; [done|by exists e]. }
  pose proof (emitted_trans _ _ _ _ _ Hev0 Hevs1) as Hevs01.
  destruct e1 as [e|].
  { destruct Hrest as [-> ->]. eexists. split; [done|]. apply Forall_app. split; [done|].
    apply Hall1'. by right. }
  destruct Hrest as (u2 & e2 & w3 & Hrb & Hrest).
  apply legacy_reconcileRoleBindingss_spec in Hrb as (_ & _ & evs2 & Hevs2 & Hall2).
  assert (∀ errx, (e2 = None ∨ errx = e2) →
    Forall (λ ev, evVerb ev ≠ VerbList ∧ deleteNotFoundReported errx ev ∧
                  primaryGetReported KUser errx ev) evs2) as Hall2'.
  { intros errx Herrx. eapply Forall_impl; [done|]. intros ev (? & _ & Hdel & Hkind).
    split; [done|]. split.
    - intros Hv Hrsn. destruct (Hdel Hv Hrsn) as (e & He & ?).
      destruct Herrx as [->| ->]; [done|by exists e].
    - intros Hv Hk. destruct Hkind as [[Hk' _]|(role & _ & Hk')]; [congruence|].
      unfold legacyBindingKey, storeKey in Hk'. simpl in Hk'. congruence. }
  pose proof (emitted_trans _ _ _ _ _ Hevs01 Hevs2) as Hevs012.
  destruct e2 as [e|].
  { destruct Hrest as [-> ->]. eexists. split; [done|]. rewrite !Forall_app.
    repeat split; [done| |]; [apply Hall1'|apply Hall2']; auto. }
  eexists. split; [exact (emitted_trans _ _ _ _ _ Hevs012 (UpdateOutcome_emitted _ _ _ _ Hrest))|].
  rewrite !Forall_app. repeat split; [done| | |]; [apply Hall1'|apply Hall2'|]; auto.
  apply Forall_singleton. split; [done|]. split; by intros [=].
Qed.

Lemma Legacy_Reconcile_failed_frame req w res e w' :
  Legacy.UserReconciler.Reconcile req w = ((res, Some e), w') →
  ∀ key, store w' !! (KUser, key) = store w !! (KUser, key).
Proof.
  intros (r & w1 & Hget & Hrest)%Legacy_Reconcile_inv key.
  apply Get_typed_outcome in Hget as (Hst1 & _). rewrite <-Hst1.
  destruct r as [e0|user]; [by destruct Hrest as [_ ->]|].
  destruct Hrest as (u1 & e1 & w2 & Hsa & Hrest).
  apply legacy_reconcileServiceAccount_spec in Hsa as (Hfr1 & _).
  rewrite <-(Hfr1 (KUser, key)) by done.
  destruct e1 as [e1|]; [by destruct Hrest as [_ ->]|].
  destruct Hrest as (u2 & e2 & w3 & Hrb & Hrest).
  apply legacy_reconcileRoleBindingss_spec in Hrb as (Hfr2 & _).
  rewrite <-(Hfr2 (KUser, key)) by done.
  destruct e2 as [e2|]; [by destruct Hrest as [_ ->]|].
  by rewrite (UpdateOutcome_failed _ _ _ _ Hrest).
Qed.

(** The earlier reconciler never touches the binding of a role that is
    not in the list either. *)
Lemma Legacy_Reconcile_orphan req w user role res err w' :
  store w !! (KUser, RequestNamespacedName req) = Some (ObjUser user) →
  role ∉ Roles (UserSpec_ user) →
  Legacy.UserReconciler.Reconcile req w = ((res, err), w') →
  store w' !! legacyBindingKey user role = store w !! legacyBindingKey user role ∧
  ∃ evs, emitted w w' evs ∧
    Forall (λ ev, evVerb ev ≠ VerbList ∧
                  (evKind ev, evKey ev) ≠ legacyBindingKey user role) evs.
Proof.
  intros Hk Hrole (r & w1 & Hget & Hrest)%Legacy_Reconcile_inv.
  apply Get_typed_outcome in Hget as (Hst1 & _ & rsn0 & Hev1 & Hr).
  assert (Forall (λ ev, evVerb ev ≠ VerbList ∧
                        (evKind ev, evKey ev) ≠ legacyBindingKey user role)
            [mkEvent VerbGet (kindOf User, RequestNamespacedName req) rsn0]) as Hall1
    by (by apply Forall_singleton).
  destruct r as [e|user0].
  { destruct Hrest as [_ ->]. rewrite Hst1. eauto. }
  destruct Hr as (_ & _ & o & Ho & Hfrom). simpl in Ho. rewrite Hk in Ho.
  injection Ho as <-. injection Hfrom as <-.
  destruct Hrest as (u1 & e1 & w2 & Hsa & Hrest).
  apply legacy_reconcileServiceAccount_spec in Hsa as (Hfr2 & Hu1 & evs2 & Hevs2 & Hall2).
  assert (Forall (λ ev, evVerb ev ≠ VerbList ∧
                        (evKind ev, evKey ev) ≠ legacyBindingKey user role) evs2) as Hall2'.
  { eapply Forall_impl; [done|]. intros ev (? & _ & _ & Hkind). split; [done|].
    unfold legacyBindingKey, storeKey. simpl. congruence. }
  assert ((∀ r, legacyBindingKey u1 r = legacyBindingKey user r) ∧
          Roles (UserSpec_ u1) = Roles (UserSpec_ user)) as [Hkeys Hroles].
  { destruct Hu1 as [->|[->| ->]]; split; try done.
    intros r. apply legacyBindingKey_AddFinalizer. }
  pose proof (emitted_trans _ _ _ _ _ Hev1 Hevs2) as Hevs12.
  assert (store w2 !! legacyBindingKey user role = store w !! legacyBindingKey user role)
    as Hst2 by (by rewrite Hfr2, Hst1).
  destruct e1 as [e|].
  { destruct Hrest as [_ ->]. split; [done|]. eexists. split; [done|]. by apply Forall_app. }
  destruct Hrest as (u2 & e2 & w3 & Hrb & Hrest).
  apply legacy_reconcileRoleBindingss_spec in Hrb as (Hfr3 & Hkey3 & evs3 & Hevs3 & Hall3).
  assert (Forall (λ ev, evVerb ev ≠ VerbList ∧
                        (evKind ev, evKey ev) ≠ legacyBindingKey user role) evs3) as Hall3'.
  { eapply Forall_impl; [done|]. intros ev (? & _ & _ & [[Hkind _]|(r & Hr & Hkey)]).
    - split; [done|]. unfold legacyBindingKey, storeKey. simpl. congruence.
    - split; [done|]. rewrite Hkey, Hkeys. intros ->%legacyBindingKey_inj.
      rewrite Hroles in Hr. done. }
  assert (store w3 !! legacyBindingKey user role = store w !! legacyBindingKey user role)
    as Hst3.
  { rewrite Hfr3, Hst2; [done|]. intros r Hr. rewrite Hkeys.
    intros ->%legacyBindingKey_inj. rewrite Hroles in Hr. done. }
  pose proof (emitted_trans _ _ _ _ _ Hevs12 Hevs3) as Hevs123.
  destruct e2 as [e|].
  { destruct Hrest as [_ ->]. split; [done|]. eexists. split; [done|].
    rewrite !Forall_app. by repeat split. }
  split.
  - by rewrite (UpdateOutcome_frame _ _ _ _ Hrest).
  - eexists. split; [exact (emitted_trans _ _ _ _ _ Hevs123 (UpdateOutcome_emitted _ _ _ _ Hrest))|].
    rewrite !Forall_app. repeat split; [done..|]. by apply Forall_singleton.
Qed.

(** ** Runs against a store that serves every call *)

Lemma faultFree_nextFault w : faultFree w → nextFault w = None.
Proof. unfold faultFree, nextFault. by intros ->. Qed.

Lemma faultFree_served v k err st w : faultFree w → faultFree (served v k err st w).
Proof. unfold faultFree. simpl. by intros ->. Qed.

Lemma wellKeyed_insert st o : wellKeyed st → wellKeyed (<[storeKey o := o]> st).
Proof. intros Hwf. by apply map_Forall_insert_2. Qed.

Lemma wellKeyed_decode {A} `{LawfulObject A} st key o :
  wellKeyed st → st !! (kindOf A, key) = Some o → ∃ a : A, fromObject o = Some a.
Proof.
  intros Hwf Hk. apply (wellKeyed_lookup _ _ _ Hwf) in Hk.
  apply (fromObject_kind (A:=A)). unfold storeKey in Hk. congruence.
Qed.

Lemma Get_faultFree_found {A} `{LawfulObject A} key w o :
  faultFree w → wellKeyed (store w) → store w !! (kindOf A, key) = Some o →
  ∃ a : A, fromObject o = Some a ∧ Get key w = (inr a, afterGet (A:=A) key w).
Proof.
  intros Hff Hwf Hk. destruct (wellKeyed_decode _ _ _ Hwf Hk) as [a Ha].
  exists a. split; [done|]. unfold Get, afterGet. rewrite bind_run. unfold apiGet.
  rewrite faultFree_nextFault, Hk by done. simpl. by rewrite Ha.
Qed.

Lemma Get_faultFree_missing {A} `{ClientObject A} key w :
  faultFree w → store w !! (kindOf A, key) = None →
  Get (A:=A) key w = (inl (StatusError StatusReasonNotFound), afterGet (A:=A) key w).
Proof.
  intros Hff Hk. unfold Get, afterGet. rewrite bind_run. unfold apiGet.
  by rewrite faultFree_nextFault, Hk by done.
Qed.

Lemma Create_faultFree_missing {A} `{ClientObject A} (obj : A) w :
  faultFree w → store w !! storeKey (toObject obj) = None →
  Create obj w = (None, afterCreate obj w).
Proof.
  intros Hff Hk. unfold Create, apiCreate, afterCreate.
  by rewrite faultFree_nextFault, Hk by done.
Qed.

Lemma faultFree_afterGet {A} `{ClientObject A} key w :
  faultFree w → faultFree (afterGet (A:=A) key w).
Proof. apply faultFree_served. Qed.

Lemma faultFree_afterCreate {A} `{ClientObject A} (obj : A) w :
  faultFree w → faultFree (afterCreate obj w).
Proof. apply faultFree_served. Qed.

(** One round of the loop of [reconcileRoleBindingss] on the create
    path. *)
Lemma legacy_round user role roles w :
  faultFree w → wellKeyed (store w) →
  Legacy.UserReconciler.roleBindingsLoop user false (role :: roles) w =
  let desired := Legacy.UserReconciler.desiredRoleBinding user role in
  let added := AddFinalizer user Legacy.UserReconciler.UserRoleBindingFinalizer in
  let w1 := afterGet (A:=Role) (Namespace (UserMeta user), role) w in
  let w2 := afterGet (A:=RoleBinding) (ObjectKeyFromObject (toObject desired)) w1 in
  match store w !! (KRole, (Namespace (UserMeta user), role)) with
  | None =>
      ((user, Some (Errorf "role does not exist: " (StatusError StatusReasonNotFound))), w1)
  | Some _ =>
      match store w !! legacyBindingKey user role with
      | Some _ => Legacy.UserReconciler.roleBindingsLoop added false roles w2
      | None => Legacy.UserReconciler.roleBindingsLoop added false roles (afterCreate desired w2)
      end
  end.
Proof.
  intros Hff Hwf. cbn [Legacy.UserReconciler.roleBindingsLoop]. cbv zeta. rewrite bind_run.
  destruct (store w !! (KRole, (Namespace (UserMeta user), role))) as [o|] eqn:Hrole.
  - pose proof (Get_faultFree_found (A:=Role) (Namespace (UserMeta user), role) w o Hff Hwf)
      as Hget. destruct (Hget Hrole) as (r & _ & ->). clear Hget.
    cbn [fst snd]. rewrite bind_run.
    pose proof (faultFree_afterGet (A:=Role) (Namespace (UserMeta user), role) w Hff) as Hff1.
    destruct (store w !! legacyBindingKey user role) as [o'|] eqn:Hb.
    + pose proof (Get_faultFree_found (A:=RoleBinding)
                    (ObjectKeyFromObject
                       (toObject (Legacy.UserReconciler.desiredRoleBinding user role)))
                    (afterGet (A:=Role) (Namespace (UserMeta user), role) w) o' Hff1 Hwf)
        as Hget. by destruct (Hget Hb) as (b & _ & ->).
    + rewrite (Get_faultFree_missing (A:=RoleBinding)) by done. cbn [fst snd].
      change (IsNotFound (StatusError StatusReasonNotFound)) with true. cbv iota.
      rewrite bind_run, Create_faultFree_missing; [done| |done].
      by apply (faultFree_afterGet (A:=RoleBinding)).
  - by rewrite (Get_faultFree_missing (A:=Role)) by done.
Qed.

Lemma legacy_desiredRoleBinding_AddFinalizer user f role :
  Legacy.UserReconciler.desiredRoleBinding (AddFinalizer user f) role =
  Legacy.UserReconciler.desiredRoleBinding user role.
Proof.
  unfold Legacy.UserReconciler.desiredRoleBinding. simpl.
  by rewrite AddFinalizerMeta_Name, AddFinalizerMeta_Namespace.
Qed.

Lemma Namespace_AddFinalizer (user : User) f :
  Namespace (UserMeta (AddFinalizer user f)) = Namespace (UserMeta user).
Proof. apply AddFinalizerMeta_Namespace. Qed.

(** On the create path, against a store that serves every call, the loop
    of [reconcileRoleBindingss] stops with "role does not exist" at the
    first role of the list that has no Role object. *)
Lemma legacy_loop_missing_role roles user w :
  faultFree w → wellKeyed (store w) →
  (∃ role, role ∈ roles ∧ store w !! (KRole, (Namespace (UserMeta user), role)) = None) →
  ∃ u' w1,
    Legacy.UserReconciler.roleBindingsLoop user false roles w =
    ((u', Some (Errorf "role does not exist: " (StatusError StatusReasonNotFound))), w1).
Proof.
  revert user w. induction roles as [|r roles IH]; intros user w Hff Hwf (role & Hin & Hno).
  { by apply elem_of_nil in Hin. }
  rewrite legacy_round by done. cbv zeta.
  destruct (store w !! (KRole, (Namespace (UserMeta user), r))) as [o|] eqn:Hr; [|by eauto].
  assert (role ∈ roles) as Hin'.
  { apply elem_of_cons in Hin as [->|?]; [congruence|done]. }
  destruct (store w !! legacyBindingKey user r) eqn:Hb; apply IH.
  - by repeat apply faultFree_served.
  - done.
  - exists role. by rewrite Namespace_AddFinalizer.
  - by repeat apply faultFree_served.
  - by apply wellKeyed_insert.
  - exists role. rewrite Namespace_AddFinalizer. split; [done|]. simpl.
    by rewrite lookup_insert_ne.
Qed.

(** On the create path the loop of [reconcileRoleBindingss] changes the
    binding of a role only after it has read the Role from the store. *)
Lemma legacy_loop_guard roles user w r w1 role :
  Legacy.UserReconciler.roleBindingsLoop user false roles w = (r, w1) →
  store w1 !! legacyBindingKey user role ≠ store w !! legacyBindingKey user role →
  is_Some (store w !! (KRole, (Namespace (UserMeta user), role))).
Proof.
  revert user w. induction roles as [|r0 roles IH]; intros user w Hrun Hchanged.
  { simpl in Hrun. by run_inv Hrun. }
  cbn [Legacy.UserReconciler.roleBindingsLoop] in Hrun. cbv zeta in Hrun.
  run_inv Hrun. apply Get_typed_outcome in Hcall as (Hst0 & _ & rsn & _ & Hrole).
  destruct a as [e|ro].
  { assert (w1 = w0) as -> by (destruct (IsNotFound e); by run_inv Hrest). congruence. }
  destruct Hrole as (_ & _ & o & Ho & _). simpl in Ho.
  destruct (decide (role = r0)) as [->|Hne]; [by rewrite Ho|].
  assert (legacyBindingKey user role ≠ legacyBindingKey user r0) as Hkey
    by (by intros ?%legacyBindingKey_inj).
  run_inv Hrest. apply Get_typed_outcome in Hcall as (Hst2 & _).
  assert (∀ w', store w' !! legacyBindingKey user role = store w !! legacyBindingKey user role →
    (∀ key, store w' !! (KRole, key) = store w !! (KRole, key)) →
    Legacy.UserReconciler.roleBindingsLoop
      (AddFinalizer (H:=User_object) user Legacy.UserReconciler.UserRoleBindingFinalizer)
      false roles w' = (r, w1) →
    is_Some (store w !! (KRole, (Namespace (UserMeta user), role)))) as Hnext.
  { intros w' Hsame Hroles Hloop.
    rewrite <-Hroles,
      <-(Namespace_AddFinalizer user Legacy.UserReconciler.UserRoleBindingFinalizer).
    eapply IH; [done|]. rewrite legacyBindingKey_AddFinalizer. by rewrite Hsame. }
  destruct a as [e|b]; [destruct (IsNotFound e)|].
  - run_inv Hrest0. apply Create_outcome in Hcall.
    pose proof (CreateOutcome_frame _ _ _ _ Hcall) as Hfr.
    destruct a as [e'|].
    + run_inv Hrest. exfalso. apply Hchanged. by rewrite Hfr, Hst2, Hst0.
    + apply (Hnext w3); [by rewrite Hfr, Hst2, Hst0| |done].
      intros key. by rewrite Hfr, Hst2, Hst0.
  - run_inv Hrest0. exfalso. apply Hchanged. by rewrite Hst2, Hst0.
  - apply (Hnext w2); [by rewrite Hst2, Hst0| |done]. intros key. by rewrite Hst2, Hst0.
Qed.

(** [reconcileServiceAccount] of the earlier generation on a live user,
    against a store that serves every call. *)
Lemma legacy_reconcileServiceAccount_faultFree user w :
  faultFree w → wellKeyed (store w) → GetDeletionTimestamp user = None →
  let desired := Legacy.UserReconciler.desiredServiceAccount user in
  let w1 := afterGet (A:=ServiceAccount) (ObjectKeyFromObject (toObject desired)) w in
  Legacy.UserReconciler.reconcileServiceAccount user w =
  match store w !! storeKey (toObject desired) with
  | Some _ => ((user, None), w1)
  | None =>
      ((AddFinalizer user Legacy.UserReconciler.UserServiceAccountFinalizer, None),
       afterCreate desired w1)
  end.
Proof.
  intros Hff Hwf Hd. unfold Legacy.UserReconciler.reconcileServiceAccount.
  rewrite Hd. cbv zeta. rewrite bind_run.
  destruct (store w !! _) as [o|] eqn:Hk.
  - pose proof (Get_faultFree_found (A:=ServiceAccount)
      (ObjectKeyFromObject (toObject (Legacy.UserReconciler.desiredServiceAccount user)))
      w o Hff Hwf) as Hget. by destruct (Hget Hk) as (b & _ & ->).
  - rewrite (Get_faultFree_missing (A:=ServiceAccount)) by done. cbn [fst snd].
    change (IsNotFound (StatusError StatusReasonNotFound)) with true. cbv iota.
    rewrite bind_run, Create_faultFree_missing; [done| |done].
    by apply (faultFree_afterGet (A:=ServiceAccount)).
Qed.

(** ** Errors of the store and the error of the pass *)

Lemma generations_inv (c : Controller) :
  c ∈ generations →
  c = TerminalReconciler.SetupWithManager ∨ c = UserReconciler.SetupWithManager ∨
  c = Legacy.UserReconciler.SetupWithManager.
Proof.
  unfold generations. intros [Hc|Hc%list_elem_of_singleton]%elem_of_app; [|auto].
  apply registered_inv in Hc as [->| ->]; auto.
Qed.

Lemma generations_failed_frame c req w res e w' :
  c ∈ generations → Do c req w = ((res, Some e), w') →
  ∀ key, store w' !! (For c, key) = store w !! (For c, key).
Proof.
  intros [->|[->| ->]]%generations_inv; simpl.
  - apply Terminal_Reconcile_failed_frame.
  - apply User_Reconcile_failed_frame.
  - apply Legacy_Reconcile_failed_frame.
Qed.

(** C6: a pass that returns an error leaves the primary object as the
    store has it untouched, its finalizer list included: the finalizers
    added or removed in memory reach the store only through the final
    [Update], and a pass that fails never gets that far (or fails in
    it). *)
Theorem failed_pass_keeps_persisted_finalizers (c : Controller) (req : Request)
    (w w' : World) (res : Result) (e : error) (key : NamespacedName) :
  c ∈ generations →
  Do c req w = ((res, Some e), w') →
  store w' !! (For c, key) = store w !! (For c, key).
Proof. intros Hc Hrun. by eapply generations_failed_frame. Qed.

Lemma registered_generations c : c ∈ registered → c ∈ generations.
Proof. intros Hc. unfold generations. apply elem_of_app. by left. Qed.

(** C2, as the code has it: in the reconcilers the manager runs, a
    [Delete] of a derived object (Deployment, Service, ServiceAccount or
    RoleBinding) that answers [NotFound] is not benign.  The pass returns
    an error that carries the [NotFound] ([apierrors.IsNotFound] holds of
    it), and it stops before the final [Update]: the primary object in
    the store keeps its finalizers. *)
Theorem Delete_NotFound_aborts_pass (c : Controller) (req : Request) (w w' : World)
    (res : Result) (err : option error) (evs : list Event) (ev : Event) :
  c ∈ registered →
  Do c req w = ((res, err), w') →
  emitted w w' evs →
  ev ∈ evs → evVerb ev = VerbDelete → evErr ev = Some StatusReasonNotFound →
  (∃ e, err = Some e ∧ IsNotFound e = true) ∧
  ∀ key, store w' !! (For c, key) = store w !! (For c, key).
Proof.
  intros Hc Hrun Hevs Hev Hverb Hrsn.
  assert (∃ e, err = Some e ∧ ReasonForError e = StatusReasonNotFound) as (e & -> & He).
  { destruct (registered_inv _ Hc) as [->| ->]; simpl in Hrun.
    - apply Terminal_Reconcile_accounted in Hrun as (evs' & Hevs' & Hall).
      rewrite (emitted_inj _ _ _ _ Hevs Hevs') in Hev.
      destruct (proj1 (Forall_forall _ _) Hall ev Hev) as [Hacc|(Hget & _)]; [|congruence].
      unfold accounted in Hacc. rewrite Hrsn in Hacc.
      destruct Hacc as [[? _]|?]; [congruence|done].
    - apply User_Reconcile_accounted in Hrun as (evs' & Hevs' & Hall).
      rewrite (emitted_inj _ _ _ _ Hevs Hevs') in Hev.
      destruct (proj1 (Forall_forall _ _) Hall ev Hev) as [Hacc|(Hget & _)]; [|congruence].
      unfold accounted in Hacc. rewrite Hrsn in Hacc.
      destruct Hacc as [[? _]|?]; [congruence|done]. }
  split.
  - exists e. split; [done|]. by apply bool_decide_eq_true.
  - apply registered_generations in Hc. by eapply generations_failed_frame.
Qed.

(** C3, as the code has it: the only errors of the store that a pass of
    the current reconcilers keeps from the dispatcher are [NotFound] from
    the initial [Get] of the primary object and [AlreadyExists] from the
    [Create] of a derived object; every other error, the [NotFound] of a
    [Delete] included, is the reason of the error returned.  In
    particular, in both generations, a [Get] of the primary Terminal or
    User that fails for another reason than [NotFound] makes [Reconcile]
    return that error. *)
Theorem store_errors_reach_dispatcher (c : Controller) (req : Request) (w w' : World)
    (res : Result) (err : option error) (evs : list Event) (ev : Event)
    (rsn : StatusReason) :
  c ∈ generations →
  Do c req w = ((res, err), w') →
  emitted w w' evs →
  ev ∈ evs → evErr ev = Some rsn →
  ¬ primaryNotFound (For c) ev →
  ¬ (evVerb ev = VerbCreate ∧ rsn = StatusReasonAlreadyExists) →
  (c = Legacy.UserReconciler.SetupWithManager →
   evVerb ev = VerbGet ∧ evKind ev = For c) →
  ∃ e, err = Some e ∧ ReasonForError e = rsn.
Proof.
  intros Hc Hrun Hevs Hev Hrsn Hprimary Hcreate Hscope.
  destruct (generations_inv _ Hc) as [->|[->| ->]]; simpl in *.
  - apply Terminal_Reconcile_accounted in Hrun as (evs' & Hevs' & Hall).
    rewrite (emitted_inj _ _ _ _ Hevs Hevs') in Hev.
    destruct (proj1 (Forall_forall _ _) Hall ev Hev) as [Hacc|?]; [|done].
    unfold accounted in Hacc. rewrite Hrsn in Hacc. by destruct Hacc.
  - apply User_Reconcile_accounted in Hrun as (evs' & Hevs' & Hall).
    rewrite (emitted_inj _ _ _ _ Hevs Hevs') in Hev.
    destruct (proj1 (Forall_forall _ _) Hall ev Hev) as [Hacc|?]; [|done].
    unfold accounted in Hacc. rewrite Hrsn in Hacc. by destruct Hacc.
  - destruct (Hscope eq_refl) as [Hverb Hkind].
    apply Legacy_Reconcile_events in Hrun as (evs' & Hevs' & Hall).
    rewrite (emitted_inj _ _ _ _ Hevs Hevs') in Hev.
    destruct (proj1 (Forall_forall _ _) Hall ev Hev) as (_ & _ & Hget).
    apply Hget; [done..|]. intros ->. apply Hprimary. by repeat split.
Qed.

(** C8: reconciling a User whose list of roles does not (or no longer)
    name a role leaves the RoleBinding of that role as it is in the store,
    whatever the pass returns, in both generations of the reconciler: no
    call of the pass is a [List], and no call of any kind is addressed to
    that binding. *)
Theorem orphan_binding_persists (c : Controller) (keyOf : User → string → StoreKey)
    (req : Request) (w w' : World) (user : User) (role : string)
    (res : Result) (err : option error) :
  (c, keyOf) ∈ userReconcilers →
  store w !! (KUser, RequestNamespacedName req) = Some (ObjUser user) →
  role ∉ Roles (UserSpec_ user) →
  Do c req w = ((res, err), w') →
  store w' !! keyOf user role = store w !! keyOf user role ∧
  ∃ evs, emitted w w' evs ∧
    Forall (λ ev, evVerb ev ≠ VerbList ∧ (evKind ev, evKey ev) ≠ keyOf user role) evs.
Proof.
  intros [[= -> ->]|[[= -> ->]|[]%elem_of_nil]%elem_of_cons]%elem_of_cons; simpl.
  - apply User_Reconcile_orphan.
  - apply Legacy_Reconcile_orphan.
Qed.

(** ** Roles that do not exist *)

Lemma Legacy_Reconcile_run req w user u1 w1 w2 r w3 :
  Get (A:=User) (RequestNamespacedName req) w = (inr user, w1) →
  Legacy.UserReconciler.reconcileServiceAccount user w1 = ((u1, None), w2) →
  Legacy.UserReconciler.reconcileRoleBindingss u1 w2 = (r, w3) →
  Legacy.UserReconciler.Reconcile req w =
  match r.2 with
  | Some e => ((zeroResult, Some e), w3)
  | None =>
      let '(err, w4) := Update r.1 w3 in
      match err with
      | Some e => ((zeroResult, Some e), w4)
      | None => ((zeroResult, None), w4)
      end
  end.
Proof.
  intros Hget Hsa Hrb. unfold Legacy.UserReconciler.Reconcile.
  rewrite bind_run, Hget. cbn [fst snd]. rewrite bind_run, Hsa. cbn [fst snd].
  rewrite bind_run, Hrb. destruct r as [u2 [e|]]; cbn [fst snd]; [done|].
  rewrite bind_run. by destruct (Update u2 w3) as [[e|] w4].
Qed.

Lemma legacy_reconcileRoleBindingss_live user w :
  GetDeletionTimestamp user = None →
  Legacy.UserReconciler.reconcileRoleBindingss user w =
  Legacy.UserReconciler.roleBindingsLoop user false (Roles (UserSpec_ user)) w.
Proof.
  intros Hd. unfold Legacy.UserReconciler.reconcileRoleBindingss.
  rewrite Hd, bool_decide_eq_false_2 by (by intros [??]). rewrite bind_run.
  by destruct (Legacy.UserReconciler.roleBindingsLoop _ _ _ _) as [[u' [e|]] w1].
Qed.

(** The first two steps of the earlier [Reconcile] on a live user, against
    a store that serves every call: the user is read, the ServiceAccount
    is there afterwards, and nothing but the ServiceAccount has changed. *)
Lemma Legacy_Reconcile_prologue req w user :
  store w !! (KUser, RequestNamespacedName req) = Some (ObjUser user) →
  GetDeletionTimestamp user = None →
  faultFree w → wellKeyed (store w) →
  ∃ w1 u1 w2,
    Get (A:=User) (RequestNamespacedName req) w = (inr user, w1) ∧
    Legacy.UserReconciler.reconcileServiceAccount user w1 = ((u1, None), w2) ∧
    emitted w w1 [mkEvent VerbGet (KUser, RequestNamespacedName req) None] ∧
    (u1 = user ∨ u1 = AddFinalizer user Legacy.UserReconciler.UserServiceAccountFinalizer) ∧
    faultFree w2 ∧ wellKeyed (store w2) ∧
    (∀ k, k.1 ≠ KServiceAccount → store w2 !! k = store w !! k).
Proof.
  intros Hk Hd Hff Hwf.
  pose proof (Get_faultFree_found (A:=User) (RequestNamespacedName req) w _ Hff Hwf Hk)
    as (user' & [= <-] & Hget).
  set (w1 := afterGet (A:=User) (RequestNamespacedName req) w) in *.
  assert (faultFree w1) as Hff1 by (by apply (faultFree_afterGet (A:=User))).
  pose proof (legacy_reconcileServiceAccount_faultFree user w1 Hff1 Hwf Hd) as Hsa.
  cbv zeta in Hsa.
  exists w1. destruct (store w1 !! _) eqn:Hsak in Hsa.
  - eexists _, _. split; [done|]. split; [done|]. split.
    { unfold w1, afterGet. cbn [kindOf User_object]. rewrite Hk. apply emitted_served. }
    split; [by left|]. split; [by apply (faultFree_afterGet (A:=ServiceAccount))|].
    by split.
  - eexists _, _. split; [done|]. split; [done|]. split.
    { unfold w1, afterGet. cbn [kindOf User_object]. rewrite Hk. apply emitted_served. }
    split; [by right|].
    split; [by apply faultFree_afterCreate, (faultFree_afterGet (A:=ServiceAccount))|].
    split; [by apply wellKeyed_insert|].
    intros k Hkind. simpl. rewrite lookup_insert_ne; [done|]. by intros <-.
Qed.

(** C4, as the code has it.  In the earlier generation of the reconciler,
    on the create path and against a store that serves every call, a role
    of the list without a Role object makes the pass return the error
    "role does not exist: ..." before any [Update]; and the binding of a
    role is created only after the Role has been read from the store.
    The current [reconcileRoleBindings] has no such check: it never reads
    a Role (nor anything else), its calls are the [Create]s and [Delete]s
    of the bindings. *)
Theorem role_check_is_legacy_only (req : Request) (w : World) (user : User)
    (role : string) :
  store w !! (KUser, RequestNamespacedName req) = Some (ObjUser user) →
  GetDeletionTimestamp user = None →
  faultFree w → wellKeyed (store w) →
  role ∈ Roles (UserSpec_ user) →
  store w !! (KRole, (Namespace (UserMeta user), role)) = None →
  (∃ e w' evs,
     Legacy.UserReconciler.Reconcile req w = ((zeroResult, Some e), w') ∧
     e = Errorf "role does not exist: " (StatusError StatusReasonNotFound) ∧
     String.prefix "role does not exist" (errorString e) = true ∧
     emitted w w' evs ∧ Forall (λ ev, evVerb ev ≠ VerbUpdate) evs ∧
     ∀ role',
       store w' !! legacyBindingKey user role' ≠ store w !! legacyBindingKey user role' →
       is_Some (store w !! (KRole, (Namespace (UserMeta user), role')))) ∧
  (∀ r w1, UserReconciler.reconcileRoleBindings user w = (r, w1) →
     ∃ evs, emitted w w1 evs ∧
       Forall (λ ev, evKind ev = KRoleBinding ∧ evVerb ev ≠ VerbGet) evs).
Proof.
  intros Hk Hd Hff Hwf Hrole Hmissing. split.
  - destruct (Legacy_Reconcile_prologue _ _ _ Hk Hd Hff Hwf)
      as (w1 & u1 & w2 & Hget & Hsa & Hev1 & Hu1 & Hff2 & Hwf2 & Hfr2).
    assert (GetDeletionTimestamp u1 = None ∧ Roles (UserSpec_ u1) = Roles (UserSpec_ user) ∧
            Namespace (UserMeta u1) = Namespace (UserMeta user) ∧
            ∀ r, legacyBindingKey u1 r = legacyBindingKey user r) as (Hd1 & Hroles & Hns & Hkeys).
    { destruct Hu1 as [->| ->]; [done|].
      split; [by rewrite GetDeletionTimestamp_AddFinalizer|]. split; [done|].
      split; [apply Namespace_AddFinalizer|]. intros r. apply legacyBindingKey_AddFinalizer. }
    destruct (legacy_loop_missing_role (Roles (UserSpec_ u1)) u1 w2 Hff2 Hwf2)
      as (u2 & w3 & Hloop).
    { exists role. rewrite Hroles, Hns, Hfr2 by done. done. }
    pose proof Hloop as Hrb. rewrite <-legacy_reconcileRoleBindingss_live in Hrb by done.
    pose proof (Legacy_Reconcile_run _ _ _ _ _ _ _ _ Hget Hsa Hrb) as Hrun.
    apply legacy_reconcileServiceAccount_spec in Hsa as (_ & _ & evs2 & Hevs2 & Hall2).
    destruct (legacy_reconcileRoleBindingss_spec _ _ _ _ _ Hrb)
      as (_ & _ & evs3 & Hevs3 & Hall3).
    eexists _, w3, _. split; [exact Hrun|].
    split; [done|]. split; [done|].
    split; [exact (emitted_trans _ _ _ _ _ (emitted_trans _ _ _ _ _ Hev1 Hevs2) Hevs3)|].
    split.
    + rewrite !Forall_app. repeat split.
      * by apply Forall_singleton.
      * eapply Forall_impl; [done|]. by intros ev (_ & ? & _).
      * eapply Forall_impl; [done|]. by intros ev (_ & ? & _).
    + intros role' Hchanged. rewrite <-Hns, <-(Hfr2 (KRole, _)) by done.
      eapply legacy_loop_guard; [done|]. rewrite Hkeys.
      by rewrite (Hfr2 (legacyBindingKey user role')).
  - intros [u' err] w1 (evs & Hevs & _ & Hall)%reconcileRoleBindings_events.
    exists evs. split; [done|]. eapply Forall_impl; [done|].
    intros ev [Hverb (r & _ & Hkey)]. split.
    + unfold bindingKey, storeKey in Hkey. simpl in Hkey. congruence.
    + by destruct Hverb as [-> | ->].
Qed.

(** ** The rounds of the loop, against a store that serves every call *)

Lemma emitted_afterGet {A} `{ClientObject A} key w :
  ∃ rsn, emitted w (afterGet (A:=A) key w) [mkEvent VerbGet (kindOf A, key) rsn].
Proof. eexists. apply emitted_served. Qed.

(** The Role is there and the binding is not: the binding is created. *)
Lemma legacy_round_create user role roles w :
  faultFree w → wellKeyed (store w) →
  is_Some (store w !! (KRole, (Namespace (UserMeta user), role))) →
  store w !! legacyBindingKey user role = None →
  ∃ w' evs,
    Legacy.UserReconciler.roleBindingsLoop user false (role :: roles) w =
    Legacy.UserReconciler.roleBindingsLoop
      (AddFinalizer user Legacy.UserReconciler.UserRoleBindingFinalizer) false roles w' ∧
    faultFree w' ∧ wellKeyed (store w') ∧
    store w' =
      <[legacyBindingKey user role :=
          ObjRoleBinding (Legacy.UserReconciler.desiredRoleBinding user role)]> (store w) ∧
    emitted w w' evs ∧
    Forall (λ ev, evVerb ev = VerbCreate → (evKind ev, evKey ev) = legacyBindingKey user role) evs.
Proof.
  intros Hff Hwf [o Hrole] Hb. rewrite legacy_round by done. cbv zeta. rewrite Hrole, Hb.
  eexists _, _. split; [done|]. split; [by repeat apply faultFree_served|].
  split; [by apply wellKeyed_insert|]. split; [done|]. split.
  - unfold emitted, afterCreate, afterGet. simpl. by rewrite <-!app_assoc.
  - repeat constructor; by intros [=].
Qed.

(** The Role and the binding are there: nothing is created. *)
Lemma legacy_round_skip user role roles w :
  faultFree w → wellKeyed (store w) →
  is_Some (store w !! (KRole, (Namespace (UserMeta user), role))) →
  is_Some (store w !! legacyBindingKey user role) →
  ∃ w' evs,
    Legacy.UserReconciler.roleBindingsLoop user false (role :: roles) w =
    Legacy.UserReconciler.roleBindingsLoop
      (AddFinalizer user Legacy.UserReconciler.UserRoleBindingFinalizer) false roles w' ∧
    faultFree w' ∧ wellKeyed (store w') ∧ store w' = store w ∧
    emitted w w' evs ∧ Forall (λ ev, evVerb ev ≠ VerbCreate) evs.
Proof.
  intros Hff Hwf [o Hrole] [b Hb]. rewrite legacy_round by done. cbv zeta. rewrite Hrole, Hb.
  eexists _, _. split; [done|]. split; [by repeat apply faultFree_served|].
  split; [done|]. split; [done|]. split.
  - unfold emitted, afterGet. simpl. by rewrite <-!app_assoc.
  - by repeat constructor.
Qed.

(** The Role is not there: the loop is left with the error. *)
Lemma legacy_round_abort user role roles w :
  faultFree w → wellKeyed (store w) →
  store w !! (KRole, (Namespace (UserMeta user), role)) = None →
  ∃ w',
    Legacy.UserReconciler.roleBindingsLoop user false (role :: roles) w =
    ((user, Some (Errorf "role does not exist: " (StatusError StatusReasonNotFound))), w') ∧
    store w' = store w.
Proof.
  intros Hff Hwf Hrole. rewrite legacy_round by done. cbv zeta. rewrite Hrole. by eexists.
Qed.

(** Against a store that serves every call, the loop never issues a
    [Create] for a binding that is in the store. *)
Lemma legacy_loop_no_duplicate roles user w r w1 k :
  faultFree w → wellKeyed (store w) →
  Legacy.UserReconciler.roleBindingsLoop user false roles w = (r, w1) →
  is_Some (store w !! k) →
  ∃ evs, emitted w w1 evs ∧
    Forall (λ ev, ¬ (evVerb ev = VerbCreate ∧ (evKind ev, evKey ev) = k)) evs.
Proof.
  revert user w. induction roles as [|role roles IH]; intros user w Hff Hwf Hrun Hk.
  { simpl in Hrun. run_inv Hrun. exists []. split; [apply emitted_refl|done]. }
  destruct (store w !! (KRole, (Namespace (UserMeta user), role))) as [o|] eqn:Hrole.
  2:{ rewrite legacy_round, Hrole in Hrun by done. cbv zeta in Hrun.
      injection Hrun as <- <-. eexists. split; [apply emitted_served|].
      apply Forall_singleton. by intros [[=] _]. }
  destruct (store w !! legacyBindingKey user role) as [b|] eqn:Hb.
  - destruct (legacy_round_skip user role roles w Hff Hwf)
      as (w' & evs0 & Heq & Hff' & Hwf' & Hst' & Hevs0 & Hall0); [by eauto..|].
    rewrite Heq in Hrun.
    destruct (IH _ _ Hff' Hwf' Hrun) as (evs & Hevs & Hall); [by rewrite Hst'|].
    exists (evs0 ++ evs). split; [by eapply emitted_trans|]. apply Forall_app. split; [|done].
    eapply Forall_impl; [done|]. by intros ev Hv [? _].
  - destruct (legacy_round_create user role roles w Hff Hwf)
      as (w' & evs0 & Heq & Hff' & Hwf' & Hst' & Hevs0 & Hall0); [by eauto..|].
    rewrite Heq in Hrun.
    destruct (IH _ _ Hff' Hwf' Hrun) as (evs & Hevs & Hall).
    { rewrite Hst', lookup_insert. by case_decide. }
    exists (evs0 ++ evs). split; [by eapply emitted_trans|]. apply Forall_app. split; [|done].
    eapply Forall_impl; [done|]. intros ev Hv [Hcr Hkey]. rewrite (Hv Hcr) in Hkey.
    subst k. rewrite Hb in Hk. by destruct Hk.
Qed.

(** ** Copies of one user *)

Lemma sameUser_refl u : sameUser u u.
Proof. done. Qed.

Lemma sameUser_AddFinalizer u u' f : sameUser u u' → sameUser u (AddFinalizer u' f).
Proof.
  intros (? & ? & ? & ?). unfold sameUser, AddFinalizer. simpl.
  by rewrite AddFinalizerMeta_Namespace, AddFinalizerMeta_Name,
    AddFinalizerMeta_DeletionTimestamp.
Qed.

Lemma sameUser_legacyBindingKey u u' role :
  sameUser u u' → legacyBindingKey u' role = legacyBindingKey u role.
Proof.
  intros (Hns & Hn & _). unfold legacyBindingKey, storeKey, ObjectKeyFromObject. simpl.
  by rewrite Hns, Hn.
Qed.

Lemma sameUser_legacy_desired u u' role :
  sameUser u u' →
  Legacy.UserReconciler.desiredRoleBinding u' role =
  Legacy.UserReconciler.desiredRoleBinding u role.
Proof.
  intros (Hns & Hn & _). unfold Legacy.UserReconciler.desiredRoleBinding.
  by rewrite Hns, Hn.
Qed.

Lemma sameUser_bindingKey u u' role : sameUser u u' → bindingKey u' role = bindingKey u role.
Proof.
  intros (Hns & Hn & _). unfold bindingKey, storeKey, ObjectKeyFromObject. simpl.
  by rewrite Hns, Hn.
Qed.

Lemma sameUser_desired u u' role :
  sameUser u u' →
  UserReconciler.userRoleBindingForRole u' role = UserReconciler.userRoleBindingForRole u role.
Proof.
  intros (Hns & Hn & _). unfold UserReconciler.userRoleBindingForRole. by rewrite Hns, Hn.
Qed.

Lemma sameUser_storeKey u u' : sameUser u u' → storeKey (ObjUser u') = storeKey (ObjUser u).
Proof. intros (Hns & Hn & _). unfold storeKey, ObjectKeyFromObject. simpl. by rewrite Hns, Hn. Qed.

Lemma sameUser_live u u' :
  sameUser u u' → GetDeletionTimestamp u = None → GetDeletionTimestamp u' = None.
Proof. intros (_ & _ & Hd & _). unfold GetDeletionTimestamp. simpl. by rewrite Hd. Qed.

Lemma Update_faultFree_live {A} `{LawfulObject A} (obj : A) w :
  faultFree w → is_Some (store w !! storeKey (toObject obj)) →
  GetDeletionTimestamp obj = None →
  Update obj w = (None, afterUpdate obj w).
Proof.
  intros Hff [o Hk] Hd. unfold Update, apiUpdate, afterUpdate.
  rewrite faultFree_nextFault, Hk by done. rewrite objMeta_toObject.
  unfold GetDeletionTimestamp in Hd. by rewrite Hd.
Qed.

Lemma Create_faultFree_present {A} `{ClientObject A} (obj : A) w :
  faultFree w → is_Some (store w !! storeKey (toObject obj)) →
  Create obj w =
  (Some (StatusError StatusReasonAlreadyExists),
   served VerbCreate (storeKey (toObject obj)) (Some StatusReasonAlreadyExists) (store w) w).
Proof.
  intros Hff [o Hk]. unfold Create, apiCreate. by rewrite faultFree_nextFault, Hk by done.
Qed.

Lemma legacy_keys_distinct user :
  legacyBindingKey user "A" ≠ legacyBindingKey user "missing" ∧
  legacyBindingKey user "A" ≠ legacyBindingKey user "B" ∧
  legacyBindingKey user "missing" ≠ legacyBindingKey user "B".
Proof. repeat split; by intros [=]%legacyBindingKey_inj. Qed.

Lemma keys_distinct user :
  bindingKey user "A" ≠ bindingKey user "missing" ∧
  bindingKey user "A" ≠ bindingKey user "B" ∧
  bindingKey user "missing" ≠ bindingKey user "B".
Proof. repeat split; by intros [=]%bindingKey_inj. Qed.

(** ** The loop of the earlier generation over ["A"; "missing"; "B"] *)

Section legacy_rounds.
Variables (user u : User).
Hypothesis Hsame : sameUser user u.

Lemma legacy_round_create_same role roles w :
  faultFree w → wellKeyed (store w) →
  is_Some (store w !! (KRole, (Namespace (UserMeta user), role))) →
  store w !! legacyBindingKey user role = None →
  ∃ u' w',
    sameUser user u' ∧
    Legacy.UserReconciler.roleBindingsLoop u false (role :: roles) w =
    Legacy.UserReconciler.roleBindingsLoop u' false roles w' ∧
    faultFree w' ∧ wellKeyed (store w') ∧
    store w' =
      <[legacyBindingKey user role :=
          ObjRoleBinding (Legacy.UserReconciler.desiredRoleBinding user role)]> (store w).
Proof.
  intros Hff Hwf Hrole Hb.
  destruct (legacy_round_create u role roles w Hff Hwf)
    as (w' & evs & Heq & Hff' & Hwf' & Hst' & _).
  { destruct Hsame as (-> & _). done. }
  { by rewrite (sameUser_legacyBindingKey user u). }
  rewrite (sameUser_legacyBindingKey user u), (sameUser_legacy_desired user u) in Hst'
    by done.
  eexists _, w'. split; [by apply sameUser_AddFinalizer|]. done.
Qed.

Lemma legacy_round_skip_same role roles w :
  faultFree w → wellKeyed (store w) →
  is_Some (store w !! (KRole, (Namespace (UserMeta user), role))) →
  is_Some (store w !! legacyBindingKey user role) →
  ∃ u' w',
    sameUser user u' ∧
    Legacy.UserReconciler.roleBindingsLoop u false (role :: roles) w =
    Legacy.UserReconciler.roleBindingsLoop u' false roles w' ∧
    faultFree w' ∧ wellKeyed (store w') ∧ store w' = store w.
Proof.
  intros Hff Hwf Hrole Hb.
  destruct (legacy_round_skip u role roles w Hff Hwf)
    as (w' & evs & Heq & Hff' & Hwf' & Hst' & _).
  { destruct Hsame as (-> & _). done. }
  { by rewrite (sameUser_legacyBindingKey user u). }
  eexists _, w'. split; [by apply sameUser_AddFinalizer|]. done.
Qed.

Lemma legacy_round_abort_same role roles w :
  faultFree w → wellKeyed (store w) →
  store w !! (KRole, (Namespace (UserMeta user), role)) = None →
  ∃ w',
    Legacy.UserReconciler.roleBindingsLoop u false (role :: roles) w =
    ((u, Some (Errorf "role does not exist: " (StatusError StatusReasonNotFound))), w') ∧
    store w' = store w.
Proof.
  intros Hff Hwf Hrole. apply legacy_round_abort; [done..|].
  destruct Hsame as (-> & _). done.
Qed.
End legacy_rounds.

(** The first pass: "A" is bound, the loop stops at "missing". *)
Lemma legacy_loop_first_pass user u w :
  let ns := Namespace (UserMeta user) in
  sameUser user u → faultFree w → wellKeyed (store w) →
  is_Some (store w !! (KRole, (ns, "A"))) →
  store w !! (KRole, (ns, "missing")) = None →
  store w !! legacyBindingKey user "A" = None →
  ∃ u' w',
    Legacy.UserReconciler.roleBindingsLoop u false ["A"; "missing"; "B"] w =
    ((u', Some (Errorf "role does not exist: " (StatusError StatusReasonNotFound))), w') ∧
    store w' =
      <[legacyBindingKey user "A" :=
          ObjRoleBinding (Legacy.UserReconciler.desiredRoleBinding user "A")]> (store w).
Proof.
  intros ns Hsame Hff Hwf HA Hmissing HbA.
  destruct (legacy_round_create_same user u Hsame "A" ["missing"; "B"] w)
    as (u1 & w1 & Hsame1 & -> & Hff1 & Hwf1 & Hst1); [done..|].
  destruct (legacy_round_abort_same user u1 Hsame1 "missing" ["B"] w1)
    as (w2 & -> & Hst2); [done..| |].
  { rewrite Hst1, lookup_insert_ne; [done|]. by intros [=]. }
  exists u1, w2. by rewrite Hst2.
Qed.

(** The second pass, the Role "missing" being there now: "A" is skipped,
    "missing" and "B" are bound. *)
Lemma legacy_loop_second_pass user u w :
  let ns := Namespace (UserMeta user) in
  sameUser user u → faultFree w → wellKeyed (store w) →
  is_Some (store w !! (KRole, (ns, "A"))) →
  is_Some (store w !! (KRole, (ns, "missing"))) →
  is_Some (store w !! (KRole, (ns, "B"))) →
  is_Some (store w !! legacyBindingKey user "A") →
  store w !! legacyBindingKey user "missing" = None →
  store w !! legacyBindingKey user "B" = None →
  ∃ u' w',
    Legacy.UserReconciler.roleBindingsLoop u false ["A"; "missing"; "B"] w = ((u', None), w') ∧
    sameUser user u' ∧ faultFree w' ∧
    store w' =
      <[legacyBindingKey user "B" :=
          ObjRoleBinding (Legacy.UserReconciler.desiredRoleBinding user "B")]>
        (<[legacyBindingKey user "missing" :=
             ObjRoleBinding (Legacy.UserReconciler.desiredRoleBinding user "missing")]>
           (store w)).
Proof.
  intros ns Hsame Hff Hwf HA HM HB HbA HbM HbB.
  destruct (legacy_keys_distinct user) as (HAM & HAB & HMB).
  destruct (legacy_round_skip_same user u Hsame "A" ["missing"; "B"] w)
    as (u1 & w1 & Hsame1 & -> & Hff1 & Hwf1 & Hst1); [done..|].
  destruct (legacy_round_create_same user u1 Hsame1 "missing" ["B"] w1)
    as (u2 & w2 & Hsame2 & -> & Hff2 & Hwf2 & Hst2); [by rewrite ?Hst1..|].
  destruct (legacy_round_create_same user u2 Hsame2 "B" [] w2)
    as (u3 & w3 & Hsame3 & -> & Hff3 & Hwf3 & Hst3); [done..| | |].
  { rewrite Hst2, lookup_insert_ne, Hst1; [done|]. by intros [=]. }
  { by rewrite Hst2, lookup_insert_ne, Hst1. }
  exists u3, w3. split; [done|]. split; [done|]. split; [done|]. by rewrite Hst3, Hst2, Hst1.
Qed.

(** ** The current reconciler over ["A"; "missing"; "B"] *)

Lemma round_create user u role roles w :
  sameUser user u → faultFree w → store w !! bindingKey user role = None →
  ∃ w',
    UserReconciler.roleBindingsLoop u false (role :: roles) w =
    UserReconciler.roleBindingsLoop u false roles w' ∧
    faultFree w' ∧
    store w' =
      <[bindingKey user role :=
          ObjRoleBinding (UserReconciler.userRoleBindingForRole user role)]> (store w).
Proof.
  intros Hsame Hff Hb. cbn [UserReconciler.roleBindingsLoop]. cbv zeta.
  rewrite bind_run, Create_faultFree_missing; [|done|].
  2:{ change (storeKey _) with (bindingKey u role). by rewrite (sameUser_bindingKey user u). }
  eexists. split; [done|]. split; [by apply faultFree_afterCreate|].
  unfold afterCreate. simpl. change (storeKey _) with (bindingKey u role).
  by rewrite (sameUser_bindingKey user u), (sameUser_desired user u).
Qed.

Lemma reconcileServiceAccount_faultFree user w :
  faultFree w → GetDeletionTimestamp user = None →
  ∃ w',
    UserReconciler.reconcileServiceAccount user w =
    ((AddFinalizer user UserReconciler.UserServiceAccountFinalizer, None), w') ∧
    faultFree w' ∧ (∀ k, k.1 ≠ KServiceAccount → store w' !! k = store w !! k).
Proof.
  intros Hff Hd. unfold UserReconciler.reconcileServiceAccount. rewrite Hd. cbv zeta.
  rewrite bind_run.
  destruct (store w !! storeKey (toObject (UserReconciler.serviceAccountForUser user)))
    as [o|] eqn:Hk.
  - rewrite Create_faultFree_present by (by rewrite ?Hk). eexists. split; [done|].
    split; [by apply faultFree_served|done].
  - rewrite Create_faultFree_missing by done. eexists. split; [done|].
    split; [by apply faultFree_afterCreate|]. intros k Hkind. simpl.
    rewrite lookup_insert_ne; [done|]. by intros <-.
Qed.

(** The current reconciler, which does not look for the Roles, binds all
    three roles in one pass. *)
Lemma Reconcile_binds_all req w user :
  store w !! (KUser, RequestNamespacedName req) = Some (ObjUser user) →
  GetDeletionTimestamp user = None →
  Roles (UserSpec_ user) = ["A"; "missing"; "B"] →
  faultFree w → wellKeyed (store w) →
  (∀ role, role ∈ ["A"; "missing"; "B"] → store w !! bindingKey user role = None) →
  ∃ w1,
    UserReconciler.Reconcile req w = ((zeroResult, None), w1) ∧
    ∀ role, role ∈ ["A"; "missing"; "B"] →
      store w1 !! bindingKey user role =
      Some (ObjRoleBinding (UserReconciler.userRoleBindingForRole user role)).
Proof.
  intros Hk Hd Hroles Hff Hwf Hnone.
  destruct (keys_distinct user) as (HAM & HAB & HMB).
  pose proof (wellKeyed_lookup _ _ _ Hwf Hk) as Hkey.
  pose proof (Get_faultFree_found (A:=User) (RequestNamespacedName req) w _ Hff Hwf Hk)
    as (user' & [= <-] & Hget).
  set (w0 := afterGet (A:=User) (RequestNamespacedName req) w) in *.
  assert (faultFree w0) as Hff0 by (by apply (faultFree_afterGet (A:=User))).
  destruct (reconcileServiceAccount_faultFree user w0 Hff0 Hd) as (w1 & Hsa & Hff1 & Hfr1).
  set (u1 := AddFinalizer user UserReconciler.UserServiceAccountFinalizer) in *.
  set (u2 := AddFinalizer u1 UserReconciler.UserRoleBindingFinalizer).
  assert (sameUser user u2) as Hsame by (by do 2 apply sameUser_AddFinalizer).
  destruct (round_create user u2 "A" ["missing"; "B"] w1 Hsame Hff1)
    as (wA & HeqA & HffA & HstA).
  { rewrite Hfr1 by done. apply Hnone. by repeat constructor. }
  destruct (round_create user u2 "missing" ["B"] wA Hsame HffA)
    as (wM & HeqM & HffM & HstM).
  { rewrite HstA, lookup_insert_ne, Hfr1 by done. apply Hnone. by repeat constructor. }
  destruct (round_create user u2 "B" [] wM Hsame HffM) as (wB & HeqB & HffB & HstB).
  { rewrite HstM, HstA, !lookup_insert_ne, Hfr1 by done. apply Hnone. by repeat constructor. }
  assert (UserReconciler.reconcileRoleBindings u1 w1 = ((u2, None), wB)) as Hrb.
  { unfold UserReconciler.reconcileRoleBindings.
    rewrite (sameUser_live user u1), bool_decide_eq_false_2;
      [|by intros [??]|by apply sameUser_AddFinalizer|done].
    cbv zeta. rewrite bind_run. change (Roles (UserSpec_ _)) with (Roles (UserSpec_ user)).
    rewrite Hroles. fold u2. by rewrite HeqA, HeqM, HeqB. }
  assert (Update u2 wB = (None, afterUpdate u2 wB)) as Hup.
  { apply Update_faultFree_live; [done| |by apply (sameUser_live user)].
    change (toObject u2) with (ObjUser u2). rewrite (sameUser_storeKey user u2), Hkey by done.
    rewrite HstB, HstM, HstA, !lookup_insert_ne, Hfr1 by done.
    change (store w0) with (store w). by rewrite Hk. }
  exists (afterUpdate u2 wB). split.
  - unfold UserReconciler.Reconcile. rewrite bind_run, Hget. cbn [fst snd].
    rewrite bind_run, Hsa. cbn [fst snd]. rewrite bind_run, Hrb. cbn [fst snd].
    by rewrite bind_run, Hup.
  - intros role Hrole. unfold afterUpdate. simpl.
    change (toObject u2) with (ObjUser u2). rewrite (sameUser_storeKey user u2), Hkey by done.
    rewrite lookup_insert_ne by done. rewrite HstB, HstM, HstA.
    apply elem_of_cons in Hrole as [->|Hrole];
      [by rewrite !lookup_insert_ne, lookup_insert_eq by done|].
    apply elem_of_cons in Hrole as [->|Hrole];
      [by rewrite lookup_insert_ne, lookup_insert_eq by done|].
    apply list_elem_of_singleton in Hrole as ->. by rewrite lookup_insert_eq.
Qed.

(** ** Partial failure *)

(** C5, as the code has it.  A live User with the roles "A", "missing"
    and "B", the Roles "A" and "B" in the store, no Role "missing", no
    binding yet, a store that serves every call.

    The earlier generation of the reconciler does what the claim says:
    the first pass returns the error "role does not exist", the binding
    of "A" is in the store and the binding of "B" is not; once the Role
    "missing" has been created, the next pass succeeds, the bindings of
    "missing" and "B" are in the store, and the pass has issued no
    [Create] for the binding of "A", which is as the first pass left it.

    The current reconciler does not look for the Roles: its first pass
    succeeds and leaves all three bindings in the store. *)
Theorem partial_failure_scenario (req : Request) (w : World) (user : User)
    (missingRole : Role) :
  let ns := Namespace (UserMeta user) in
  let roles := ["A"; "missing"; "B"] in
  store w !! (KUser, RequestNamespacedName req) = Some (ObjUser user) →
  GetDeletionTimestamp user = None →
  Roles (UserSpec_ user) = roles →
  faultFree w → wellKeyed (store w) →
  is_Some (store w !! (KRole, (ns, "A"))) →
  is_Some (store w !! (KRole, (ns, "B"))) →
  store w !! (KRole, (ns, "missing")) = None →
  storeKey (ObjRole missingRole) = (KRole, (ns, "missing")) →
  (∀ role, role ∈ roles → store w !! legacyBindingKey user role = None) →
  (∀ role, role ∈ roles → store w !! bindingKey user role = None) →
  (∃ e w1 w2 evs,
     Legacy.UserReconciler.Reconcile req w = ((zeroResult, Some e), w1) ∧
     String.prefix "role does not exist" (errorString e) = true ∧
     store w1 !! legacyBindingKey user "A" =
       Some (ObjRoleBinding (Legacy.UserReconciler.desiredRoleBinding user "A")) ∧
     store w1 !! legacyBindingKey user "B" = None ∧
     Legacy.UserReconciler.Reconcile req (roleCreated missingRole w1) =
       ((zeroResult, None), w2) ∧
     store w2 !! legacyBindingKey user "missing" =
       Some (ObjRoleBinding (Legacy.UserReconciler.desiredRoleBinding user "missing")) ∧
     store w2 !! legacyBindingKey user "B" =
       Some (ObjRoleBinding (Legacy.UserReconciler.desiredRoleBinding user "B")) ∧
     store w2 !! legacyBindingKey user "A" = store w1 !! legacyBindingKey user "A" ∧
     emitted (roleCreated missingRole w1) w2 evs ∧
     Forall (λ ev, ¬ (evVerb ev = VerbCreate ∧
                      (evKind ev, evKey ev) = legacyBindingKey user "A")) evs) ∧
  (∃ w1,
     UserReconciler.Reconcile req w = ((zeroResult, None), w1) ∧
     ∀ role, role ∈ roles →
       store w1 !! bindingKey user role =
       Some (ObjRoleBinding (UserReconciler.userRoleBindingForRole user role))).
Proof.
  intros ns roles Hk Hd Hroles Hff Hwf HA HB Hmissing HmissingRole Hlegacy Hcurrent.
  split; [|by apply Reconcile_binds_all].
  destruct (legacy_keys_distinct user) as (HAM & HAB & HMB).
  pose proof (wellKeyed_lookup _ _ _ Hwf Hk) as Hkey.
  (* the first pass *)
  destruct (Legacy_Reconcile_prologue _ _ _ Hk Hd Hff Hwf)
    as (w1p & u1 & w2p & Hget & Hsa & _ & Hu1 & Hff2 & Hwf2 & Hfr2).
  assert (sameUser user u1) as Hsame1
    by (destruct Hu1 as [->| ->]; [done|by apply sameUser_AddFinalizer]).
  destruct (legacy_loop_first_pass user u1 w2p Hsame1 Hff2 Hwf2)
    as (u2 & w1 & Hloop & Hst1).
  { by rewrite Hfr2. }
  { by rewrite Hfr2. }
  { rewrite Hfr2 by done. apply Hlegacy. by repeat constructor. }
  assert (Roles (UserSpec_ u1) = roles) as Hroles1
    by (destruct Hsame1 as (_ & _ & _ & ->); done).
  assert (Legacy.UserReconciler.reconcileRoleBindingss u1 w2p =
          ((u2, Some (Errorf "role does not exist: " (StatusError StatusReasonNotFound))), w1))
    as Hrb.
  { rewrite legacy_reconcileRoleBindingss_live by (by apply (sameUser_live user)).
    by rewrite Hroles1. }
  pose proof (Legacy_Reconcile_run _ _ _ _ _ _ _ _ Hget Hsa Hrb) as Hrun1. cbn [snd] in Hrun1.
  (* the world of the second pass *)
  set (w1' := roleCreated missingRole w1).
  assert (store w1' =
          <[(KRole, (ns, "missing")) := ObjRole missingRole]>
            (<[legacyBindingKey user "A" :=
                 ObjRoleBinding (Legacy.UserReconciler.desiredRoleBinding user "A")]>
               (store w2p))) as Hst1'.
  { unfold w1', roleCreated. simpl. by rewrite HmissingRole, Hst1. }
  assert (faultFree w1') as Hff1' by done.
  assert (wellKeyed (store w1')) as Hwf1'.
  { rewrite Hst1', <-HmissingRole. by do 2 apply wellKeyed_insert. }
  assert (∀ k, k.1 ≠ KServiceAccount → k ≠ (KRole, (ns, "missing")) →
               k ≠ legacyBindingKey user "A" → store w1' !! k = store w !! k) as Hfr1'.
  { intros k ???. by rewrite Hst1', !lookup_insert_ne, Hfr2. }
  assert (store w1' !! (KUser, RequestNamespacedName req) = Some (ObjUser user)) as Hk'
    by (by rewrite Hfr1').
  destruct (Legacy_Reconcile_prologue _ _ _ Hk' Hd Hff1' Hwf1')
    as (w1q & v1 & w2q & Hget' & Hsa' & Hev1' & Hv1 & Hff2' & Hwf2' & Hfr2').
  assert (sameUser user v1) as Hsame1'
    by (destruct Hv1 as [->| ->]; [done|by apply sameUser_AddFinalizer]).
  destruct (legacy_loop_second_pass user v1 w2q Hsame1' Hff2' Hwf2')
    as (v2 & w3 & Hloop' & Hsame2' & Hff3 & Hst3).
  { by rewrite Hfr2', Hfr1'. }
  { rewrite Hfr2', Hst1', lookup_insert_eq by done. by eexists. }
  { by rewrite Hfr2', Hfr1'. }
  { rewrite Hfr2', Hst1', lookup_insert_ne, lookup_insert_eq by done. by eexists. }
  { rewrite Hfr2', Hfr1' by done. apply Hlegacy. by repeat constructor. }
  { rewrite Hfr2', Hfr1' by done. apply Hlegacy. by repeat constructor. }
  assert (Roles (UserSpec_ v1) = roles) as Hroles1'
    by (destruct Hsame1' as (_ & _ & _ & ->); done).
  assert (Legacy.UserReconciler.reconcileRoleBindingss v1 w2q = ((v2, None), w3)) as Hrb'.
  { rewrite legacy_reconcileRoleBindingss_live by (by apply (sameUser_live user)).
    by rewrite Hroles1'. }
  assert (Update v2 w3 = (None, afterUpdate v2 w3)) as Hup.
  { apply Update_faultFree_live; [done| |by apply (sameUser_live user)].
    change (toObject v2) with (ObjUser v2). rewrite (sameUser_storeKey user v2), Hkey by done.
    by rewrite Hst3, !lookup_insert_ne, Hfr2', Hk'. }
  pose proof (Legacy_Reconcile_run _ _ _ _ _ _ _ _ Hget' Hsa' Hrb') as Hrun2.
  cbn [fst snd] in Hrun2. rewrite Hup in Hrun2.
  (* the calls of the second pass *)
  destruct (legacy_loop_no_duplicate roles v1 w2q _ _ (legacyBindingKey user "A")
              Hff2' Hwf2' Hloop') as (evs3 & Hevs3 & Hall3).
  { rewrite Hfr2', Hst1', lookup_insert_ne, lookup_insert_eq by done. by eexists. }
  apply legacy_reconcileServiceAccount_spec in Hsa' as (_ & _ & evs2 & Hevs2 & Hall2).
  assert (emitted w3 (afterUpdate v2 w3)
            [mkEvent VerbUpdate (storeKey (toObject v2)) None]) as Hevs4
    by apply emitted_served.
  pose proof (emitted_trans _ _ _ _ _
                (emitted_trans _ _ _ _ _ (emitted_trans _ _ _ _ _ Hev1' Hevs2) Hevs3) Hevs4)
    as Hevs.
  assert (store (afterUpdate v2 w3) =
          <[(KUser, RequestNamespacedName req) := ObjUser v2]> (store w3)) as Hst4.
  { unfold afterUpdate, served. cbn [store]. change (toObject v2) with (ObjUser v2).
    by rewrite (sameUser_storeKey user v2), Hkey. }
  (* the outcome *)
  exists (Errorf "role does not exist: " (StatusError StatusReasonNotFound)), w1,
    (afterUpdate v2 w3). eexists.
  split; [done|]. split; [done|].
  split; [by rewrite Hst1, lookup_insert_eq|].
  split.
  { rewrite Hst1, lookup_insert_ne, Hfr2 by done. apply Hlegacy. by repeat constructor. }
  split; [done|].
  split; [by rewrite Hst4, Hst3, !lookup_insert_ne, lookup_insert_eq by done|].
  split; [by rewrite Hst4, Hst3, lookup_insert_ne, lookup_insert_eq by done|].
  split.
  { rewrite Hst4, Hst3, !lookup_insert_ne, Hfr2', Hst1', lookup_insert_ne, lookup_insert_eq
      by done.
    by rewrite Hst1, lookup_insert_eq. }
  split; [exact Hevs|].
  rewrite !Forall_app. repeat split; [| |done|].
  - apply Forall_singleton. by intros [[=] _].
  - eapply Forall_impl; [done|]. intros ev (_ & _ & _ & Hkind) [_ Hkey'].
    unfold legacyBindingKey, storeKey in Hkey'. simpl in Hkey'. congruence.
  - apply Forall_singleton. by intros [[=] _].
Qed.
(** ** The result value *)

(** C10: on every path, whatever the request and the world,
    [TerminalReconciler.Reconcile] and [UserReconciler.Reconcile] return
    the zero [ctrl.Result] (no requeue, no delay): they never ask for a
    requeue themselves. *)
Theorem Reconcile_zero_result (req : Request) (w : World) :
  (TerminalReconciler.Reconcile req w).1.1 = zeroResult ∧
  (UserReconciler.Reconcile req w).1.1 = zeroResult.
Proof.
  split.
  - unfold TerminalReconciler.Reconcile. rewrite bind_run.
    destruct (Get _ w) as [[err|terminal] w1]; simpl; [done|].
    rewrite bind_run.
    destruct (TerminalReconciler.reconcileDeployment terminal w1) as [[t1 [e1|]] w2];
      simpl; [done|].
    rewrite bind_run.
    destruct (TerminalReconciler.reconcileService t1 w2) as [[t2 [e2|]] w3];
      simpl; [done|].
    rewrite bind_run. by destruct (Update t2 w3) as [[e3|] w4].
  - unfold UserReconciler.Reconcile. rewrite bind_run.
    destruct (Get _ w) as [[err|user] w1]; simpl; [done|].
    rewrite bind_run.
    destruct (UserReconciler.reconcileServiceAccount user w1) as [[u1 [e1|]] w2];
      simpl; [done|].
    rewrite bind_run.
    destruct (UserReconciler.reconcileRoleBindings u1 w2) as [[u2 [e2|]] w3];
      simpl; [done|].
    rewrite bind_run. by destruct (Update u2 w3) as [[e3|] w4].
Qed.

(** * The scenarios *)

Lemma wellKeyed_clusterOf objs fs : wellKeyed (store (clusterOf objs fs)).
Proof.
  unfold clusterOf. simpl. induction objs as [|o objs IH]; simpl.
  - apply map_Forall_empty.
  - by apply wellKeyed_insert.
Qed.

Lemma consistentFaults_nil : consistentFaults [].
Proof. constructor. Qed.

(** A run of a piece of code, told from the value it returns. *)
Lemma run_eq {A} (x : A * World) (a : A) : x.1 = a → x = (a, x.2).
Proof. destruct x as [a' w]. simpl. by intros ->. Qed.

(** ** Creation *)

(** The first pass over the test Terminal succeeds and leaves its
    Deployment and its Service in the store. *)
Lemma Terminal_converges_on_creation_witness :
  TerminalReconciler.Reconcile testTerminalRequest newTerminalCluster =
    ((zeroResult, None), reconciledCluster) ∧
  ∃ d s c p,
    store reconciledCluster !! (KDeployment, ("marina-system", "marina-terminal-terminal-test")) =
      Some (ObjDeployment d) ∧
    store reconciledCluster !! (KService, ("marina-system", "marina-terminal-terminal-test")) =
      Some (ObjService s) ∧
    Containers (TemplateSpec (Template (DeploymentSpec_ d))) = [c] ∧
    ContainerImage c = "busybox:1.36" ∧
    Replicas (DeploymentSpec_ d) = Some 1 ∧
    Ports (ServiceSpec_ s) = [p] ∧ PortProtocol p = ProtocolTCP ∧ Port p = 22.
Proof.
  assert (TerminalReconciler.Reconcile testTerminalRequest newTerminalCluster =
            ((zeroResult, None), reconciledCluster)) as Hrun
    by (apply run_eq; vm_compute; reflexivity).
  split; [exact Hrun|].
  destruct (Terminal_converges_on_creation testTerminalRequest newTerminalCluster
              reconciledCluster testTerminal zeroResult)
    as (d & s & c & p & Hd & Hs & _ & _ & _ & _ & Hc & Himg & Hrep & Hp & Htcp & Hport & _);
    [reflexivity|reflexivity|reflexivity|reflexivity|apply consistentFaults_nil|exact Hrun|].
  exists d, s, c, p. split_and!; assumption.
Defined.

(** ** Deletion of a derived object that is gone *)

(** The claim of C2 fails on a Terminal under teardown whose Deployment
    is gone: the [Delete] answers [NotFound], [reconcileDeployment]
    returns it wrapped and keeps the finalizer, [Reconcile] returns the
    error, and the Terminal in the store keeps both finalizers.  Likewise
    for a User whose ServiceAccount is gone. *)
Lemma Delete_NotFound_is_returned :
  GetDeletionTimestamp deletedTerminal = Some 1%nat ∧
  ContainsFinalizer deletedTerminal TerminalReconciler.TerminalDeploymentFinalizer = true ∧
  (Delete (TerminalReconciler.deploymentForTerminal deletedTerminal) deploymentGoneCluster).1 =
    Some (StatusError StatusReasonNotFound) ∧
  (TerminalReconciler.reconcileDeployment deletedTerminal deploymentGoneCluster).1 =
    (deletedTerminal,
     Some (Errorf "could not delete deployment: " (StatusError StatusReasonNotFound))) ∧
  (TerminalReconciler.Reconcile testTerminalRequest deploymentGoneCluster).1 =
    (zeroResult,
     Some (Errorf "could not delete deployment: " (StatusError StatusReasonNotFound))) ∧
  store (TerminalReconciler.Reconcile testTerminalRequest deploymentGoneCluster).2
    !! (KTerminal, ("marina-system", "terminal-test")) = Some (ObjTerminal deletedTerminal) ∧
  GetDeletionTimestamp deletedUser = Some 1%nat ∧
  ContainsFinalizer deletedUser UserReconciler.UserServiceAccountFinalizer = true ∧
  (UserReconciler.reconcileServiceAccount deletedUser serviceAccountGoneCluster).1 =
    (deletedUser, Some (StatusError StatusReasonNotFound)) ∧
  (UserReconciler.Reconcile testUserRequest serviceAccountGoneCluster).1 =
    (zeroResult, Some (StatusError StatusReasonNotFound)).
Proof. split_and!; vm_compute; reflexivity. Qed.

(** The pass over the Terminal whose Deployment is gone: the [NotFound]
    of the [Delete] is returned, and the Terminal stays as it is. *)
Lemma Delete_NotFound_aborts_pass_witness :
  (∃ e, Some (Errorf "could not delete deployment: " (StatusError StatusReasonNotFound)) = Some e ∧
        IsNotFound e = true) ∧
  ∀ key,
    store (TerminalReconciler.Reconcile testTerminalRequest deploymentGoneCluster).2
      !! (KTerminal, key) = store deploymentGoneCluster !! (KTerminal, key).
Proof.
  apply (Delete_NotFound_aborts_pass TerminalReconciler.SetupWithManager
           testTerminalRequest deploymentGoneCluster _ zeroResult _
           [mkEvent VerbGet (KTerminal, ("marina-system", "terminal-test")) None;
            mkEvent VerbDelete (KDeployment, ("marina-system", "marina-terminal-terminal-test"))
              (Some StatusReasonNotFound)]
           (mkEvent VerbDelete (KDeployment, ("marina-system", "marina-terminal-terminal-test"))
              (Some StatusReasonNotFound))).
  - apply list_elem_of_here.
  - apply run_eq. vm_compute. reflexivity.
  - vm_compute. reflexivity.
  - apply list_elem_of_further, list_elem_of_here.
  - reflexivity.
  - reflexivity.
Defined.

(** ** Errors that reach the dispatcher, and errors that do not *)

(** The claim of C3 fails on a new Terminal whose Deployment exists
    already: the [Create] of the Deployment answers [AlreadyExists], an
    error that is neither of the two [NotFound] cases, and the pass goes
    on and returns no error. *)
Lemma AlreadyExists_is_discarded :
  (Create (TerminalReconciler.deploymentForTerminal testTerminal) deploymentPresentCluster).1 =
    Some (StatusError StatusReasonAlreadyExists) ∧
  trace (TerminalReconciler.Reconcile testTerminalRequest deploymentPresentCluster).2 =
    [mkEvent VerbGet (KTerminal, ("marina-system", "terminal-test")) None;
     mkEvent VerbCreate (KDeployment, ("marina-system", "marina-terminal-terminal-test"))
       (Some StatusReasonAlreadyExists);
     mkEvent VerbCreate (KService, ("marina-system", "marina-terminal-terminal-test")) None;
     mkEvent VerbUpdate (KTerminal, ("marina-system", "terminal-test")) None] ∧
  (TerminalReconciler.Reconcile testTerminalRequest deploymentPresentCluster).1 =
    (zeroResult, None).
Proof. split_and!; vm_compute; reflexivity. Qed.

(** The pass over a new Terminal in a cluster that refuses the [Create]
    of the Deployment returns that refusal. *)
Lemma store_errors_reach_dispatcher_witness :
  ∃ e, Some (StatusError StatusReasonForbidden) = Some e ∧
       ReasonForError e = StatusReasonForbidden.
Proof.
  apply (store_errors_reach_dispatcher TerminalReconciler.SetupWithManager
           testTerminalRequest forbiddenCluster
           (TerminalReconciler.Reconcile testTerminalRequest forbiddenCluster).2
           zeroResult _
           [mkEvent VerbGet (KTerminal, ("marina-system", "terminal-test")) None;
            mkEvent VerbCreate (KDeployment, ("marina-system", "marina-terminal-terminal-test"))
              (Some StatusReasonForbidden)]
           (mkEvent VerbCreate (KDeployment, ("marina-system", "marina-terminal-terminal-test"))
              (Some StatusReasonForbidden))).
  - apply list_elem_of_here.
  - apply run_eq. vm_compute. reflexivity.
  - vm_compute. reflexivity.
  - apply list_elem_of_further, list_elem_of_here.
  - reflexivity.
  - intros (Hverb & _). discriminate Hverb.
  - intros (_ & Hrsn). discriminate Hrsn.
  - intros Hc. apply (f_equal For) in Hc. discriminate Hc.
Defined.

(** A pass that fails (the cluster refuses the [Create] of the
    Deployment) leaves the Terminal in the store as it was: no finalizer
    has reached the store. *)
Lemma failed_pass_keeps_persisted_finalizers_witness :
  TerminalReconciler.Reconcile testTerminalRequest forbiddenCluster =
    ((zeroResult, Some (StatusError StatusReasonForbidden)),
     (TerminalReconciler.Reconcile testTerminalRequest forbiddenCluster).2) ∧
  store (TerminalReconciler.Reconcile testTerminalRequest forbiddenCluster).2
    !! (KTerminal, ("marina-system", "terminal-test")) =
  store forbiddenCluster !! (KTerminal, ("marina-system", "terminal-test")).
Proof.
  assert (TerminalReconciler.Reconcile testTerminalRequest forbiddenCluster =
    ((zeroResult, Some (StatusError StatusReasonForbidden)),
     (TerminalReconciler.Reconcile testTerminalRequest forbiddenCluster).2)) as Hrun
    by (apply run_eq; vm_compute; reflexivity).
  split; [exact Hrun|].
  apply (failed_pass_keeps_persisted_finalizers TerminalReconciler.SetupWithManager
           testTerminalRequest forbiddenCluster _ zeroResult
           (StatusError StatusReasonForbidden)).
  - apply list_elem_of_here.
  - exact Hrun.
Defined.

(** ** Roles that do not exist *)

(** The claim of C4 fails on a User that names a Role nobody has
    created: [reconcileRoleBindings] asks the store for no Role, creates
    the binding and returns no error, and so does the pass. *)
Lemma missing_role_is_bound :
  store missingRoleCluster !! (KRole, ("marina-system", "missing")) = None ∧
  (UserReconciler.reconcileRoleBindings missingRoleUser missingRoleCluster).1.2 = None ∧
  trace (UserReconciler.reconcileRoleBindings missingRoleUser missingRoleCluster).2 =
    [mkEvent VerbCreate (KRoleBinding, ("marina-system", "user-test-missing")) None] ∧
  store (UserReconciler.reconcileRoleBindings missingRoleUser missingRoleCluster).2
    !! (KRoleBinding, ("marina-system", "user-test-missing")) =
    Some (ObjRoleBinding (UserReconciler.userRoleBindingForRole missingRoleUser "missing")) ∧
  (UserReconciler.Reconcile testUserRequest missingRoleCluster).1 = (zeroResult, None).
Proof. split_and!; vm_compute; reflexivity. Qed.

(** On the same User the earlier generation fails with "role does not
    exist", and the current [reconcileRoleBindings] only talks about
    RoleBindings. *)
Lemma role_check_is_legacy_only_witness :
  (∃ e w' evs,
     Legacy.UserReconciler.Reconcile testUserRequest missingRoleCluster =
       ((zeroResult, Some e), w') ∧
     e = Errorf "role does not exist: " (StatusError StatusReasonNotFound) ∧
     String.prefix "role does not exist" (errorString e) = true ∧
     emitted missingRoleCluster w' evs ∧ Forall (λ ev, evVerb ev ≠ VerbUpdate) evs ∧
     ∀ role',
       store w' !! legacyBindingKey missingRoleUser role' ≠
         store missingRoleCluster !! legacyBindingKey missingRoleUser role' →
       is_Some (store missingRoleCluster !! (KRole, ("marina-system", role')))) ∧
  (∀ r w1,
     UserReconciler.reconcileRoleBindings missingRoleUser missingRoleCluster = (r, w1) →
     ∃ evs, emitted missingRoleCluster w1 evs ∧
       Forall (λ ev, evKind ev = KRoleBinding ∧ evVerb ev ≠ VerbGet) evs).
Proof.
  apply (role_check_is_legacy_only testUserRequest missingRoleCluster missingRoleUser
           "missing").
  - reflexivity.
  - reflexivity.
  - reflexivity.
  - apply wellKeyed_clusterOf.
  - apply list_elem_of_here.
  - reflexivity.
Defined.

(** The claim of C5 fails on the current reconciler: with Roles "A" and
    "B" in place and no Role "missing", the first pass returns no error,
    and the binding for "B" (and the one for "missing") is in the store
    after it. *)
Lemma first_pass_binds_every_role :
  is_Some (store scenarioCluster !! (KRole, ("marina-system", "A"))) ∧
  is_Some (store scenarioCluster !! (KRole, ("marina-system", "B"))) ∧
  store scenarioCluster !! (KRole, ("marina-system", "missing")) = None ∧
  store scenarioCluster !! bindingKey scenarioUser "B" = None ∧
  (UserReconciler.Reconcile testUserRequest scenarioCluster).1 = (zeroResult, None) ∧
  store (UserReconciler.Reconcile testUserRequest scenarioCluster).2
    !! bindingKey scenarioUser "B" =
    Some (ObjRoleBinding (UserReconciler.userRoleBindingForRole scenarioUser "B")) ∧
  store (UserReconciler.Reconcile testUserRequest scenarioCluster).2
    !! bindingKey scenarioUser "missing" =
    Some (ObjRoleBinding (UserReconciler.userRoleBindingForRole scenarioUser "missing")).
Proof. split_and!; try (by eexists); vm_compute; reflexivity. Qed.

(** The scenario on the test User, in both generations. *)
Lemma partial_failure_scenario_witness :
  (∃ e w1 w2,
     Legacy.UserReconciler.Reconcile testUserRequest scenarioCluster =
       ((zeroResult, Some e), w1) ∧
     String.prefix "role does not exist" (errorString e) = true ∧
     store w1 !! legacyBindingKey scenarioUser "A" =
       Some (ObjRoleBinding (Legacy.UserReconciler.desiredRoleBinding scenarioUser "A")) ∧
     store w1 !! legacyBindingKey scenarioUser "B" = None ∧
     Legacy.UserReconciler.Reconcile testUserRequest (roleCreated (testRole "missing") w1) =
       ((zeroResult, None), w2) ∧
     store w2 !! legacyBindingKey scenarioUser "missing" =
       Some (ObjRoleBinding (Legacy.UserReconciler.desiredRoleBinding scenarioUser "missing")) ∧
     store w2 !! legacyBindingKey scenarioUser "B" =
       Some (ObjRoleBinding (Legacy.UserReconciler.desiredRoleBinding scenarioUser "B"))) ∧
  (∃ w1, UserReconciler.Reconcile testUserRequest scenarioCluster = ((zeroResult, None), w1)).
Proof.
  assert (∀ role, role ∈ ["A"; "missing"; "B"] →
            role = "A" ∨ role = "missing" ∨ role = "B") as Hroles.
  { intros role Hin. repeat (apply elem_of_cons in Hin as [->|Hin]; [tauto|]).
    by apply elem_of_nil in Hin. }
  destruct (partial_failure_scenario testUserRequest scenarioCluster scenarioUser
              (testRole "missing"))
    as [(e & w1 & w2 & evs & H1 & H2 & H3 & H4 & H5 & H6 & H7 & _) (w1' & H8 & _)].
  - reflexivity.
  - reflexivity.
  - reflexivity.
  - reflexivity.
  - apply wellKeyed_clusterOf.
  - by eexists.
  - by eexists.
  - reflexivity.
  - reflexivity.
  - intros role [->|[->| ->]]%Hroles; reflexivity.
  - intros role [->|[->| ->]]%Hroles; reflexivity.
  - split; [exists e, w1, w2; split_and!; assumption|by exists w1'].
Defined.

(** ** Teardown *)

(** After the pass that tears the deleted Terminal down, two more passes
    issue no [Delete]. *)
Lemma teardown_deletes_once_witness :
  TerminalReconciler.Reconcile testTerminalRequest teardownCluster =
    ((zeroResult, None), tornDownCluster) ∧
  ∃ evs,
    emitted tornDownCluster
      (reconcileRepeatedly (TerminalReconciler.Reconcile testTerminalRequest) [[]; []]
         tornDownCluster) evs ∧
    Forall (λ ev, evVerb ev ≠ VerbDelete) evs.
Proof.
  assert (TerminalReconciler.Reconcile testTerminalRequest teardownCluster =
            ((zeroResult, None), tornDownCluster)) as Hrun
    by (apply run_eq; vm_compute; reflexivity).
  split; [exact Hrun|].
  apply (teardown_deletes_once TerminalReconciler.SetupWithManager testTerminalRequest
           teardownCluster tornDownCluster zeroResult (ObjTerminal deletedTerminal)
           [[]; []]).
  - apply list_elem_of_here.
  - reflexivity.
  - reflexivity.
  - by eexists.
  - apply consistentFaults_nil.
  - exact Hrun.
Defined.

(** ** Orphans *)

(** The binding of a Role the User no longer names survives the pass of
    the current reconciler. *)
Lemma orphan_binding_persists_witness :
  store orphanCluster !! bindingKey shrunkUser "AnotherRole" =
    Some (ObjRoleBinding (UserReconciler.userRoleBindingForRole shrunkUser "AnotherRole")) ∧
  store (UserReconciler.Reconcile testUserRequest orphanCluster).2
    !! bindingKey shrunkUser "AnotherRole" =
    store orphanCluster !! bindingKey shrunkUser "AnotherRole" ∧
  ∃ evs,
    emitted orphanCluster (UserReconciler.Reconcile testUserRequest orphanCluster).2 evs ∧
    Forall (λ ev, evVerb ev ≠ VerbList ∧
                  (evKind ev, evKey ev) ≠ bindingKey shrunkUser "AnotherRole") evs.
Proof.
  split; [reflexivity|].
  apply (orphan_binding_persists UserReconciler.SetupWithManager bindingKey
           testUserRequest orphanCluster _ shrunkUser "AnotherRole"
           (UserReconciler.Reconcile testUserRequest orphanCluster).1.1
           (UserReconciler.Reconcile testUserRequest orphanCluster).1.2).
  - apply list_elem_of_here.
  - reflexivity.
  - intros Hin%list_elem_of_singleton. discriminate Hin.
  - apply run_eq. vm_compute. reflexivity.
Defined.

(** ** Idempotence *)

(** A second pass over the test Terminal leaves the store as the first
    pass left it. *)
Lemma Reconcile_idempotent_witness :
  store (TerminalReconciler.Reconcile testTerminalRequest
           (withFaults [] reconciledCluster)).2 = store reconciledCluster.
Proof.
  apply (Reconcile_idempotent TerminalReconciler.SetupWithManager testTerminalRequest
           newTerminalCluster reconciledCluster _ [] zeroResult zeroResult).
  - apply list_elem_of_here.
  - apply wellKeyed_clusterOf.
  - apply consistentFaults_nil.
  - apply consistentFaults_nil.
  - apply run_eq. vm_compute. reflexivity.
  - apply run_eq. vm_compute. reflexivity.
Defined.

(** * Further properties of the reconcilers *)

(** ** The primary object is gone *)

Lemma Get_absent {A} `{ClientObject A} key w :
  nextFault w = None → store w !! (kindOf A, key) = None →
  Get (A:=A) key w =
  (inl (StatusError StatusReasonNotFound),
   served VerbGet (kindOf A, key) (Some StatusReasonNotFound) (store w) w).
Proof.
  intros Hf Hk. unfold Get. rewrite bind_run. unfold apiGet. by rewrite Hf, Hk.
Qed.

(** X1: when the store holds no primary object under the name of the
    request (and serves the call), a pass is one [Get] and nothing else:
    it returns the zero result and no error, and the store is as it was.
    This holds of the three reconcilers. *)
Theorem absent_primary_is_noop (c : Controller) (req : Request) (w : World) :
  c ∈ generations →
  nextFault w = None →
  store w !! (For c, RequestNamespacedName req) = None →
  Do c req w =
  ((zeroResult, None),
   served VerbGet (For c, RequestNamespacedName req) (Some StatusReasonNotFound)
     (store w) w).
Proof.
  intros [->|[->| ->]]%generations_inv Hf Hk; simpl in *.
  - unfold TerminalReconciler.Reconcile. rewrite bind_run.
    by rewrite (Get_absent (A:=Terminal)).
  - unfold UserReconciler.Reconcile. rewrite bind_run.
    by rewrite (Get_absent (A:=User)).
  - unfold Legacy.UserReconciler.Reconcile. rewrite bind_run.
    by rewrite (Get_absent (A:=User)).
Qed.

(** ** Teardown *)

Lemma objMeta_setObjMeta m o : objMeta (setObjMeta m o) = m.
Proof. by destruct o. Qed.

Lemma goneOrTerminating_absent st k : st !! k = None → goneOrTerminating st k.
Proof. unfold goneOrTerminating. by intros ->. Qed.

Lemma goneOrTerminating_frame st st' k :
  st' !! k = st !! k → goneOrTerminating st k → goneOrTerminating st' k.
Proof. unfold goneOrTerminating. by intros ->. Qed.

(** A [Delete] that the store served leaves the object gone or
    terminating. *)
Lemma DeleteOutcome_served o w w1 :
  DeleteOutcome o w None w1 → goneOrTerminating (store w1) (storeKey o).
Proof.
  inversion 1; subst; unfold goneOrTerminating; simpl.
  - by rewrite lookup_delete_eq.
  - match goal with H : store w !! _ = Some _ |- _ => rewrite H end. eauto.
  - rewrite lookup_insert_eq, objMeta_setObjMeta. simpl. eauto.
Qed.

(** No [Delete] brings an object back. *)
Lemma DeleteOutcome_keeps_gone o w r w1 k :
  DeleteOutcome o w r w1 → goneOrTerminating (store w) k → goneOrTerminating (store w1) k.
Proof.
  intros Hdel Hk. destruct (decide (k = storeKey o)) as [->|Hne].
  - destruct r as [e|]; [|by eapply DeleteOutcome_served].
    inversion Hdel; subst; simpl; done.
  - eapply goneOrTerminating_frame; [|done]. by eapply DeleteOutcome_frame.
Qed.

Lemma DeleteOutcome_removed o w w1 :
  DeleteOutcome o w None w1 →
  unguarded (store w) (storeKey o) →
  store w1 = delete (storeKey o) (store w).
Proof.
  intros Hdel Hfin. inversion Hdel; subst; simpl; [done|..];
    match goal with H : store w !! _ = Some _ |- _ => apply Hfin in H end; done.
Qed.

Lemma ContainsFinalizer_RemoveFinalizer_keeps {A} `{LawfulObject A} (obj : A) f g :
  g ≠ f → ContainsFinalizer obj g = true → ContainsFinalizer (RemoveFinalizer obj f) g = true.
Proof.
  intros Hne. unfold ContainsFinalizer, RemoveFinalizer, ContainsFinalizerMeta.
  rewrite getMeta_setMeta. simpl.
  intros Hin%bool_decide_eq_true. apply bool_decide_eq_true.
  by apply list_elem_of_filter.
Qed.

Lemma Finalizers_RemoveFinalizer {A} `{LawfulObject A} (obj : A) f :
  Finalizers (getMeta (RemoveFinalizer obj f)) =
  filter (λ g, g ≠ f) (Finalizers (getMeta obj)).
Proof. unfold RemoveFinalizer. by rewrite getMeta_setMeta. Qed.

Lemma filter_two_nil (l : list string) f g :
  (∀ x, x ∈ l → x = f ∨ x = g) →
  filter (λ x, x ≠ g) (filter (λ x, x ≠ f) l) = [].
Proof.
  intros Hl. apply elem_of_nil_inv. intros x (Hg & (Hf & Hx)%list_elem_of_filter)%list_elem_of_filter.
  by destruct (Hl x Hx).
Qed.

Lemma Terminal_teardown_converges (req : Request) (w w' : World)
    (terminal : Terminal) (res : Result) (t : Time) :
  let key := RequestNamespacedName req in
  let kD := (KDeployment, (Namespace (TerminalMeta terminal),
                           "marina-terminal-" +:+ Name (TerminalMeta terminal))) in
  let kS := (KService, (Namespace (TerminalMeta terminal),
                        "marina-terminal-" +:+ Name (TerminalMeta terminal))) in
  store w !! (KTerminal, key) = Some (ObjTerminal terminal) →
  storeKey (ObjTerminal terminal) = (KTerminal, key) →
  GetDeletionTimestamp terminal = Some t →
  ContainsFinalizer terminal TerminalReconciler.TerminalDeploymentFinalizer = true →
  ContainsFinalizer terminal TerminalReconciler.TerminalServiceFinalizer = true →
  consistentFaults (faults w) →
  TerminalReconciler.Reconcile req w = ((res, None), w') →
  goneOrTerminating (store w') kD ∧ goneOrTerminating (store w') kS ∧
  (unguarded (store w) kD → store w' !! kD = None) ∧
  (unguarded (store w) kS → store w' !! kS = None) ∧
  ((∀ f, f ∈ Finalizers (TerminalMeta terminal) →
         f = TerminalReconciler.TerminalDeploymentFinalizer ∨
         f = TerminalReconciler.TerminalServiceFinalizer) →
   store w' !! (KTerminal, key) = None).
Proof.
  intros key kD kS Hstored Hkey Hdel HfD HfS Hcons Hrun.
  apply Terminal_Reconcile_inv in Hrun as (r0 & w1 & Hget & Hrest).
  destruct (GetOutcome_truthful _ _ _ _ Hget Hcons) as (_ & Hst1 & Hr0).
  destruct r0 as [e|o].
  { destruct Hrest as [Herr _]. symmetry in Herr. apply Hr0 in Herr.
    fold key in Herr. congruence. }
  fold key in Hr0. rewrite Hstored in Hr0. injection Hr0 as <-. simpl in Hrest.
  destruct Hrest as (t1 & e1 & w2 & Hdep & Hrest).
  destruct (DerivedOutcome_teardown _ _ _ _ _ _ _ _ _ Hdel HfD Hdep)
    as (derr & HdelD & [(e & -> & -> & _)|(-> & -> & ->)]); [by destruct Hrest|].
  destruct Hrest as (t2 & e2 & w3 & Hsvc & Hrest).
  rewrite serviceForTerminal_RemoveFinalizer in Hsvc.
  assert (GetDeletionTimestamp
            (RemoveFinalizer terminal TerminalReconciler.TerminalDeploymentFinalizer) = Some t)
    as Hdel1 by (by rewrite GetDeletionTimestamp_RemoveFinalizer).
  assert (ContainsFinalizer
            (RemoveFinalizer terminal TerminalReconciler.TerminalDeploymentFinalizer)
            TerminalReconciler.TerminalServiceFinalizer = true) as HfS1
    by (by apply ContainsFinalizer_RemoveFinalizer_keeps).
  destruct (DerivedOutcome_teardown _ _ _ _ _ _ _ _ _ Hdel1 HfS1 Hsvc)
    as (serr & HdelS & [(e & -> & -> & _)|(-> & -> & ->)]); [by destruct Hrest|].
  pose proof (DeleteOutcome_frame _ _ _ _ HdelD) as HframeD.
  pose proof (DeleteOutcome_frame _ _ _ _ HdelS) as HframeS.
  pose proof (UpdateOutcome_frame _ _ _ _ Hrest) as HframeU.
  rewrite storeKey_deploymentForTerminal in HframeD.
  rewrite storeKey_serviceForTerminal in HframeS.
  set (t2 := RemoveFinalizer (RemoveFinalizer terminal _) _) in *.
  assert (storeKey (ObjTerminal t2) = (KTerminal, key)) as Hk2.
  { unfold t2. change (ObjTerminal ?x) with (toObject x).
    by rewrite !storeKey_RemoveFinalizer. }
  rewrite Hk2 in HframeU.
  assert (kD ≠ kS) as HDS by done.
  assert (kD ≠ (KTerminal, key)) as HDT by done.
  assert (kS ≠ (KTerminal, key)) as HST by done.
  split_and!.
  - eapply goneOrTerminating_frame; [by apply HframeU|].
    eapply DeleteOutcome_keeps_gone; [done|].
    apply DeleteOutcome_served in HdelD. by rewrite storeKey_deploymentForTerminal in HdelD.
  - eapply goneOrTerminating_frame; [by apply HframeU|].
    apply DeleteOutcome_served in HdelS. by rewrite storeKey_serviceForTerminal in HdelS.
  - intros Hfin. rewrite HframeU, HframeS by done.
    rewrite (DeleteOutcome_removed _ _ _ HdelD), storeKey_deploymentForTerminal.
    + apply lookup_delete_eq.
    + rewrite storeKey_deploymentForTerminal, Hst1. apply Hfin.
  - intros Hfin. rewrite HframeU by done.
    rewrite (DeleteOutcome_removed _ _ _ HdelS), storeKey_serviceForTerminal.
    + apply lookup_delete_eq.
    + rewrite storeKey_serviceForTerminal. intros old. rewrite HframeD, Hst1 by done.
      apply Hfin.
  - intros Hfin.
    assert (Finalizers (objMeta (ObjTerminal t2)) = []) as Hnil.
    { unfold t2. change (objMeta (ObjTerminal ?x)) with (getMeta x).
      rewrite !Finalizers_RemoveFinalizer. by apply filter_two_nil. }
    inversion Hrest; subst; simpl.
    + rewrite Hk2. apply lookup_delete_eq.
    + match goal with H : _ ∨ _ |- _ => destruct H as [Hlive|Hne] end; [|done].
      change (objMeta (ObjTerminal ?x)) with (getMeta x) in Hlive.
      unfold t2 in Hlive.
      change (DeletionTimestamp (getMeta ?x)) with (GetDeletionTimestamp x) in Hlive.
      rewrite !GetDeletionTimestamp_RemoveFinalizer in Hlive. congruence.
Qed.

(** X2: convergence on deletion.  A pass that succeeds on a Terminal
    that is marked for deletion and carries both finalizers has had the
    store serve the [Delete] of the Deployment and of the Service: each
    is gone, or is terminating behind finalizers of its own; it is gone
    when it carried none.  When the Terminal carries no other finalizer
    than these two, the final [Update] lets the store erase it. *)
Theorem Terminal_converges_on_deletion (req : Request) (w w' : World)
    (terminal : Terminal) (res : Result) (t : Time) :
  let key := RequestNamespacedName req in
  let kD := (KDeployment, (Namespace (TerminalMeta terminal),
                           "marina-terminal-" +:+ Name (TerminalMeta terminal))) in
  let kS := (KService, (Namespace (TerminalMeta terminal),
                        "marina-terminal-" +:+ Name (TerminalMeta terminal))) in
  store w !! (KTerminal, key) = Some (ObjTerminal terminal) →
  storeKey (ObjTerminal terminal) = (KTerminal, key) →
  GetDeletionTimestamp terminal = Some t →
  ContainsFinalizer terminal TerminalReconciler.TerminalDeploymentFinalizer = true →
  ContainsFinalizer terminal TerminalReconciler.TerminalServiceFinalizer = true →
  consistentFaults (faults w) →
  TerminalReconciler.Reconcile req w = ((res, None), w') →
  goneOrTerminating (store w') kD ∧ goneOrTerminating (store w') kS ∧
  (unguarded (store w) kD → store w' !! kD = None) ∧
  (unguarded (store w) kS → store w' !! kS = None) ∧
  ((∀ f, f ∈ Finalizers (TerminalMeta terminal) →
         f = TerminalReconciler.TerminalDeploymentFinalizer ∨
         f = TerminalReconciler.TerminalServiceFinalizer) →
   store w' !! (KTerminal, key) = None).
Proof. apply Terminal_teardown_converges. Qed.

(** The test Terminal under teardown: one pass, and the Deployment, the
    Service and the Terminal are gone. *)
Lemma Terminal_converges_on_deletion_witness :
  store tornDownCluster !! (KDeployment, ("marina-system", "marina-terminal-terminal-test")) = None ∧
  store tornDownCluster !! (KService, ("marina-system", "marina-terminal-terminal-test")) = None ∧
  store tornDownCluster !! (KTerminal, ("marina-system", "terminal-test")) = None.
Proof.
  destruct (Terminal_converges_on_deletion testTerminalRequest teardownCluster
              tornDownCluster deletedTerminal zeroResult 1%nat)
    as (_ & _ & HD & HS & HT);
    [reflexivity|reflexivity|reflexivity|reflexivity|reflexivity|
     apply consistentFaults_nil|apply run_eq; vm_compute; reflexivity|].
  split_and!.
  - apply HD. intros o Ho.
    assert (o = ObjDeployment (TerminalReconciler.deploymentForTerminal deletedTerminal))
      as -> by (injection Ho as <-; reflexivity).
    reflexivity.
  - apply HS. intros o Ho.
    assert (o = ObjService (TerminalReconciler.serviceForTerminal deletedTerminal))
      as -> by (injection Ho as <-; reflexivity).
    reflexivity.
  - apply HT. intros f Hf. apply elem_of_cons in Hf as [->|Hf]; [by left|].
    apply list_elem_of_singleton in Hf as ->. by right.
Defined.

Lemma DeleteOutcome_keeps_unguarded o w r w1 k :
  DeleteOutcome o w r w1 → unguarded (store w) k → unguarded (store w1) k.
Proof.
  intros Hdel Hk. destruct (decide (k = storeKey o)) as [->|Hne].
  - inversion Hdel; subst; simpl; try done.
    + intros o'. by rewrite lookup_delete_eq.
    + match goal with H : store w !! _ = Some _ |- _ => apply Hk in H end. done.
  - intros o'. rewrite (DeleteOutcome_frame _ _ _ _ Hdel) by done. apply Hk.
Qed.

Lemma DeleteOutcome_keeps_absent o w r w1 k :
  DeleteOutcome o w r w1 → store w !! k = None → store w1 !! k = None.
Proof.
  intros Hdel Hk. destruct (decide (k = storeKey o)) as [->|Hne].
  - inversion Hdel; subst; simpl; try done; congruence.
  - by rewrite (DeleteOutcome_frame _ _ _ _ Hdel).
Qed.

(** What every [Delete] keeps, the loop keeps on the delete path. *)
Lemma roleBindingsLoop_teardown_inv (P : gmap StoreKey Object → Prop) user roles :
  (∀ o w r w1, DeleteOutcome o w r w1 → P (store w) → P (store w1)) →
  ∀ w ret w1,
    UserReconciler.roleBindingsLoop user true roles w = (ret, w1) →
    P (store w) → P (store w1).
Proof.
  intros HP. induction roles as [|role roles IH]; intros w ret w1 Hrun Hw; simpl in Hrun.
  { by run_inv Hrun. }
  destruct (ContainsFinalizer user _); [|by eapply IH].
  run_inv Hrun. apply Delete_outcome in Hcall. apply HP in Hcall; [|done].
  destruct a as [err|]; [by run_inv Hrest|by eapply IH].
Qed.

Lemma roleBindingsLoop_teardown_gone user roles w w1 :
  ContainsFinalizer user UserReconciler.UserRoleBindingFinalizer = true →
  UserReconciler.roleBindingsLoop user true roles w = (None, w1) →
  ∀ role, role ∈ roles →
    goneOrTerminating (store w1) (bindingKey user role) ∧
    (unguarded (store w) (bindingKey user role) → store w1 !! bindingKey user role = None).
Proof.
  intros Hfin. revert w. induction roles as [|r roles IH]; intros w Hrun role Hrole.
  { by apply elem_of_nil in Hrole. }
  simpl in Hrun. rewrite Hfin in Hrun. run_inv Hrun.
  destruct a as [err|]; [by run_inv Hrest|].
  apply Delete_outcome in Hcall.
  apply elem_of_cons in Hrole as [->|Hrole].
  - split.
    + eapply (roleBindingsLoop_teardown_inv (λ st, goneOrTerminating st _)); [|done|].
      * intros. by eapply DeleteOutcome_keeps_gone.
      * by apply DeleteOutcome_served in Hcall.
    + intros Hun.
      eapply (roleBindingsLoop_teardown_inv (λ st, st !! _ = None)); [|done|].
      * intros. by eapply DeleteOutcome_keeps_absent.
      * rewrite (DeleteOutcome_removed _ _ _ Hcall) by done. apply lookup_delete_eq.
  - destruct (IH _ Hrest role Hrole) as [Hgone Habsent]. split; [done|].
    intros Hun. apply Habsent. by eapply DeleteOutcome_keeps_unguarded.
Qed.

Lemma reconcileRoleBindings_teardown_run user w u' w1 t :
  GetDeletionTimestamp user = Some t →
  UserReconciler.reconcileRoleBindings user w = ((u', None), w1) →
  u' = RemoveFinalizer user UserReconciler.UserRoleBindingFinalizer ∧
  UserReconciler.roleBindingsLoop user true (Roles (UserSpec_ user)) w = (None, w1).
Proof.
  intros Hd Hrun. split; [by eapply reconcileRoleBindings_teardown|].
  unfold UserReconciler.reconcileRoleBindings in Hrun.
  rewrite Hd, bool_decide_eq_true_2 in Hrun by done. run_inv Hrun.
  assert (default None a = None) as Hret by (by destruct a; run_inv Hrest).
  pose proof (roleBindingsLoop_teardown _ _ _ _ _ Hcall Hret) as ->. by run_inv Hrest.
Qed.

Lemma storeKey_serviceAccountForUser user :
  storeKey (toObject (UserReconciler.serviceAccountForUser user)) =
  (KServiceAccount, (Namespace (UserMeta user), Name (UserMeta user))).
Proof. done. Qed.

Lemma bindingKey_kind user role : (bindingKey user role).1 = KRoleBinding.
Proof. done. Qed.

(** X3: convergence on deletion of a User.  A pass that succeeds on a
    User that is marked for deletion and carries both finalizers has had
    the store serve the [Delete] of the ServiceAccount and of the binding
    of every role of the list: each is gone, or is terminating behind
    finalizers of its own, and it is gone when it carried none.  When the
    User carries no other finalizer than these two, the final [Update]
    lets the store erase it. *)
Theorem User_converges_on_deletion (req : Request) (w w' : World)
    (user : User) (res : Result) (t : Time) :
  let key := RequestNamespacedName req in
  let kA := (KServiceAccount, (Namespace (UserMeta user), Name (UserMeta user))) in
  store w !! (KUser, key) = Some (ObjUser user) →
  storeKey (ObjUser user) = (KUser, key) →
  GetDeletionTimestamp user = Some t →
  ContainsFinalizer user UserReconciler.UserServiceAccountFinalizer = true →
  ContainsFinalizer user UserReconciler.UserRoleBindingFinalizer = true →
  consistentFaults (faults w) →
  UserReconciler.Reconcile req w = ((res, None), w') →
  goneOrTerminating (store w') kA ∧
  (unguarded (store w) kA → store w' !! kA = None) ∧
  (∀ role, role ∈ Roles (UserSpec_ user) →
     goneOrTerminating (store w') (bindingKey user role) ∧
     (unguarded (store w) (bindingKey user role) →
      store w' !! bindingKey user role = None)) ∧
  ((∀ f, f ∈ Finalizers (UserMeta user) →
         f = UserReconciler.UserServiceAccountFinalizer ∨
         f = UserReconciler.UserRoleBindingFinalizer) →
   store w' !! (KUser, key) = None).
Proof.
  intros key kA Hstored Hkey Hdel HfA HfB Hcons Hrun.
  apply User_Reconcile_inv in Hrun as (r0 & w1 & Hget & Hrest).
  destruct (GetOutcome_truthful _ _ _ _ Hget Hcons) as (_ & Hst1 & Hr0).
  destruct r0 as [e|o].
  { destruct Hrest as [Herr _]. symmetry in Herr. apply Hr0 in Herr.
    fold key in Herr. congruence. }
  fold key in Hr0. rewrite Hstored in Hr0. injection Hr0 as <-. simpl in Hrest.
  destruct Hrest as (u1 & e1 & w2 & Hacc & Hrest).
  destruct (DerivedOutcome_teardown _ _ _ _ _ _ _ _ _ Hdel HfA Hacc)
    as (derr & HdelA & [(e & -> & -> & _)|(-> & -> & ->)]); [by destruct Hrest|].
  destruct Hrest as (u2 & e2 & w3 & Hloop & Hrest).
  destruct e2 as [e|]; [by destruct Hrest|].
  set (u1 := RemoveFinalizer user UserReconciler.UserServiceAccountFinalizer) in *.
  assert (GetDeletionTimestamp u1 = Some t) as Hdel1
    by (unfold u1; by rewrite GetDeletionTimestamp_RemoveFinalizer).
  assert (ContainsFinalizer u1 UserReconciler.UserRoleBindingFinalizer = true) as HfB1
    by (by apply ContainsFinalizer_RemoveFinalizer_keeps).
  assert (∀ role, bindingKey u1 role = bindingKey user role) as Hbk
    by (intros; apply bindingKey_RemoveFinalizer).
  assert (Roles (UserSpec_ u1) = Roles (UserSpec_ user)) as Hroles by done.
  destruct (reconcileRoleBindings_teardown_run _ _ _ _ _ Hdel1 Hloop) as [-> Hrun].
  rewrite Hroles in Hrun.
  pose proof (DeleteOutcome_frame _ _ _ _ HdelA) as HframeA.
  pose proof (DeleteOutcome_served _ _ _ HdelA) as HgoneA.
  pose proof (DeleteOutcome_removed _ _ _ HdelA) as HremA.
  rewrite storeKey_serviceAccountForUser in HframeA, HgoneA, HremA.
  fold kA in HframeA, HgoneA, HremA.
  pose proof (UpdateOutcome_frame _ _ _ _ Hrest) as HframeU.
  set (u2 := RemoveFinalizer u1 _) in *.
  assert (storeKey (ObjUser u2) = (KUser, key)) as Hk2.
  { unfold u2, u1. change (ObjUser ?x) with (toObject x).
    by rewrite !storeKey_RemoveFinalizer. }
  rewrite Hk2 in HframeU.
  assert (kA ≠ (KUser, key)) as HAU by done.
  assert (∀ role, bindingKey user role ≠ (KUser, key)) as HBU by done.
  assert (∀ role, bindingKey user role ≠ kA) as HBA by done.
  assert (store w3 !! kA = store w2 !! kA) as HloopA.
  { eapply roleBindingsLoop_frame; [done|]. intros role _. rewrite Hbk. by apply not_eq_sym. }
  split_and!.
  - eapply goneOrTerminating_frame; [by apply HframeU|].
    eapply goneOrTerminating_frame; [done|]. done.
  - intros Hun. rewrite HframeU, HloopA by done.
    rewrite HremA; [apply lookup_delete_eq|]. by rewrite Hst1.
  - intros role Hrole.
    destruct (roleBindingsLoop_teardown_gone _ _ _ _ HfB1 Hrun role Hrole) as [Hgone Habs].
    rewrite Hbk in Hgone, Habs. split.
    + eapply goneOrTerminating_frame; [by apply HframeU|done].
    + intros Hun. rewrite HframeU by done. apply Habs.
      intros o. rewrite HframeA, Hst1 by done. apply Hun.
  - intros Hfin.
    assert (Finalizers (objMeta (ObjUser u2)) = []) as Hnil.
    { unfold u2, u1. change (objMeta (ObjUser ?x)) with (getMeta x).
      rewrite !Finalizers_RemoveFinalizer. by apply filter_two_nil. }
    inversion Hrest; subst; simpl.
    + rewrite Hk2. apply lookup_delete_eq.
    + match goal with H : _ ∨ _ |- _ => destruct H as [Hlive|Hne] end; [|done].
      change (objMeta (ObjUser ?x)) with (getMeta x) in Hlive.
      unfold u2 in Hlive.
      change (DeletionTimestamp (getMeta ?x)) with (GetDeletionTimestamp x) in Hlive.
      rewrite GetDeletionTimestamp_RemoveFinalizer in Hlive. congruence.
Qed.

(** The User under teardown: one pass, and the ServiceAccount, the
    binding and the User are gone. *)
Lemma User_converges_on_deletion_witness :
  store (UserReconciler.Reconcile testUserRequest userTeardownCluster).2
    !! (KServiceAccount, ("marina-system", "user-test")) = None ∧
  store (UserReconciler.Reconcile testUserRequest userTeardownCluster).2
    !! bindingKey deletedUser "SomeRole" = None ∧
  store (UserReconciler.Reconcile testUserRequest userTeardownCluster).2
    !! (KUser, ("marina-system", "user-test")) = None.
Proof.
  destruct (User_converges_on_deletion testUserRequest userTeardownCluster
              (UserReconciler.Reconcile testUserRequest userTeardownCluster).2
              deletedUser zeroResult 1%nat)
    as (_ & HA & HB & HU);
    [reflexivity|reflexivity|reflexivity|reflexivity|reflexivity|
     apply consistentFaults_nil|apply run_eq; vm_compute; reflexivity|].
  split_and!.
  - apply HA. intros o Ho.
    assert (o = ObjServiceAccount (UserReconciler.serviceAccountForUser deletedUser))
      as -> by (injection Ho as <-; reflexivity).
    reflexivity.
  - apply (HB "SomeRole"); [apply list_elem_of_here|]. intros o Ho.
    assert (o = ObjRoleBinding (UserReconciler.userRoleBindingForRole deletedUser "SomeRole"))
      as -> by (injection Ho as <-; reflexivity).
    reflexivity.
  - apply HU. intros f Hf. apply elem_of_cons in Hf as [->|Hf]; [by left|].
    apply list_elem_of_singleton in Hf as ->. by right.
Defined.

(** ** A teardown that cannot be resumed *)

Lemma DeleteOutcome_failed o w e w1 : DeleteOutcome o w (Some e) w1 → store w1 = store w.
Proof. by inversion 1. Qed.

Lemma DeleteOutcome_served_present o w w1 :
  DeleteOutcome o w None w1 → is_Some (store w !! storeKey o).
Proof. inversion 1; eauto. Qed.

Lemma GetOutcome_stored k w r0 w1 o :
  GetOutcome k w r0 w1 → consistentFaults (faults w) → store w !! k = Some o →
  store w1 = store w ∧
  ((∃ e, r0 = inl e ∧ is_Some (IgnoreNotFound (Some e))) ∨ r0 = inr o).
Proof.
  intros Hget Hcons Hk. split; [by eapply GetOutcome_store|].
  inversion Hget; subst.
  - left. eexists. split; [done|].
    destruct (consistentFaults_next _ _ Hcons ltac:(done)) as [Hnf _].
    unfold IgnoreNotFound. simpl. by destruct r.
  - congruence.
  - right. congruence.
Qed.

Lemma reconcileRepeatedly_fixed (reconcile : M (Result * option error))
    (st : gmap StoreKey Object) :
  (∀ w, store w = st → consistentFaults (faults w) → store (reconcile w).2 = st) →
  ∀ scripts w, store w = st → Forall consistentFaults scripts →
    store (reconcileRepeatedly reconcile scripts w) = st.
Proof.
  intros Hpass scripts. induction scripts as [|fs scripts IH]; intros w Hw Hall; [done|].
  simpl. apply Forall_cons in Hall as [Hfs Hall]. apply IH; [|done]. by apply Hpass.
Qed.

Lemma Terminal_stuck_pass req w res err w' terminal t :
  store w !! (KTerminal, RequestNamespacedName req) = Some (ObjTerminal terminal) →
  GetDeletionTimestamp terminal = Some t →
  ContainsFinalizer terminal TerminalReconciler.TerminalDeploymentFinalizer = true →
  store w !! storeKey (toObject (TerminalReconciler.deploymentForTerminal terminal)) = None →
  consistentFaults (faults w) →
  TerminalReconciler.Reconcile req w = ((res, err), w') →
  store w' = store w ∧ is_Some err.
Proof.
  intros Hstored Hdel HfD Habsent Hcons Hrun.
  apply Terminal_Reconcile_inv in Hrun as (r0 & w1 & Hget & Hrest).
  destruct (GetOutcome_stored _ _ _ _ _ Hget Hcons Hstored)
    as [Hst1 [(e & -> & He)| ->]].
  { destruct Hrest as [-> ->]. done. }
  simpl in Hrest. destruct Hrest as (t1 & e1 & w2 & Hdep & Hrest).
  destruct (DerivedOutcome_teardown _ _ _ _ _ _ _ _ _ Hdel HfD Hdep)
    as (derr & HdelD & [(e & -> & -> & _)|(-> & -> & ->)]).
  - destruct Hrest as [-> ->]. split; [|done].
    rewrite <- Hst1. by eapply DeleteOutcome_failed.
  - apply DeleteOutcome_served_present in HdelD as [old Hold].
    rewrite Hst1 in Hold. congruence.
Qed.

Lemma Terminal_stuck_passes req w terminal t scripts fs :
  let later := reconcileRepeatedly (TerminalReconciler.Reconcile req) scripts w in
  store w !! (KTerminal, RequestNamespacedName req) = Some (ObjTerminal terminal) →
  GetDeletionTimestamp terminal = Some t →
  ContainsFinalizer terminal TerminalReconciler.TerminalDeploymentFinalizer = true →
  store w !! storeKey (toObject (TerminalReconciler.deploymentForTerminal terminal)) = None →
  Forall consistentFaults scripts → consistentFaults fs →
  store later = store w ∧
  is_Some (TerminalReconciler.Reconcile req (withFaults fs later)).1.2 ∧
  store (TerminalReconciler.Reconcile req (withFaults fs later)).2 = store w.
Proof.
  intros later Hstored Hdel HfD Habsent Hall Hfs.
  assert (∀ w0, store w0 = store w → consistentFaults (faults w0) →
            store (TerminalReconciler.Reconcile req w0).2 = store w ∧
            is_Some (TerminalReconciler.Reconcile req w0).1.2) as Hpass.
  { intros w0 Hw0 Hcons.
    destruct (TerminalReconciler.Reconcile req w0) as [[res err] w'] eqn:Hrun. simpl.
    rewrite <- Hw0 in Hstored, Habsent.
    destruct (Terminal_stuck_pass _ _ _ _ _ _ _ Hstored Hdel HfD Habsent Hcons Hrun)
      as [Hst Herr].
    split; [congruence|done]. }
  assert (store later = store w) as Hlater.
  { apply reconcileRepeatedly_fixed; [|done..]. intros w0 Hw0 Hcons.
    by destruct (Hpass w0 Hw0 Hcons). }
  split; [done|].
  destruct (Hpass (withFaults fs later)) as [Hst Herr]; [done..|]. by split.
Qed.

(** X4: a Terminal that is marked for deletion, still carries the
    Deployment finalizer, and whose Deployment is not in the store
    (deleted by an earlier pass that failed later on, or by hand) is
    stuck: however often the dispatcher retries, each pass fails on the
    [NotFound] of the [Delete] (or on an earlier failure of the store),
    and the store stays as it is, the Terminal and its finalizers
    included. *)
Theorem teardown_without_Deployment_is_stuck (req : Request) (w : World)
    (terminal : Terminal) (t : Time)
    (scripts : list (list (option StatusReason))) (fs : list (option StatusReason)) :
  let kD := (KDeployment, (Namespace (TerminalMeta terminal),
                           "marina-terminal-" +:+ Name (TerminalMeta terminal))) in
  let later := reconcileRepeatedly (TerminalReconciler.Reconcile req) scripts w in
  store w !! (KTerminal, RequestNamespacedName req) = Some (ObjTerminal terminal) →
  GetDeletionTimestamp terminal = Some t →
  ContainsFinalizer terminal TerminalReconciler.TerminalDeploymentFinalizer = true →
  store w !! kD = None →
  Forall consistentFaults scripts → consistentFaults fs →
  store later = store w ∧
  is_Some (TerminalReconciler.Reconcile req (withFaults fs later)).1.2 ∧
  store (TerminalReconciler.Reconcile req (withFaults fs later)).2 = store w.
Proof.
  intros kD later Hstored Hdel HfD Habsent.
  by apply (Terminal_stuck_passes req w terminal t).
Qed.

(** Two retries on the Terminal whose Deployment is gone change nothing,
    and the third fails as well. *)
Lemma teardown_without_Deployment_is_stuck_witness :
  store (reconcileRepeatedly (TerminalReconciler.Reconcile testTerminalRequest)
           [[]; [None; Some StatusReasonConflict]] deploymentGoneCluster) =
    store deploymentGoneCluster ∧
  is_Some
    (TerminalReconciler.Reconcile testTerminalRequest
       (withFaults []
          (reconcileRepeatedly (TerminalReconciler.Reconcile testTerminalRequest)
             [[]; [None; Some StatusReasonConflict]] deploymentGoneCluster))).1.2 ∧
  store
    (TerminalReconciler.Reconcile testTerminalRequest
       (withFaults []
          (reconcileRepeatedly (TerminalReconciler.Reconcile testTerminalRequest)
             [[]; [None; Some StatusReasonConflict]] deploymentGoneCluster))).2 =
    store deploymentGoneCluster.
Proof.
  apply (teardown_without_Deployment_is_stuck testTerminalRequest deploymentGoneCluster
           deletedTerminal 1%nat [[]; [None; Some StatusReasonConflict]] []).
  - reflexivity.
  - reflexivity.
  - reflexivity.
  - reflexivity.
  - repeat constructor; discriminate.
  - constructor.
Defined.

Lemma GetOutcome_served_found k w r0 w1 o :
  GetOutcome k w r0 w1 → nextFault w = None → store w !! k = Some o →
  r0 = inr o ∧ store w1 = store w ∧ faults w1 = tail (faults w).
Proof.
  intros Hget Hf Hk. inversion Hget; subst; simpl; [congruence..|].
  split; [congruence|done].
Qed.




Lemma User_stuck_pass req w res err w' user t :
  store w !! (KUser, RequestNamespacedName req) = Some (ObjUser user) →
  GetDeletionTimestamp user = Some t →
  ContainsFinalizer user UserReconciler.UserServiceAccountFinalizer = true →
  store w !! storeKey (toObject (UserReconciler.serviceAccountForUser user)) = None →
  consistentFaults (faults w) →
  UserReconciler.Reconcile req w = ((res, err), w') →
  store w' = store w ∧ is_Some err.
Proof.
  intros Hstored Hdel HfA Habsent Hcons Hrun.
  apply User_Reconcile_inv in Hrun as (r0 & w1 & Hget & Hrest).
  destruct (GetOutcome_stored _ _ _ _ _ Hget Hcons Hstored)
    as [Hst1 [(e & -> & He)| ->]].
  { destruct Hrest as [-> ->]. done. }
  simpl in Hrest. destruct Hrest as (u1 & e1 & w2 & Hacc & Hrest).
  destruct (DerivedOutcome_teardown _ _ _ _ _ _ _ _ _ Hdel HfA Hacc)
    as (derr & HdelA & [(e & -> & -> & _)|(-> & -> & ->)]).
  - destruct Hrest as [-> ->]. split; [|done].
    rewrite <- Hst1. by eapply DeleteOutcome_failed.
  - apply DeleteOutcome_served_present in HdelA as [old Hold].
    rewrite Hst1 in Hold. congruence.
Qed.

(** X6: likewise a User that is marked for deletion, still carries the
    ServiceAccount finalizer, and whose ServiceAccount is not in the
    store is stuck: every retry fails, and the store stays as it is. *)
Theorem teardown_without_ServiceAccount_is_stuck (req : Request) (w : World)
    (user : User) (t : Time)
    (scripts : list (list (option StatusReason))) (fs : list (option StatusReason)) :
  let kA := (KServiceAccount, (Namespace (UserMeta user), Name (UserMeta user))) in
  let later := reconcileRepeatedly (UserReconciler.Reconcile req) scripts w in
  store w !! (KUser, RequestNamespacedName req) = Some (ObjUser user) →
  GetDeletionTimestamp user = Some t →
  ContainsFinalizer user UserReconciler.UserServiceAccountFinalizer = true →
  store w !! kA = None →
  Forall consistentFaults scripts → consistentFaults fs →
  store later = store w ∧
  is_Some (UserReconciler.Reconcile req (withFaults fs later)).1.2 ∧
  store (UserReconciler.Reconcile req (withFaults fs later)).2 = store w.
Proof.
  intros kA later Hstored Hdel HfA Habsent Hall Hfs.
  assert (∀ w0, store w0 = store w → consistentFaults (faults w0) →
            store (UserReconciler.Reconcile req w0).2 = store w ∧
            is_Some (UserReconciler.Reconcile req w0).1.2) as Hpass.
  { intros w0 Hw0 Hcons.
    destruct (UserReconciler.Reconcile req w0) as [[res err] w'] eqn:Hrun. simpl.
    rewrite <- Hw0 in Hstored, Habsent.
    destruct (User_stuck_pass _ _ _ _ _ _ _ Hstored Hdel HfA Habsent Hcons Hrun)
      as [Hst Herr].
    split; [congruence|done]. }
  assert (store later = store w) as Hlater.
  { apply reconcileRepeatedly_fixed; [|done..]. intros w0 Hw0 Hcons.
    by destruct (Hpass w0 Hw0 Hcons). }
  split; [done|].
  destruct (Hpass (withFaults fs later)) as [Hst Herr]; [done..|]. by split.
Qed.

(** Retries on the User whose ServiceAccount is gone. *)
Lemma teardown_without_ServiceAccount_is_stuck_witness :
  store (reconcileRepeatedly (UserReconciler.Reconcile testUserRequest) [[]; []]
           serviceAccountGoneCluster) = store serviceAccountGoneCluster ∧
  is_Some
    (UserReconciler.Reconcile testUserRequest
       (withFaults []
          (reconcileRepeatedly (UserReconciler.Reconcile testUserRequest) [[]; []]
             serviceAccountGoneCluster))).1.2.
Proof.
  destruct (teardown_without_ServiceAccount_is_stuck testUserRequest
              serviceAccountGoneCluster deletedUser 1%nat [[]; []] []) as (H1 & H2 & _).
  - reflexivity.
  - reflexivity.
  - reflexivity.
  - reflexivity.
  - repeat constructor.
  - constructor.
  - by split.
Defined.

(** ** What a pass over a live object leaves alone *)

Lemma CreateOutcome_keeps o w r w1 k old :
  CreateOutcome o w r w1 → store w !! k = Some old → store w1 !! k = Some old.
Proof.
  intros Hcr Hk. inversion Hcr; subst; simpl; [done..|].
  rewrite lookup_insert_ne; [done|]. congruence.
Qed.

Lemma roleBindingsLoop_live_preserves user roles w ret w1 k old :
  UserReconciler.roleBindingsLoop user false roles w = (ret, w1) →
  store w !! k = Some old → store w1 !! k = Some old.
Proof.
  revert w. induction roles as [|role roles IH]; intros w Hrun Hk; simpl in Hrun.
  { by run_inv Hrun. }
  run_inv Hrun. apply Create_outcome in Hcall.
  pose proof (CreateOutcome_keeps _ _ _ _ _ _ Hcall Hk) as Hk0.
  destruct a as [err|]; [by run_inv Hrest|by eapply IH].
Qed.

Lemma reconcileRoleBindings_live_preserves user w r w1 k old :
  GetDeletionTimestamp user = None →
  UserReconciler.reconcileRoleBindings user w = (r, w1) →
  store w !! k = Some old → store w1 !! k = Some old.
Proof.
  intros Hd. unfold UserReconciler.reconcileRoleBindings.
  rewrite Hd, bool_decide_eq_false_2 by (by intros [??]). intros Hrun Hk. run_inv Hrun.
  assert (w1 = w0) as -> by (by destruct a; run_inv Hrest).
  by eapply roleBindingsLoop_live_preserves.
Qed.

Lemma GetOutcome_found k w o w1 : GetOutcome k w (inr o) w1 → store w !! k = Some o.
Proof. by inversion 1. Qed.

Lemma fromObject_meta {A} `{LawfulObject A} (o : Object) (a : A) :
  fromObject o = Some a → getMeta a = objMeta o.
Proof. intros ->%fromObject_Some. by rewrite objMeta_toObject. Qed.

Lemma UpdateOutcome_other_kind o w r w1 k :
  UpdateOutcome o w r w1 → k.1 ≠ objKind o → store w1 !! k = store w !! k.
Proof.
  intros Hup Hk. eapply UpdateOutcome_frame; [done|]. intros ->. by apply Hk.
Qed.

Lemma live_pass_keeps (c : Controller) (req : Request) (w w' : World)
    (res : Result) (err : option error) (k : StoreKey) (o : Object) :
  c ∈ registered →
  (∀ p, store w !! (For c, RequestNamespacedName req) = Some p →
        DeletionTimestamp (objMeta p) = None) →
  Do c req w = ((res, err), w') →
  k.1 ≠ For c →
  store w !! k = Some o →
  store w' !! k = Some o.
Proof.
  intros [->| ->]%registered_inv Hlive Hrun Hkind Hk; simpl in *.
  - apply Terminal_Reconcile_inv in Hrun as (r0 & w1 & Hget & Hrest).
    pose proof (GetOutcome_store _ _ _ _ Hget) as Hst1.
    destruct r0 as [e|p]; [destruct Hrest as [_ ->]; by rewrite Hst1|].
    apply GetOutcome_found, Hlive in Hget.
    destruct (fromObject p) as [terminal|] eqn:Hp;
      [|destruct Hrest as [_ ->]; by rewrite Hst1].
    assert (GetDeletionTimestamp terminal = None) as Hd
      by (unfold GetDeletionTimestamp; by rewrite (fromObject_meta _ _ Hp)).
    destruct Hrest as (t1 & e1 & w2 & Hdep & Hrest).
    destruct (DerivedOutcome_live _ _ _ _ _ _ _ _ Hd Hdep) as (cerr & -> & -> & Hcr1).
    assert (store w2 !! k = Some o) as Hk2.
    { eapply CreateOutcome_keeps; [done|]. by rewrite Hst1. }
    destruct (IgnoreAlreadyExists cerr); [by destruct Hrest as [_ ->]|].
    destruct Hrest as (t2 & e2 & w3 & Hsvc & Hrest).
    assert (GetDeletionTimestamp
              (AddFinalizer terminal TerminalReconciler.TerminalDeploymentFinalizer) = None)
      as Hd1 by (by rewrite GetDeletionTimestamp_AddFinalizer).
    destruct (DerivedOutcome_live _ _ _ _ _ _ _ _ Hd1 Hsvc) as (serr & -> & -> & Hcr2).
    assert (store w3 !! k = Some o) as Hk3 by (by eapply CreateOutcome_keeps).
    destruct (IgnoreAlreadyExists serr); [by destruct Hrest as [_ ->]|].
    by rewrite (UpdateOutcome_other_kind _ _ _ _ _ Hrest).
  - apply User_Reconcile_inv in Hrun as (r0 & w1 & Hget & Hrest).
    pose proof (GetOutcome_store _ _ _ _ Hget) as Hst1.
    destruct r0 as [e|p]; [destruct Hrest as [_ ->]; by rewrite Hst1|].
    apply GetOutcome_found, Hlive in Hget.
    destruct (fromObject p) as [user|] eqn:Hp;
      [|destruct Hrest as [_ ->]; by rewrite Hst1].
    assert (GetDeletionTimestamp user = None) as Hd
      by (unfold GetDeletionTimestamp; by rewrite (fromObject_meta _ _ Hp)).
    destruct Hrest as (u1 & e1 & w2 & Hacc & Hrest).
    destruct (DerivedOutcome_live _ _ _ _ _ _ _ _ Hd Hacc) as (cerr & -> & -> & Hcr1).
    assert (store w2 !! k = Some o) as Hk2.
    { eapply CreateOutcome_keeps; [done|]. by rewrite Hst1. }
    destruct (IgnoreAlreadyExists cerr); [by destruct Hrest as [_ ->]|].
    destruct Hrest as (u2 & e2 & w3 & Hloop & Hrest).
    assert (GetDeletionTimestamp
              (AddFinalizer user UserReconciler.UserServiceAccountFinalizer) = None)
      as Hd1 by (by rewrite GetDeletionTimestamp_AddFinalizer).
    assert (store w3 !! k = Some o) as Hk3
      by (by eapply reconcileRoleBindings_live_preserves).
    destruct e2; [by destruct Hrest as [_ ->]|].
    by rewrite (UpdateOutcome_other_kind _ _ _ _ _ Hrest).
Qed.

(** X7: a pass over a primary object that is not marked for deletion
    only adds to the store and writes the primary object back: an object
    of another kind that is in the store already (a Deployment, a
    Service, a ServiceAccount, a RoleBinding, whoever made it and
    whatever it says) is left exactly as it is.  In particular a
    Deployment that was created for an earlier [spec.image] is never
    brought up to date. *)
Theorem live_pass_never_rewrites (c : Controller) (req : Request) (w w' : World)
    (res : Result) (err : option error) (k : StoreKey) (o : Object) :
  c ∈ registered →
  (∀ p, store w !! (For c, RequestNamespacedName req) = Some p →
        DeletionTimestamp (objMeta p) = None) →
  Do c req w = ((res, err), w') →
  k.1 ≠ For c →
  store w !! k = Some o →
  store w' !! k = Some o.
Proof. apply live_pass_keeps. Qed.

(** The Deployment of the earlier image survives the pass over the
    Terminal of the new image. *)
Lemma live_pass_never_rewrites_witness :
  Image (TerminalSpec_ testTerminal) = "busybox:1.36" ∧
  store (TerminalReconciler.Reconcile testTerminalRequest staleDeploymentCluster).2
    !! (KDeployment, ("marina-system", "marina-terminal-terminal-test")) =
    Some (ObjDeployment staleDeployment) ∧
  ContainerImage <$> Containers (TemplateSpec (Template (DeploymentSpec_ staleDeployment))) =
    ["busybox:1.35"].
Proof.
  split; [reflexivity|]. split; [|reflexivity].
  apply (live_pass_never_rewrites TerminalReconciler.SetupWithManager testTerminalRequest
           staleDeploymentCluster _
           (TerminalReconciler.Reconcile testTerminalRequest staleDeploymentCluster).1.1
           (TerminalReconciler.Reconcile testTerminalRequest staleDeploymentCluster).1.2).
  - apply list_elem_of_here.
  - intros p Hp. assert (p = ObjTerminal testTerminal) as ->
      by (injection Hp as <-; reflexivity).
    reflexivity.
  - apply run_eq. vm_compute. reflexivity.
  - discriminate.
  - reflexivity.
Defined.

(** ** The early return of the binding loop *)

Lemma CreateOutcome_present o w r w1 :
  CreateOutcome o w r w1 → is_Some (store w !! storeKey o) →
  store w1 = store w ∧ is_Some r ∧
  (nextFault w = None → r = Some (StatusError StatusReasonAlreadyExists)).
Proof.
  intros Hcr [old Hold]. inversion Hcr; subst; simpl.
  - split_and!; [done..|]. congruence.
  - done.
  - congruence.
Qed.

Lemma roleBindingsLoop_present user role others w ret w1 :
  is_Some (store w !! bindingKey user role) →
  UserReconciler.roleBindingsLoop user false (role :: others) w = (ret, w1) →
  store w1 = store w ∧ faults w1 = tail (faults w) ∧
  ∃ cerr, ret = Some (IgnoreAlreadyExists (Some cerr)) ∧
          (nextFault w = None → cerr = StatusError StatusReasonAlreadyExists).
Proof.
  intros Hpresent Hrun. simpl in Hrun. run_inv Hrun. apply Create_outcome in Hcall.
  pose proof (CreateOutcome_faults _ _ _ _ Hcall) as Hf.
  destruct (CreateOutcome_present _ _ _ _ Hcall Hpresent) as (Hst & [cerr ->] & Hexists).
  run_inv Hrest. split_and!; [done..|]. exists cerr. split; [done|].
  intros Hnf. by injection (Hexists Hnf).
Qed.

Lemma reconcileRoleBindings_live_run user w r w1 :
  GetDeletionTimestamp user = None →
  UserReconciler.reconcileRoleBindings user w = (r, w1) →
  let added := AddFinalizer user UserReconciler.UserRoleBindingFinalizer in
  ∃ ret,
    UserReconciler.roleBindingsLoop added false (Roles (UserSpec_ user)) w = (ret, w1) ∧
    r = (added, default None ret).
Proof.
  intros Hd. unfold UserReconciler.reconcileRoleBindings.
  rewrite Hd, bool_decide_eq_false_2 by (by intros [??]). intros Hrun. run_inv Hrun.
  exists a. destruct a as [e|]; run_inv Hrest; by split.
Qed.

(** X8: once the binding of the first role of the list exists, the
    binding loop of a live User ends at its first step: the [Create]
    answers [AlreadyExists], and [client.IgnoreAlreadyExists] is
    returned from inside the loop.  So a pass over such a User leaves
    every RoleBinding of the store as it is (a role added to the list
    later is never bound), and on a store that serves every call it
    reports success all the same. *)
Theorem added_roles_are_never_bound (req : Request) (w w' : World) (res : Result)
    (err : option error) (user : User) (role : string) (others : list string) :
  let key := RequestNamespacedName req in
  store w !! (KUser, key) = Some (ObjUser user) →
  storeKey (ObjUser user) = (KUser, key) →
  GetDeletionTimestamp user = None →
  Roles (UserSpec_ user) = role :: others →
  is_Some (store w !! bindingKey user role) →
  UserReconciler.Reconcile req w = ((res, err), w') →
  (∀ k, k.1 = KRoleBinding → store w' !! k = store w !! k) ∧
  (faultFree w → err = None).
Proof.
  intros key Hstored Hkey Hd Hroles Hpresent Hrun. subst key.
  apply User_Reconcile_inv in Hrun as (r0 & w1 & Hget & Hrest).
  pose proof (GetOutcome_store _ _ _ _ Hget) as Hst1.
  pose proof (GetOutcome_faults _ _ _ _ Hget) as Hf1.
  destruct r0 as [e|p].
  { destruct Hrest as [-> ->]. split; [intros; by rewrite Hst1|].
    intros Hff. inversion Hget; subst.
    - rewrite faultFree_nextFault in * by done. done.
    - congruence. }
  apply GetOutcome_found in Hget as Hp. rewrite Hstored in Hp.
  injection Hp as <-. simpl in Hrest.
  destruct Hrest as (u1 & e1 & w2 & Hacc & Hrest).
  destruct (DerivedOutcome_live _ _ _ _ _ _ _ _ Hd Hacc) as (cerr & -> & -> & Hcr1).
  pose proof (CreateOutcome_frame _ _ _ _ Hcr1) as Hframe1.
  pose proof (CreateOutcome_faults _ _ _ _ Hcr1) as Hf2.
  assert (∀ k, k.1 = KRoleBinding → store w2 !! k = store w !! k) as Hst2.
  { intros k Hk. rewrite Hframe1, Hst1; [done|]. intros ->. done. }
  assert (faultFree w → IgnoreAlreadyExists cerr = None) as Hok1.
  { intros Hff. unfold faultFree in Hff. inversion Hcr1; subst; simpl; try done.
    match goal with H : nextFault w1 = Some _ |- _ =>
      unfold nextFault in H; rewrite Hf1, Hff in H; done end. }
  destruct (IgnoreAlreadyExists cerr) as [e|].
  { destruct Hrest as [-> ->]. split; [done|]. intros Hff. by specialize (Hok1 Hff). }
  destruct Hrest as (u2 & e2 & w3 & Hloop & Hrest).
  set (u1 := AddFinalizer user UserReconciler.UserServiceAccountFinalizer) in *.
  assert (GetDeletionTimestamp u1 = None) as Hd1
    by (unfold u1; by rewrite GetDeletionTimestamp_AddFinalizer).
  destruct (reconcileRoleBindings_live_run _ _ _ _ Hd1 Hloop) as (ret & Hcall & [= -> ->]).
  change (Roles (UserSpec_ u1)) with (Roles (UserSpec_ user)) in Hcall.
  rewrite Hroles in Hcall.
  apply roleBindingsLoop_present in Hcall as (Hst3 & Hf3 & cerr2 & -> & Hexists).
  2:{ rewrite bindingKey_AddFinalizer. unfold u1. rewrite bindingKey_AddFinalizer.
      rewrite Hst2 by done. done. }
  change (default None (Some ?x)) with x in Hrest.
  destruct (IgnoreAlreadyExists (Some cerr2)) as [e|] eqn:Hign.
  { destruct Hrest as [-> ->]. split; [intros; rewrite Hst3; by apply Hst2|].
    intros Hff. unfold faultFree in Hff. rewrite Hexists in Hign; [done|].
    unfold nextFault. by rewrite Hf2, Hf1, Hff. }
  assert (storeKey (ObjUser (AddFinalizer u1 UserReconciler.UserRoleBindingFinalizer)) =
          (KUser, RequestNamespacedName req)) as Hk2.
  { unfold u1. change (ObjUser ?x) with (toObject x).
    by rewrite !storeKey_AddFinalizer. }
  split.
  - intros k Hk. rewrite (UpdateOutcome_other_kind _ _ _ _ _ Hrest), Hst3; [by apply Hst2|].
    rewrite Hk. done.
  - intros Hff. unfold faultFree in Hff. inversion Hrest; subst; try done.
    + match goal with H : nextFault w3 = Some _ |- _ =>
        unfold nextFault in H; rewrite Hf3, Hf2, Hf1, Hff in H; done end.
    + assert (store w3 !! (KUser, RequestNamespacedName req) = None) as Habs.
      { rewrite <- Hk2. match goal with H : store w3 !! _ = None |- _ => exact H end. }
      rewrite Hst3, Hframe1, Hst1 in Habs by done. congruence.
Qed.

(** The User whose list of roles has grown: the pass succeeds and binds
    nothing. *)
Lemma added_roles_are_never_bound_witness :
  (UserReconciler.Reconcile testUserRequest grownCluster).1 = (zeroResult, None) ∧
  store (UserReconciler.Reconcile testUserRequest grownCluster).2
    !! bindingKey grownUser "AnotherRole" = None.
Proof.
  assert (UserReconciler.Reconcile testUserRequest grownCluster =
            ((zeroResult, None),
             (UserReconciler.Reconcile testUserRequest grownCluster).2)) as Hrun
    by (apply run_eq; vm_compute; reflexivity).
  split; [by rewrite Hrun|].
  destruct (added_roles_are_never_bound testUserRequest grownCluster
              (UserReconciler.Reconcile testUserRequest grownCluster).2 zeroResult None
              grownUser "SomeRole" ["AnotherRole"]) as [Hsame _];
    [reflexivity|reflexivity|reflexivity|reflexivity|by eexists|exact Hrun|].
  rewrite Hsame by reflexivity. reflexivity.
Defined.

(** ** The calls of a pass *)

Lemma GetOutcome_event k w r0 w1 : GetOutcome k w r0 w1 → ∃ rsn, emitted w w1 [mkEvent VerbGet k rsn].
Proof. intros Hget. eexists. by eapply GetOutcome_emitted. Qed.

Lemma owned_events (owns : list Kind) (k : StoreKey) (evs : list Event) :
  k.1 ∈ owns →
  Forall (λ ev, (evVerb ev = VerbCreate ∨ evVerb ev = VerbDelete) ∧
                (evKind ev, evKey ev) = k) evs →
  Forall (λ ev, evKind ev ∈ owns ∧ (evVerb ev = VerbCreate ∨ evVerb ev = VerbDelete)) evs.
Proof.
  intros Hk Hall. eapply Forall_impl; [done|]. intros ev [Hverb Hkey]. split; [|done].
  by rewrite <- Hkey in Hk.
Qed.

Lemma passShape_get c req rsn :
  passShape c req [mkEvent VerbGet (For c, RequestNamespacedName req) rsn].
Proof. exists rsn, [], []. split_and!; [done|constructor|by left]. Qed.

Lemma passShape_owned c req rsn owned :
  Forall (λ ev, evKind ev ∈ Owns c ∧ (evVerb ev = VerbCreate ∨ evVerb ev = VerbDelete))
    owned →
  passShape c req (mkEvent VerbGet (For c, RequestNamespacedName req) rsn :: owned).
Proof. intros Hall. exists rsn, owned, []. by rewrite app_nil_r; split_and!; [| |left]. Qed.

Lemma Terminal_pass_shape req w res err w' :
  TerminalReconciler.Reconcile req w = ((res, err), w') →
  ∃ evs, emitted w w' evs ∧ passShape TerminalReconciler.SetupWithManager req evs.
Proof.
  intros (r0 & w1 & Hget & Hrest)%Terminal_Reconcile_inv.
  apply GetOutcome_event in Hget as [rsn Hev].
  destruct r0 as [e|o];
    [destruct Hrest as [-> ->]; eexists; split; [done|apply passShape_get]|].
  destruct (fromObject o) as [terminal|];
    [|destruct Hrest as [-> ->]; eexists; split; [done|apply passShape_get]].
  destruct Hrest as (t1 & e1 & w2 & Hdep & Hrest).
  apply DerivedOutcome_events in Hdep as (evs1 & Hevs1 & Hall1).
  apply (owned_events [KService; KDeployment]) in Hall1;
    [|apply list_elem_of_further, list_elem_of_here].
  destruct e1 as [e|].
  { destruct Hrest as [-> ->]. eexists.
    split; [apply (emitted_trans _ _ _ [_] _ Hev Hevs1)|]. by apply passShape_owned. }
  destruct Hrest as (t2 & e2 & w3 & Hsvc & Hrest).
  apply DerivedOutcome_events in Hsvc as (evs2 & Hevs2 & Hall2).
  apply (owned_events [KService; KDeployment]) in Hall2; [|apply list_elem_of_here].
  pose proof (emitted_trans _ _ _ _ _ (emitted_trans _ _ _ [_] _ Hev Hevs1) Hevs2) as Hevs.
  assert (Forall (λ ev, evKind ev ∈ [KService; KDeployment] ∧
                        (evVerb ev = VerbCreate ∨ evVerb ev = VerbDelete)) (evs1 ++ evs2))
    as Hall by (by apply Forall_app).
  destruct e2 as [e|].
  { destruct Hrest as [-> ->]. eexists. split; [done|].
    simpl. by apply passShape_owned. }
  pose proof (UpdateOutcome_emitted _ _ _ _ Hrest) as Hup.
  eexists. split; [apply (emitted_trans _ _ _ _ _ Hevs Hup)|].
  exists rsn, (evs1 ++ evs2), [mkEvent VerbUpdate (storeKey (ObjTerminal t2)) (ReasonForError <$> err)].
  split_and!; [done|done|].
  right. by exists (storeKey (ObjTerminal t2)).2, (ReasonForError <$> err).
Qed.

Lemma User_pass_shape req w res err w' :
  UserReconciler.Reconcile req w = ((res, err), w') →
  ∃ evs, emitted w w' evs ∧ passShape UserReconciler.SetupWithManager req evs.
Proof.
  intros (r0 & w1 & Hget & Hrest)%User_Reconcile_inv.
  apply GetOutcome_event in Hget as [rsn Hev].
  destruct r0 as [e|o];
    [destruct Hrest as [-> ->]; eexists; split; [done|apply passShape_get]|].
  destruct (fromObject o) as [user|];
    [|destruct Hrest as [-> ->]; eexists; split; [done|apply passShape_get]].
  destruct Hrest as (u1 & e1 & w2 & Hacc & Hrest).
  apply DerivedOutcome_events in Hacc as (evs1 & Hevs1 & Hall1).
  apply (owned_events [KServiceAccount; KRole; KRoleBinding]) in Hall1;
    [|apply list_elem_of_here].
  destruct e1 as [e|].
  { destruct Hrest as [-> ->]. eexists.
    split; [apply (emitted_trans _ _ _ [_] _ Hev Hevs1)|]. by apply passShape_owned. }
  destruct Hrest as (u2 & e2 & w3 & Hloop & Hrest).
  apply reconcileRoleBindings_events in Hloop as (evs2 & Hevs2 & _ & Hall2).
  assert (Forall (λ ev, evKind ev ∈ [KServiceAccount; KRole; KRoleBinding] ∧
                        (evVerb ev = VerbCreate ∨ evVerb ev = VerbDelete)) evs2) as Hall2'.
  { eapply Forall_impl; [done|]. intros ev (Hverb & role & _ & Hkey). split; [|done].
    assert (evKind ev = KRoleBinding) as -> by (by injection Hkey).
    apply list_elem_of_further, list_elem_of_further, list_elem_of_here. }
  pose proof (emitted_trans _ _ _ _ _ (emitted_trans _ _ _ [_] _ Hev Hevs1) Hevs2) as Hevs.
  assert (Forall (λ ev, evKind ev ∈ [KServiceAccount; KRole; KRoleBinding] ∧
                        (evVerb ev = VerbCreate ∨ evVerb ev = VerbDelete)) (evs1 ++ evs2))
    as Hall by (by apply Forall_app).
  destruct e2 as [e|].
  { destruct Hrest as [-> ->]. eexists. split; [done|].
    simpl. by apply passShape_owned. }
  pose proof (UpdateOutcome_emitted _ _ _ _ Hrest) as Hup.
  eexists. split; [apply (emitted_trans _ _ _ _ _ Hevs Hup)|].
  exists rsn, (evs1 ++ evs2), [mkEvent VerbUpdate (storeKey (ObjUser u2)) (ReasonForError <$> err)].
  split_and!; [done|done|].
  right. by exists (storeKey (ObjUser u2)).2, (ReasonForError <$> err).
Qed.

(** X9: the calls of a pass follow what [SetupWithManager] registers.
    Every pass of a current reconciler starts with the [Get] of the
    primary object named by the request; after that it only creates and
    deletes objects of kinds the controller [Owns] (it never reads or
    lists them, and never updates them); and it writes the primary
    object at most once, with an [Update] that is the last call of the
    pass. *)
Theorem calls_follow_registration (c : Controller) (req : Request) (w w' : World)
    (res : Result) (err : option error) :
  c ∈ registered →
  Do c req w = ((res, err), w') →
  ∃ evs, emitted w w' evs ∧ passShape c req evs.
Proof.
  intros [->| ->]%registered_inv Hrun; simpl in Hrun.
  - by eapply Terminal_pass_shape.
  - by eapply User_pass_shape.
Qed.

(** The first pass over the test Terminal: a [Get], two [Create]s of
    owned kinds, and the [Update]. *)
Lemma calls_follow_registration_witness :
  ∃ evs, emitted newTerminalCluster reconciledCluster evs ∧
         passShape TerminalReconciler.SetupWithManager testTerminalRequest evs.
Proof.
  apply (calls_follow_registration TerminalReconciler.SetupWithManager testTerminalRequest
           newTerminalCluster reconciledCluster zeroResult None).
  - apply list_elem_of_here.
  - apply run_eq. vm_compute. reflexivity.
Defined.

(** ** The objects a pass can touch *)

Lemma stored_primary {A} `{LawfulObject A} st key o (a : A) :
  wellKeyed st → st !! (kindOf A, key) = Some o → fromObject o = Some a →
  (Namespace (getMeta a), Name (getMeta a)) = key.
Proof.
  intros Hwf Hk Ha. apply (wellKeyed_lookup _ _ _ Hwf) in Hk.
  apply fromObject_Some in Ha as ->. rewrite storeKey_toObject in Hk. congruence.
Qed.

Lemma DerivedOutcome_result_key {A D} `{LawfulObject A} `{ClientObject D}
    finalizer (desired : D) wrap (obj : A) w r w1 :
  DerivedOutcome finalizer desired wrap obj w r w1 →
  storeKey (toObject r.1) = storeKey (toObject obj).
Proof.
  intros [->|[->| ->]]%DerivedOutcome_result;
    [done|apply storeKey_RemoveFinalizer|apply storeKey_AddFinalizer].
Qed.

(** X10: a pass of the Terminal reconciler touches at most three
    objects: the Terminal named by the request, and the Deployment and
    the Service whose name is "marina-terminal-" followed by that name,
    in the same namespace.  Everything else in the store, the objects
    of other Terminals included, is as it was, whatever the pass
    returns. *)
Theorem Terminal_pass_frame (req : Request) (w w' : World) (res : Result)
    (err : option error) (k : StoreKey) :
  let ns := (RequestNamespacedName req).1 in
  let name := (RequestNamespacedName req).2 in
  wellKeyed (store w) →
  TerminalReconciler.Reconcile req w = ((res, err), w') →
  k ≠ (KTerminal, (ns, name)) →
  k ≠ (KDeployment, (ns, "marina-terminal-" +:+ name)) →
  k ≠ (KService, (ns, "marina-terminal-" +:+ name)) →
  store w' !! k = store w !! k.
Proof.
  intros ns name Hwf Hrun HkT HkD HkS.
  apply Terminal_Reconcile_inv in Hrun as (r0 & w1 & Hget & Hrest).
  pose proof (GetOutcome_store _ _ _ _ Hget) as Hst1.
  destruct r0 as [e|o]; [destruct Hrest as [_ ->]; by rewrite Hst1|].
  apply GetOutcome_found in Hget.
  destruct (fromObject o) as [terminal|] eqn:Ho;
    [|destruct Hrest as [_ ->]; by rewrite Hst1].
  pose proof (stored_primary (A:=Terminal) _ _ _ _ Hwf Hget Ho) as Hkey.
  destruct (RequestNamespacedName req) as [ns' name'] eqn:Hreq.
  simpl in ns, name. subst ns name. injection Hkey as Hns Hname.
  cbn [getMeta Terminal_object] in Hns, Hname.
  destruct Hrest as (t1 & e1 & w2 & Hdep & Hrest).
  pose proof (DerivedOutcome_frame _ _ _ _ _ _ _ Hdep k) as Hf1.
  rewrite storeKey_deploymentForTerminal, Hns, Hname in Hf1.
  pose proof (DerivedOutcome_result_key _ _ _ _ _ _ _ Hdep) as Hk1. cbn [fst] in Hk1.
  assert (TerminalReconciler.serviceForTerminal t1 =
          TerminalReconciler.serviceForTerminal terminal) as Hsvc1.
  { pose proof (DerivedOutcome_result _ _ _ _ _ _ _ Hdep) as Hres. simpl in Hres.
    destruct Hres as [->|[->| ->]];
      [done|apply serviceForTerminal_RemoveFinalizer|apply serviceForTerminal_AddFinalizer]. }
  destruct e1 as [e|]; [destruct Hrest as [_ ->]; by rewrite Hf1, Hst1|].
  destruct Hrest as (t2 & e2 & w3 & Hsvc & Hrest).
  pose proof (DerivedOutcome_frame _ _ _ _ _ _ _ Hsvc k) as Hf2.
  rewrite Hsvc1, storeKey_serviceForTerminal, Hns, Hname in Hf2.
  pose proof (DerivedOutcome_result_key _ _ _ _ _ _ _ Hsvc) as Hk2. cbn [fst] in Hk2.
  destruct e2 as [e|]; [destruct Hrest as [_ ->]; by rewrite Hf2, Hf1, Hst1|].
  assert (k ≠ storeKey (ObjTerminal t2)) as HkT2.
  { change (ObjTerminal t2) with (toObject t2). rewrite Hk2, Hk1.
    rewrite (storeKey_toObject terminal). cbn [kindOf getMeta Terminal_object].
    by rewrite Hns, Hname. }
  by rewrite (UpdateOutcome_frame _ _ _ _ Hrest), Hf2, Hf1, Hst1.
Qed.

(** X11: a pass of the User reconciler touches at most the User named
    by the request, the ServiceAccount of the same name, and
    RoleBindings whose name is that name, a dash and a role.
    Everything else in the store is as it was, whatever the pass
    returns. *)
Theorem User_pass_frame (req : Request) (w w' : World) (res : Result)
    (err : option error) (k : StoreKey) :
  let ns := (RequestNamespacedName req).1 in
  let name := (RequestNamespacedName req).2 in
  wellKeyed (store w) →
  UserReconciler.Reconcile req w = ((res, err), w') →
  k ≠ (KUser, (ns, name)) →
  k ≠ (KServiceAccount, (ns, name)) →
  (∀ role, k ≠ (KRoleBinding, (ns, name +:+ "-" +:+ role))) →
  store w' !! k = store w !! k.
Proof.
  intros ns name Hwf Hrun HkU HkA HkB.
  apply User_Reconcile_inv in Hrun as (r0 & w1 & Hget & Hrest).
  pose proof (GetOutcome_store _ _ _ _ Hget) as Hst1.
  destruct r0 as [e|o]; [destruct Hrest as [_ ->]; by rewrite Hst1|].
  apply GetOutcome_found in Hget.
  destruct (fromObject o) as [user|] eqn:Ho;
    [|destruct Hrest as [_ ->]; by rewrite Hst1].
  pose proof (stored_primary (A:=User) _ _ _ _ Hwf Hget Ho) as Hkey.
  destruct (RequestNamespacedName req) as [ns' name'] eqn:Hreq.
  simpl in ns, name. subst ns name. injection Hkey as Hns Hname.
  cbn [getMeta User_object] in Hns, Hname.
  destruct Hrest as (u1 & e1 & w2 & Hacc & Hrest).
  pose proof (DerivedOutcome_frame _ _ _ _ _ _ _ Hacc k) as Hf1.
  rewrite storeKey_serviceAccountForUser, Hns, Hname in Hf1.
  pose proof (DerivedOutcome_result_key _ _ _ _ _ _ _ Hacc) as Hk1. cbn [fst] in Hk1.
  assert (∀ role, bindingKey u1 role = bindingKey user role) as Hbk.
  { intros role. pose proof (DerivedOutcome_result _ _ _ _ _ _ _ Hacc) as Hres.
    simpl in Hres. destruct Hres as [->|[->| ->]];
      [done|apply bindingKey_RemoveFinalizer|apply bindingKey_AddFinalizer]. }
  assert (∀ role, bindingKey user role = (KRoleBinding, (ns', name' +:+ "-" +:+ role)))
    as Hbk0.
  { intros role. unfold bindingKey, storeKey, ObjectKeyFromObject. simpl.
    by rewrite Hns, Hname. }
  destruct e1 as [e|]; [destruct Hrest as [_ ->]; by rewrite Hf1, Hst1|].
  destruct Hrest as (u2 & e2 & w3 & Hloop & Hrest).
  pose proof (reconcileRoleBindings_frame _ _ _ _ Hloop k) as Hf2.
  assert (store w3 !! k = store w2 !! k) as Hf2'.
  { apply Hf2. intros role _. rewrite Hbk, Hbk0. apply HkB. }
  assert (storeKey (ObjUser u2) = storeKey (ObjUser u1)) as Hk2.
  { destruct (decide (is_Some (GetDeletionTimestamp u1))) as [[t Ht]|Hlive].
    - destruct e2 as [e|].
      + unfold UserReconciler.reconcileRoleBindings in Hloop.
        rewrite Ht, bool_decide_eq_true_2 in Hloop by done. run_inv Hloop.
        by destruct a as [[?|]|]; run_inv Hrest0.
      + rewrite (reconcileRoleBindings_teardown _ _ _ _ _ Ht Hloop).
        change (ObjUser ?x) with (toObject x). apply storeKey_RemoveFinalizer.
    - assert (GetDeletionTimestamp u1 = None) as Hd
        by (destruct (GetDeletionTimestamp u1); [by destruct Hlive|done]).
      destruct (reconcileRoleBindings_live_run _ _ _ _ Hd Hloop) as (ret & _ & Heq).
      apply (f_equal fst) in Heq. cbn [fst] in Heq. rewrite Heq.
      change (ObjUser ?x) with (toObject x). apply storeKey_AddFinalizer. }
  destruct e2 as [e|]; [destruct Hrest as [_ ->]; by rewrite Hf2', Hf1, Hst1|].
  assert (k ≠ storeKey (ObjUser u2)) as HkU2.
  { rewrite Hk2. change (ObjUser u1) with (toObject u1). rewrite Hk1.
    rewrite (storeKey_toObject user). cbn [kindOf getMeta User_object].
    by rewrite Hns, Hname. }
  by rewrite (UpdateOutcome_frame _ _ _ _ Hrest), Hf2', Hf1, Hst1.
Qed.

(** The pass over the test Terminal leaves the other Terminal and its
    Deployment alone. *)
Lemma Terminal_pass_frame_witness :
  store (TerminalReconciler.Reconcile testTerminalRequest twoTerminalsCluster).2
    !! (KDeployment, ("marina-system", "marina-terminal-other")) =
  store twoTerminalsCluster !! (KDeployment, ("marina-system", "marina-terminal-other")).
Proof.
  apply (Terminal_pass_frame testTerminalRequest twoTerminalsCluster _
           (TerminalReconciler.Reconcile testTerminalRequest twoTerminalsCluster).1.1
           (TerminalReconciler.Reconcile testTerminalRequest twoTerminalsCluster).1.2).
  - apply wellKeyed_clusterOf.
  - apply run_eq. vm_compute. reflexivity.
  - discriminate.
  - discriminate.
  - discriminate.
Defined.

(** The pass over the test User leaves the Role alone. *)
Lemma User_pass_frame_witness :
  store (UserReconciler.Reconcile testUserRequest orphanCluster).2
    !! (KRole, ("marina-system", "SomeRole")) =
  store orphanCluster !! (KRole, ("marina-system", "SomeRole")).
Proof.
  apply (User_pass_frame testUserRequest orphanCluster _
           (UserReconciler.Reconcile testUserRequest orphanCluster).1.1
           (UserReconciler.Reconcile testUserRequest orphanCluster).1.2).
  - apply wellKeyed_clusterOf.
  - apply run_eq. vm_compute. reflexivity.
  - discriminate.
  - discriminate.
  - discriminate.
Defined.

(** ** What the final [Update] writes *)

(** X12: after a pass that succeeds on a primary object that is not
    marked for deletion, the store holds that object with the two
    finalizers of its reconciler added (each once, after the finalizers
    it had) and with nothing else changed: its spec, its labels and the
    finalizers of others are as they were. *)
Theorem live_pass_persists_finalizers (req : Request) (w w' : World) (res : Result) :
  let key := RequestNamespacedName req in
  consistentFaults (faults w) →
  (∀ terminal,
     store w !! (KTerminal, key) = Some (ObjTerminal terminal) →
     storeKey (ObjTerminal terminal) = (KTerminal, key) →
     GetDeletionTimestamp terminal = None →
     TerminalReconciler.Reconcile req w = ((res, None), w') →
     store w' !! (KTerminal, key) =
     Some (ObjTerminal
             (AddFinalizer
                (AddFinalizer terminal TerminalReconciler.TerminalDeploymentFinalizer)
                TerminalReconciler.TerminalServiceFinalizer))) ∧
  (∀ user,
     store w !! (KUser, key) = Some (ObjUser user) →
     storeKey (ObjUser user) = (KUser, key) →
     GetDeletionTimestamp user = None →
     UserReconciler.Reconcile req w = ((res, None), w') →
     store w' !! (KUser, key) =
     Some (ObjUser
             (AddFinalizer
                (AddFinalizer user UserReconciler.UserServiceAccountFinalizer)
                UserReconciler.UserRoleBindingFinalizer))).
Proof.
  intros key Hcons. subst key. split.
  - intros terminal Hstored Hkey Hd Hrun.
    apply Terminal_Reconcile_inv in Hrun as (r0 & w1 & Hget & Hrest).
    destruct (GetOutcome_stored _ _ _ _ _ Hget Hcons Hstored)
      as [Hst1 [(e & -> & [e' He])| ->]].
    { destruct Hrest as [Herr _]. congruence. }
    simpl in Hrest. destruct Hrest as (t1 & e1 & w2 & Hdep & Hrest).
    destruct (DerivedOutcome_live _ _ _ _ _ _ _ _ Hd Hdep) as (cerr & -> & -> & _).
    destruct (IgnoreAlreadyExists cerr); [by destruct Hrest|].
    destruct Hrest as (t2 & e2 & w3 & Hsvc & Hrest).
    assert (GetDeletionTimestamp
              (AddFinalizer terminal TerminalReconciler.TerminalDeploymentFinalizer) = None)
      as Hd1 by (by rewrite GetDeletionTimestamp_AddFinalizer).
    destruct (DerivedOutcome_live _ _ _ _ _ _ _ _ Hd1 Hsvc) as (serr & -> & -> & _).
    destruct (IgnoreAlreadyExists serr); [by destruct Hrest|].
    set (t2 := AddFinalizer (AddFinalizer terminal _) _) in *.
    assert (GetDeletionTimestamp t2 = None) as Hd2
      by (unfold t2; by rewrite !GetDeletionTimestamp_AddFinalizer).
    change (ObjTerminal t2) with (toObject t2) in Hrest.
    rewrite (UpdateOutcome_live _ _ _ _ Hd2 Hrest eq_refl).
    unfold t2 at 1. rewrite !storeKey_AddFinalizer.
    change (toObject terminal) with (ObjTerminal terminal). rewrite Hkey.
    apply lookup_insert_eq.
  - intros user Hstored Hkey Hd Hrun.
    apply User_Reconcile_inv in Hrun as (r0 & w1 & Hget & Hrest).
    destruct (GetOutcome_stored _ _ _ _ _ Hget Hcons Hstored)
      as [Hst1 [(e & -> & [e' He])| ->]].
    { destruct Hrest as [Herr _]. congruence. }
    simpl in Hrest. destruct Hrest as (u1 & e1 & w2 & Hacc & Hrest).
    destruct (DerivedOutcome_live _ _ _ _ _ _ _ _ Hd Hacc) as (cerr & -> & -> & _).
    destruct (IgnoreAlreadyExists cerr); [by destruct Hrest|].
    destruct Hrest as (u2 & e2 & w3 & Hloop & Hrest).
    destruct e2 as [e|]; [by destruct Hrest|].
    assert (GetDeletionTimestamp
              (AddFinalizer user UserReconciler.UserServiceAccountFinalizer) = None)
      as Hd1 by (by rewrite GetDeletionTimestamp_AddFinalizer).
    destruct (reconcileRoleBindings_live _ _ _ _ Hd1 Hloop) as [-> _].
    set (u2 := AddFinalizer (AddFinalizer user _) _) in *.
    assert (GetDeletionTimestamp u2 = None) as Hd2
      by (unfold u2; by rewrite !GetDeletionTimestamp_AddFinalizer).
    change (ObjUser u2) with (toObject u2) in Hrest.
    rewrite (UpdateOutcome_live _ _ _ _ Hd2 Hrest eq_refl).
    unfold u2 at 1. rewrite !storeKey_AddFinalizer.
    change (toObject user) with (ObjUser user). rewrite Hkey.
    apply lookup_insert_eq.
Qed.

(** The first pass over the test Terminal stores it with both
    finalizers. *)
Lemma live_pass_persists_finalizers_witness :
  store reconciledCluster !! (KTerminal, ("marina-system", "terminal-test")) =
    Some (ObjTerminal
            (AddFinalizer
               (AddFinalizer testTerminal TerminalReconciler.TerminalDeploymentFinalizer)
               TerminalReconciler.TerminalServiceFinalizer)) ∧
  Finalizers
    (TerminalMeta
       (AddFinalizer
          (AddFinalizer testTerminal TerminalReconciler.TerminalDeploymentFinalizer)
          TerminalReconciler.TerminalServiceFinalizer)) =
    ["marina.io.deployment/finalizer"; "marina.io.service/finalizer"].
Proof.
  split; [|reflexivity].
  apply (proj1 (live_pass_persists_finalizers testTerminalRequest newTerminalCluster
                  reconciledCluster zeroResult consistentFaults_nil) testTerminal).
  - reflexivity.
  - reflexivity.
  - reflexivity.
  - apply run_eq. vm_compute. reflexivity.
Defined.

(** ** Names of derived objects *)

Lemma append_dash_assoc (n s r : string) :
  (n +:+ "-" +:+ s) +:+ "-" +:+ r = n +:+ "-" +:+ (s +:+ "-" +:+ r).
Proof.
  induction n as [|x n IH]; [reflexivity|].
  change (String x ((n +:+ "-" +:+ s) +:+ "-" +:+ r) =
          String x (n +:+ "-" +:+ (s +:+ "-" +:+ r))).
  by rewrite IH.
Qed.

Lemma bindingKey_eq user role :
  bindingKey user role =
  (KRoleBinding, (Namespace (UserMeta user), Name (UserMeta user) +:+ "-" +:+ role)).
Proof. done. Qed.

Lemma append_neq_l (a b : string) : b ≠ "" → a +:+ b ≠ a.
Proof.
  intros Hb. induction a as [|x a IH]; [done|].
  change (String x (a +:+ b) ≠ String x a). intros [= Heq]. by apply IH.
Qed.

(** X13: the name of a RoleBinding, [user.Name + "-" + role], does not
    tell the User from the role.  For a User named [n] with a role
    ["s-r"] and a User of the same namespace named ["n-s"] with the role
    [r], the reconciler builds two different bindings (other subject,
    other Role) under one and the same name.  Whichever is created first
    stays: a pass over the second User, while it is not marked for
    deletion, finds the name taken and leaves the binding of the first
    as it is. *)
Theorem binding_names_collide (u u' : User) (s r : string) :
  Namespace (UserMeta u') = Namespace (UserMeta u) →
  Name (UserMeta u') = Name (UserMeta u) +:+ "-" +:+ s →
  bindingKey u' r = bindingKey u (s +:+ "-" +:+ r) ∧
  UserReconciler.userRoleBindingForRole u' r ≠
    UserReconciler.userRoleBindingForRole u (s +:+ "-" +:+ r) ∧
  ∀ req w res err w',
    store w !! (KUser, RequestNamespacedName req) = Some (ObjUser u') →
    GetDeletionTimestamp u' = None →
    store w !! bindingKey u (s +:+ "-" +:+ r) =
      Some (ObjRoleBinding (UserReconciler.userRoleBindingForRole u (s +:+ "-" +:+ r))) →
    UserReconciler.Reconcile req w = ((res, err), w') →
    store w' !! bindingKey u' r =
      Some (ObjRoleBinding (UserReconciler.userRoleBindingForRole u (s +:+ "-" +:+ r))).
Proof.
  intros Hns Hname.
  assert (bindingKey u' r = bindingKey u (s +:+ "-" +:+ r)) as Hkey.
  { by rewrite !bindingKey_eq, Hns, Hname, append_dash_assoc. }
  split; [done|]. split.
  - unfold UserReconciler.userRoleBindingForRole. intros [= _ _ Hsubject _].
    rewrite Hname in Hsubject. by apply append_neq_l in Hsubject.
  - intros req w res err w' Hstored Hd Hbound Hrun. rewrite Hkey.
    apply (live_pass_keeps UserReconciler.SetupWithManager req w w' res err); try done.
    + apply list_elem_of_further, list_elem_of_here.
    + intros p Hp. simpl in Hp. rewrite Hstored in Hp. by injection Hp as <-.
Qed.

(** The Users "a" (role "b-c") and "a-b" (role "c"): the pass over the
    second one leaves the binding of the first under the name
    "a-b-c". *)
Lemma binding_names_collide_witness :
  bindingKey userAB "c" = (KRoleBinding, ("marina-system", "a-b-c")) ∧
  store (UserReconciler.Reconcile {| RequestNamespacedName := ("marina-system", "a-b") |}
           collisionCluster).2 !! bindingKey userAB "c" =
    Some (ObjRoleBinding (UserReconciler.userRoleBindingForRole userA "b-c")).
Proof.
  split; [reflexivity|].
  destruct (binding_names_collide userA userAB "b" "c") as (_ & _ & Hkeeps);
    [reflexivity|reflexivity|].
  apply (Hkeeps {| RequestNamespacedName := ("marina-system", "a-b") |} collisionCluster
           (UserReconciler.Reconcile {| RequestNamespacedName := ("marina-system", "a-b") |}
              collisionCluster).1.1
           (UserReconciler.Reconcile {| RequestNamespacedName := ("marina-system", "a-b") |}
              collisionCluster).1.2).
  - reflexivity.
  - reflexivity.
  - reflexivity.
  - apply run_eq. vm_compute. reflexivity.
Defined.

(** X14: the selector of the Service is the same for every Terminal.
    The Service built for one Terminal selects the pods of the
    Deployment built for any other Terminal (in its namespace), and so
    does the selector of its Deployment: the labels come from
    [CommonLabels] alone and do not name the Terminal. *)
Theorem Service_selects_every_Terminal (terminal other : Terminal) :
  let podLabels :=
    Labels (TemplateMeta (Template (DeploymentSpec_
      (TerminalReconciler.deploymentForTerminal other)))) in
  selects
    (ServiceSelector (ServiceSpec_ (TerminalReconciler.serviceForTerminal terminal)))
    podLabels ∧
  ∃ selector,
    Selector (DeploymentSpec_ (TerminalReconciler.deploymentForTerminal terminal)) =
      Some selector ∧
    selects (MatchLabels selector) podLabels.
Proof. split; [done|]. by eexists. Qed.

(** ** The earlier generation: teardown of the bindings *)

Lemma DeleteOutcome_error o w e w1 :
  DeleteOutcome o w (Some e) w1 → ∃ r, e = StatusError r.
Proof. inversion 1; eauto. Qed.

Lemma legacy_loop_teardown_result user roles w u' err w1 :
  Legacy.UserReconciler.roleBindingsLoop user true roles w = ((u', err), w1) →
  u' = user ∧ (err = None ∨ err = Some (StatusError StatusReasonNotFound)).
Proof.
  revert w. induction roles as [|role roles IH]; intros w Hrun; simpl in Hrun.
  { run_inv Hrun. auto. }
  destruct (ContainsFinalizer user _); [|by eapply IH].
  run_inv Hrun. destruct a as [e|]; [|by eapply IH].
  apply Delete_outcome, DeleteOutcome_error in Hcall as [r ->].
  unfold IsNotFound in Hrest. simpl in Hrest. case_bool_decide as Hr; [|by eapply IH].
  run_inv Hrest. simpl in *. subst. auto.
Qed.

(** X15: in the earlier generation, the teardown of the bindings
    reports [NotFound] and nothing else.  On a User that is marked for
    deletion, [reconcileRoleBindingss] either returns the [NotFound] of
    a [Delete], or it returns nil and takes the binding finalizer off
    the User: a [Delete] that the store refused or failed for any other
    reason is passed over, and its binding stays behind. *)
Theorem legacy_teardown_reports_only_NotFound (user : User) (w : World) (t : Time) :
  GetDeletionTimestamp user = Some t →
  (Legacy.UserReconciler.reconcileRoleBindingss user w).1 =
    (RemoveFinalizer user Legacy.UserReconciler.UserRoleBindingFinalizer, None) ∨
  (Legacy.UserReconciler.reconcileRoleBindingss user w).1 =
    (user, Some (StatusError StatusReasonNotFound)).
Proof.
  intros Hd. unfold Legacy.UserReconciler.reconcileRoleBindingss.
  rewrite Hd, bool_decide_eq_true_2 by done. rewrite bind_run.
  destruct (Legacy.UserReconciler.roleBindingsLoop user true _ w) as [[u' err] w1] eqn:Hloop.
  apply legacy_loop_teardown_result in Hloop as [-> [-> | ->]]; simpl; auto.
Qed.

(** The store refuses the [Delete] of the binding: the function returns
    nil, the finalizer is off, and the binding is still there. *)
Lemma legacy_teardown_reports_only_NotFound_witness :
  trace (Legacy.UserReconciler.reconcileRoleBindingss legacyDeletedUser
           refusedDeleteCluster).2 =
    [mkEvent VerbDelete (legacyBindingKey legacyDeletedUser "SomeRole")
       (Some StatusReasonForbidden)] ∧
  (Legacy.UserReconciler.reconcileRoleBindingss legacyDeletedUser refusedDeleteCluster).1 =
    (RemoveFinalizer legacyDeletedUser Legacy.UserReconciler.UserRoleBindingFinalizer, None) ∧
  is_Some
    (store (Legacy.UserReconciler.reconcileRoleBindingss legacyDeletedUser
              refusedDeleteCluster).2 !! legacyBindingKey legacyDeletedUser "SomeRole").
Proof.
  split; [vm_compute; reflexivity|]. split.
  - destruct (legacy_teardown_reports_only_NotFound legacyDeletedUser refusedDeleteCluster
                1%nat eq_refl) as [Hnil|Herr]; [exact Hnil|].
    apply (f_equal snd) in Herr. vm_compute in Herr. discriminate Herr.
  - by eexists.
Defined.

(** ** Creation of the objects of a User *)

Lemma loop_creates_all user u roles w :
  sameUser user u → faultFree w → NoDup roles →
  (∀ role, role ∈ roles → store w !! bindingKey user role = None) →
  ∃ w',
    UserReconciler.roleBindingsLoop u false roles w = (None, w') ∧
    faultFree w' ∧
    (∀ role, role ∈ roles →
       store w' !! bindingKey user role =
       Some (ObjRoleBinding (UserReconciler.userRoleBindingForRole user role))) ∧
    (∀ k, (∀ role, role ∈ roles → k ≠ bindingKey user role) →
          store w' !! k = store w !! k).
Proof.
  intros Hsame. revert w.
  induction roles as [|role roles IH]; intros w Hff Hnodup Hnone.
  { exists w. split_and!; [done..| |done]. intros role Hrole. by apply elem_of_nil in Hrole. }
  apply NoDup_cons in Hnodup as [Hnotin Hnodup].
  destruct (round_create user u role roles w Hsame Hff) as (w1 & Heq & Hff1 & Hst1).
  { apply Hnone. left. }
  destruct (IH w1 Hff1 Hnodup) as (w' & Hloop & Hff' & Hall & Hframe).
  { intros role' Hrole'. rewrite Hst1, lookup_insert_ne; [apply Hnone; by right|].
    intros Heq'. apply bindingKey_inj in Heq' as ->. done. }
  exists w'. split_and!; [by rewrite Heq|done| |].
  - intros role' [->|Hrole']%elem_of_cons; [|by apply Hall].
    rewrite Hframe, Hst1; [apply lookup_insert_eq|].
    intros role' Hrole' Heq'. apply bindingKey_inj in Heq' as ->. done.
  - intros k Hk. rewrite Hframe, Hst1; [|intros; apply Hk; by right].
    rewrite lookup_insert_ne; [done|]. apply not_eq_sym, Hk. left.
Qed.

(** X16: convergence on creation of a User.  For a User that is not
    marked for deletion, with a list of roles without repetition none
    of which is bound yet, in a store that serves every call, one pass
    succeeds and leaves in the store a ServiceAccount under the name of
    the User and, for every role of the list, the RoleBinding from that
    ServiceAccount to the role; whether the Roles exist plays no
    part. *)
Theorem User_converges_on_creation (req : Request) (w : World) (user : User) :
  let key := RequestNamespacedName req in
  store w !! (KUser, key) = Some (ObjUser user) →
  GetDeletionTimestamp user = None →
  faultFree w → wellKeyed (store w) →
  NoDup (Roles (UserSpec_ user)) →
  (∀ role, role ∈ Roles (UserSpec_ user) → store w !! bindingKey user role = None) →
  ∃ w',
    UserReconciler.Reconcile req w = ((zeroResult, None), w') ∧
    is_Some (store w' !! (KServiceAccount, key)) ∧
    ∀ role, role ∈ Roles (UserSpec_ user) →
      store w' !! bindingKey user role =
      Some (ObjRoleBinding (UserReconciler.userRoleBindingForRole user role)).
Proof.
  intros key Hk Hd Hff Hwf Hnodup Hnone. subst key.
  pose proof (wellKeyed_lookup _ _ _ Hwf Hk) as Hkey.
  pose proof (Get_faultFree_found (A:=User) (RequestNamespacedName req) w _ Hff Hwf Hk)
    as (user' & [= <-] & Hget).
  set (w0 := afterGet (A:=User) (RequestNamespacedName req) w) in *.
  assert (faultFree w0) as Hff0 by (by apply (faultFree_afterGet (A:=User))).
  assert (∃ w1,
            UserReconciler.reconcileServiceAccount user w0 =
              ((AddFinalizer user UserReconciler.UserServiceAccountFinalizer, None), w1) ∧
            faultFree w1 ∧
            (∀ k, k.1 ≠ KServiceAccount → store w1 !! k = store w0 !! k) ∧
            is_Some (store w1 !!
                       storeKey (toObject (UserReconciler.serviceAccountForUser user))))
    as (w1 & Hsa & Hff1 & Hfr1 & Hacc).
  { destruct (UserReconciler.reconcileServiceAccount user w0) as [[u1 e1] w1] eqn:Hsa.
    destruct (reconcileServiceAccount_faultFree user w0 Hff0 Hd) as (w1' & Hsa' & Hff1 & Hfr1).
    rewrite Hsa in Hsa'. injection Hsa' as -> -> <-.
    exists w1. split_and!; [done..|].
    apply reconcileServiceAccount_outcome in Hsa.
    apply (DerivedOutcome_live_settles _ _ _ _ _ _ _ Hd) in Hsa as (_ & _ & Hsome & _);
      [done|]. unfold faultFree in Hff0. rewrite Hff0. constructor. }
  set (u1 := AddFinalizer user UserReconciler.UserServiceAccountFinalizer) in *.
  set (u2 := AddFinalizer u1 UserReconciler.UserRoleBindingFinalizer).
  assert (sameUser user u2) as Hsame by (by do 2 apply sameUser_AddFinalizer).
  destruct (loop_creates_all user u2 (Roles (UserSpec_ user)) w1 Hsame Hff1 Hnodup)
    as (w2 & Hloop & Hff2 & Hall & Hframe).
  { intros role Hrole. rewrite Hfr1 by done. by apply Hnone. }
  assert (UserReconciler.reconcileRoleBindings u1 w1 = ((u2, None), w2)) as Hrb.
  { unfold UserReconciler.reconcileRoleBindings.
    rewrite (sameUser_live user u1), bool_decide_eq_false_2;
      [|by intros [??]|by apply sameUser_AddFinalizer|done].
    cbv zeta. rewrite bind_run. change (Roles (UserSpec_ _)) with (Roles (UserSpec_ user)).
    fold u2. by rewrite Hloop. }
  assert (∀ k, k.1 ≠ KRoleBinding → store w2 !! k = store w1 !! k) as Hframe2.
  { intros k Hkind. apply Hframe. intros role _ ->. done. }
  assert (Update u2 w2 = (None, afterUpdate u2 w2)) as Hup.
  { apply Update_faultFree_live; [done| |by apply (sameUser_live user)].
    change (toObject u2) with (ObjUser u2). rewrite (sameUser_storeKey user u2), Hkey by done.
    rewrite Hframe2, Hfr1 by done. change (store w0) with (store w). by rewrite Hk. }
  exists (afterUpdate u2 w2). split_and!.
  - unfold UserReconciler.Reconcile. rewrite bind_run, Hget. cbn [fst snd].
    rewrite bind_run, Hsa. cbn [fst snd]. rewrite bind_run, Hrb. cbn [fst snd].
    by rewrite bind_run, Hup.
  - unfold afterUpdate. simpl.
    change (toObject u2) with (ObjUser u2). rewrite (sameUser_storeKey user u2), Hkey by done.
    rewrite lookup_insert_ne, Hframe2 by done.
    rewrite storeKey_serviceAccountForUser in Hacc.
    assert ((Namespace (UserMeta user), Name (UserMeta user)) = RequestNamespacedName req)
      as Hname by (unfold storeKey, ObjectKeyFromObject in Hkey; simpl in Hkey; congruence).
    by rewrite Hname in Hacc.
  - intros role Hrole. unfold afterUpdate. simpl.
    change (toObject u2) with (ObjUser u2). rewrite (sameUser_storeKey user u2), Hkey by done.
    rewrite lookup_insert_ne by done. by apply Hall.
Qed.

(** The new User with two roles: one pass, and the ServiceAccount and
    both bindings are there. *)
Lemma User_converges_on_creation_witness :
  ∃ w',
    UserReconciler.Reconcile testUserRequest newUserCluster = ((zeroResult, None), w') ∧
    is_Some (store w' !! (KServiceAccount, ("marina-system", "user-test"))) ∧
    ∀ role, role ∈ ["SomeRole"; "AnotherRole"] →
      store w' !! bindingKey newUser role =
      Some (ObjRoleBinding (UserReconciler.userRoleBindingForRole newUser role)).
Proof.
  apply (User_converges_on_creation testUserRequest newUserCluster newUser).
  - reflexivity.
  - reflexivity.
  - reflexivity.
  - apply wellKeyed_clusterOf.
  - apply NoDup_cons. split; [|apply NoDup_singleton].
    intros Hin%list_elem_of_singleton. discriminate Hin.
  - intros role Hrole. apply elem_of_cons in Hrole as [->|Hrole]; [reflexivity|].
    apply list_elem_of_singleton in Hrole as ->. reflexivity.
Defined.

(** A request for a Terminal in an empty cluster. *)
Lemma absent_primary_is_noop_witness :
  TerminalReconciler.Reconcile testTerminalRequest emptyCluster =
  ((zeroResult, None),
   served VerbGet (KTerminal, ("marina-system", "terminal-test"))
     (Some StatusReasonNotFound) (store emptyCluster) emptyCluster).
Proof.
  apply (absent_primary_is_noop TerminalReconciler.SetupWithManager testTerminalRequest
           emptyCluster).
  - apply list_elem_of_here.
  - reflexivity.
  - reflexivity.
Defined.

(** ** A role that is listed twice *)

Lemma roleBindingsLoop_teardown_absent user roles w ret w1 role :
  ContainsFinalizer user UserReconciler.UserRoleBindingFinalizer = true →
  role ∈ roles → store w !! bindingKey user role = None →
  UserReconciler.roleBindingsLoop user true roles w = (ret, w1) →
  ret ≠ None.
Proof.
  intros Hfin. revert w. induction roles as [|r roles IH]; intros w Hrole Habs Hrun.
  { by apply elem_of_nil in Hrole. }
  simpl in Hrun. rewrite Hfin in Hrun. run_inv Hrun. apply Delete_outcome in Hcall.
  destruct a as [e|]; [by run_inv Hrest|].
  apply elem_of_cons in Hrole as [->|Hrole].
  - apply DeleteOutcome_served_present in Hcall as [old Hold].
    change (storeKey _) with (bindingKey user r) in Hold. congruence.
  - eapply IH; [done| |done]. by eapply DeleteOutcome_keeps_absent.
Qed.

Lemma roleBindingsLoop_teardown_NoDup user roles w w1 :
  ContainsFinalizer user UserReconciler.UserRoleBindingFinalizer = true →
  (∀ role, role ∈ roles → unguarded (store w) (bindingKey user role)) →
  UserReconciler.roleBindingsLoop user true roles w = (None, w1) →
  NoDup roles.
Proof.
  intros Hfin. revert w. induction roles as [|r roles IH]; intros w Hun Hrun.
  { constructor. }
  simpl in Hrun. rewrite Hfin in Hrun. run_inv Hrun. apply Delete_outcome in Hcall.
  destruct a as [e|]; [by run_inv Hrest|].
  apply NoDup_cons. split.
  - intros Hin.
    eapply (roleBindingsLoop_teardown_absent _ _ _ _ _ r Hfin Hin); [|done|done].
    rewrite (DeleteOutcome_removed _ _ _ Hcall); [apply lookup_delete_eq|].
    apply Hun. left.
  - eapply IH; [|done]. intros role Hrole.
    eapply DeleteOutcome_keeps_unguarded; [done|]. apply Hun. by right.
Qed.

(** X17: a User whose list names a role twice cannot be torn down.  On
    a User that is marked for deletion and carries the binding
    finalizer, the second [Delete] of the same RoleBinding (which has no
    finalizers of its own) finds it gone, and the [NotFound] ends the
    pass.  So a pass that succeeds on such a User has a list of roles
    without repetition; with a repetition every pass returns an error
    and the User in the store keeps its finalizers. *)
Theorem repeated_role_blocks_teardown (req : Request) (w w' : World) (res : Result)
    (err : option error) (user : User) (t : Time) :
  let key := RequestNamespacedName req in
  store w !! (KUser, key) = Some (ObjUser user) →
  GetDeletionTimestamp user = Some t →
  ContainsFinalizer user UserReconciler.UserRoleBindingFinalizer = true →
  (∀ role, role ∈ Roles (UserSpec_ user) → unguarded (store w) (bindingKey user role)) →
  ¬ NoDup (Roles (UserSpec_ user)) →
  consistentFaults (faults w) →
  UserReconciler.Reconcile req w = ((res, err), w') →
  is_Some err ∧ store w' !! (KUser, key) = store w !! (KUser, key).
Proof.
  intros key Hstored Hd HfB Hun Hdup Hcons Hrun. subst key.
  assert (is_Some err) as [e ->]; [|split; [done|by eapply User_Reconcile_failed_frame]].
  apply User_Reconcile_inv in Hrun as (r0 & w1 & Hget & Hrest).
  destruct (GetOutcome_stored _ _ _ _ _ Hget Hcons Hstored)
    as [Hst1 [(e & -> & He)| ->]].
  { by destruct Hrest as [-> _]. }
  simpl in Hrest. destruct Hrest as (u1 & e1 & w2 & Hacc & Hrest).
  destruct e1 as [e|]; [by destruct Hrest as [-> _]|].
  destruct Hrest as (u2 & e2 & w3 & Hloop & Hrest).
  destruct e2 as [e|]; [by destruct Hrest as [-> _]|].
  exfalso. apply Hdup.
  pose proof (DerivedOutcome_result _ _ _ _ _ _ _ Hacc) as Hres. cbn [fst] in Hres.
  pose proof (DerivedOutcome_frame _ _ _ _ _ _ _ Hacc) as Hframe.
  assert (GetDeletionTimestamp u1 = Some t ∧
          ContainsFinalizer u1 UserReconciler.UserRoleBindingFinalizer = true ∧
          Roles (UserSpec_ u1) = Roles (UserSpec_ user) ∧
          ∀ role, bindingKey u1 role = bindingKey user role) as (Hd1 & HfB1 & Hroles & Hbk).
  { destruct Hres as [->|[->| ->]].
    - done.
    - split_and!; [by rewrite GetDeletionTimestamp_RemoveFinalizer|
                   by apply ContainsFinalizer_RemoveFinalizer_keeps|done|
                   intros; apply bindingKey_RemoveFinalizer].
    - split_and!; [by rewrite GetDeletionTimestamp_AddFinalizer|
                   by apply ContainsFinalizer_AddFinalizer_other|done|
                   intros; apply bindingKey_AddFinalizer]. }
  destruct (reconcileRoleBindings_teardown_run _ _ _ _ _ Hd1 Hloop) as [_ Hrun].
  rewrite Hroles in Hrun.
  eapply (roleBindingsLoop_teardown_NoDup u1); [done| |done].
  intros role Hrole o. rewrite Hbk, Hframe, Hst1; [by apply Hun|done].
Qed.

(** The User with the role "SomeRole" twice: the pass fails on the
    second [Delete]. *)
Lemma repeated_role_blocks_teardown_witness :
  (UserReconciler.Reconcile testUserRequest repeatedRoleCluster).1.2 =
    Some (StatusError StatusReasonNotFound) ∧
  store (UserReconciler.Reconcile testUserRequest repeatedRoleCluster).2
    !! (KUser, ("marina-system", "user-test")) = Some (ObjUser repeatedRoleUser).
Proof.
  assert (UserReconciler.Reconcile testUserRequest repeatedRoleCluster =
            ((zeroResult, Some (StatusError StatusReasonNotFound)),
             (UserReconciler.Reconcile testUserRequest repeatedRoleCluster).2)) as Hrun
    by (apply run_eq; vm_compute; reflexivity).
  split; [by rewrite Hrun|].
  destruct (repeated_role_blocks_teardown testUserRequest repeatedRoleCluster
              (UserReconciler.Reconcile testUserRequest repeatedRoleCluster).2 zeroResult
              (Some (StatusError StatusReasonNotFound)) repeatedRoleUser 1%nat)
    as [_ Hsame].
  - reflexivity.
  - reflexivity.
  - reflexivity.
  - intros role Hrole o Ho.
    assert (role = "SomeRole") as ->.
    { apply elem_of_cons in Hrole as [->|Hrole]; [done|].
      by apply list_elem_of_singleton in Hrole. }
    assert (o = ObjRoleBinding
                  (UserReconciler.userRoleBindingForRole repeatedRoleUser "SomeRole"))
      as -> by (injection Ho as <-; reflexivity).
    reflexivity.
  - intros Hnodup. apply NoDup_cons in Hnodup as [Hnotin _]. apply Hnotin.
    apply list_elem_of_here.
  - apply consistentFaults_nil.
  - exact Hrun.
  - etransitivity; [exact Hsame|reflexivity].
Defined.

Lemma loop_creates_prefix user u pre rest w :
  sameUser user u → faultFree w → NoDup pre →
  (∀ role, role ∈ pre → store w !! bindingKey user role = None) →
  ∃ w',
    UserReconciler.roleBindingsLoop u false (pre ++ rest) w =
    UserReconciler.roleBindingsLoop u false rest w' ∧
    faultFree w' ∧
    (∀ role, role ∈ pre →
       store w' !! bindingKey user role =
       Some (ObjRoleBinding (UserReconciler.userRoleBindingForRole user role))) ∧
    (∀ k, (∀ role, role ∈ pre → k ≠ bindingKey user role) →
          store w' !! k = store w !! k).
Proof.
  intros Hsame. revert w.
  induction pre as [|role pre IH]; intros w Hff Hnodup Hnone.
  { exists w. split_and!; [done..| |done]. intros role Hrole. by apply elem_of_nil in Hrole. }
  apply NoDup_cons in Hnodup as [Hnotin Hnodup].
  destruct (round_create user u role (pre ++ rest) w Hsame Hff) as (w1 & Heq & Hff1 & Hst1).
  { apply Hnone. left. }
  destruct (IH w1 Hff1 Hnodup) as (w' & Hloop & Hff' & Hall & Hframe).
  { intros role' Hrole'. rewrite Hst1, lookup_insert_ne; [apply Hnone; by right|].
    intros Heq'. apply bindingKey_inj in Heq' as ->. done. }
  exists w'. split_and!; [by rewrite <- Hloop, <- Heq|done| |].
  - intros role' [->|Hrole']%elem_of_cons; [|by apply Hall].
    rewrite Hframe, Hst1; [apply lookup_insert_eq|].
    intros role' Hrole' Heq'. apply bindingKey_inj in Heq' as ->. done.
  - intros k Hk. rewrite Hframe, Hst1; [|intros; apply Hk; by right].
    rewrite lookup_insert_ne; [done|]. apply not_eq_sym, Hk. left.
Qed.

(** X18: the binding loop does not get past a role that is listed
    twice.  For a User that is not marked for deletion whose list of
    roles is [pre ++ r :: post] with [r] among [pre], in a store that
    serves every call and holds none of the bindings of [pre] yet,
    [reconcileRoleBindings] creates the bindings of [pre], meets
    [AlreadyExists] at the second [r], and returns nil from there: the
    bindings of the roles of [post] that are not in [pre] are not
    created. *)
Theorem repeated_role_ends_binding (user : User) (w : World)
    (pre post : list string) (r : string) :
  GetDeletionTimestamp user = None →
  Roles (UserSpec_ user) = pre ++ r :: post →
  NoDup pre → r ∈ pre →
  (∀ role, role ∈ pre → store w !! bindingKey user role = None) →
  faultFree w →
  (UserReconciler.reconcileRoleBindings user w).1 =
    (AddFinalizer user UserReconciler.UserRoleBindingFinalizer, None) ∧
  (∀ role, role ∈ pre →
     store (UserReconciler.reconcileRoleBindings user w).2 !! bindingKey user role =
     Some (ObjRoleBinding (UserReconciler.userRoleBindingForRole user role))) ∧
  (∀ role, role ∉ pre →
     store (UserReconciler.reconcileRoleBindings user w).2 !! bindingKey user role =
     store w !! bindingKey user role).
Proof.
  intros Hd Hroles Hnodup Hr Hnone Hff.
  set (added := AddFinalizer user UserReconciler.UserRoleBindingFinalizer).
  assert (sameUser user added) as Hsame by (apply sameUser_AddFinalizer, sameUser_refl).
  destruct (loop_creates_prefix user added pre (r :: post) w Hsame Hff Hnodup Hnone)
    as (w1 & Hloop & Hff1 & Hall & Hframe).
  destruct (UserReconciler.roleBindingsLoop added false (r :: post) w1) as [ret w2] eqn:Hrest.
  apply roleBindingsLoop_present in Hrest as (Hst2 & _ & cerr & -> & Hexists).
  2:{ rewrite (sameUser_bindingKey user added), Hall by done. by eexists. }
  rewrite (Hexists (faultFree_nextFault _ Hff1)) in Hloop.
  assert (UserReconciler.reconcileRoleBindings user w = ((added, None), w2)) as Hrun.
  { unfold UserReconciler.reconcileRoleBindings.
    rewrite Hd, bool_decide_eq_false_2 by (by intros [??]).
    cbv zeta. rewrite bind_run. change (Roles (UserSpec_ _)) with (Roles (UserSpec_ user)).
    fold added. by rewrite Hroles, Hloop. }
  rewrite Hrun. simpl. split; [done|]. split.
  - intros role Hrole. rewrite Hst2. by apply Hall.
  - intros role Hrole. rewrite Hst2. apply Hframe.
    intros role' Hrole' Heq. apply bindingKey_inj in Heq as ->. done.
Qed.

(** The User with the roles "SomeRole", "SomeRole", "AnotherRole": the
    binding of "AnotherRole" is not created. *)
Lemma repeated_role_ends_binding_witness :
  (UserReconciler.reconcileRoleBindings stutterUser stutterCluster).1.2 = None ∧
  store (UserReconciler.reconcileRoleBindings stutterUser stutterCluster).2
    !! bindingKey stutterUser "AnotherRole" = None.
Proof.
  destruct (repeated_role_ends_binding stutterUser stutterCluster ["SomeRole"]
              ["AnotherRole"] "SomeRole") as (Hres & _ & Hrest).
  - reflexivity.
  - reflexivity.
  - apply NoDup_singleton.
  - apply list_elem_of_here.
  - intros role Hrole. apply list_elem_of_singleton in Hrole as ->. reflexivity.
  - reflexivity.
  - split; [by rewrite Hres|].
    etransitivity; [apply Hrest|reflexivity].
    intros Hin%list_elem_of_singleton. discriminate Hin.
Defined.

(** ** The errors a pass can return *)

Lemma GetOutcome_error k w e w1 : GetOutcome k w (inl e) w1 → ∃ r, e = StatusError r.
Proof. inversion 1; eauto. Qed.

Lemma CreateOutcome_error o w e w1 : CreateOutcome o w (Some e) w1 → ∃ r, e = StatusError r.
Proof. inversion 1; eauto. Qed.

Lemma UpdateOutcome_error o w e w1 : UpdateOutcome o w (Some e) w1 → ∃ r, e = StatusError r.
Proof. inversion 1; eauto. Qed.

Lemma IgnoreNotFound_Some e e' : IgnoreNotFound (Some e) = Some e' → e' = e.
Proof. unfold IgnoreNotFound. destruct (IsNotFound e); congruence. Qed.

Lemma IgnoreAlreadyExists_Some err e' : IgnoreAlreadyExists err = Some e' → err = Some e'.
Proof.
  unfold IgnoreAlreadyExists. destruct err as [e|]; [|done].
  destruct (IsAlreadyExists e); congruence.
Qed.

Section derived_errors.
Context {A D} `{ClientObject A} `{ClientObject D}.
Variables (finalizer : string) (desired : D) (wrap : error → error).

Lemma DerivedOutcome_error (obj obj' : A) w e w1 :
  DerivedOutcome finalizer desired wrap obj w (obj', Some e) w1 →
  ∃ r, e = StatusError r ∨ e = wrap (StatusError r).
Proof.
  inversion 1; subst.
  - match goal with H : DeleteOutcome _ _ _ _ |- _ =>
      apply DeleteOutcome_error in H as [r ->] end. eauto.
  - match goal with
    | H : IgnoreAlreadyExists _ = Some _ |- _ => apply IgnoreAlreadyExists_Some in H as ->
    | H : Some _ = IgnoreAlreadyExists _ |- _ =>
        symmetry in H; apply IgnoreAlreadyExists_Some in H as ->
    end.
    match goal with H : CreateOutcome _ _ _ _ |- _ =>
      apply CreateOutcome_error in H as [r ->] end. eauto.
Qed.
End derived_errors.

Lemma roleBindingsLoop_error user isDeleting roles w e w1 :
  UserReconciler.roleBindingsLoop user isDeleting roles w = (Some (Some e), w1) →
  ∃ r, e = StatusError r.
Proof.
  revert w. induction roles as [|role roles IH]; intros w Hrun; simpl in Hrun.
  { by run_inv Hrun. }
  destruct isDeleting.
  - destruct (ContainsFinalizer user _); [|by eapply IH].
    run_inv Hrun. destruct a as [err|]; [|by eapply IH]. run_inv Hrest.
    apply Delete_outcome in Hcall. by eapply DeleteOutcome_error.
  - run_inv Hrun. destruct a as [err|]; [|by eapply IH].
    apply ret_inv in Hrest as [Heq ->]. injection Heq as Heq.
    destruct (IsAlreadyExists err); [done|]. injection Heq as ->.
    apply Create_outcome in Hcall. by eapply CreateOutcome_error.
Qed.

(** X19: the errors a pass can return.  The error of a Terminal pass is
    an error of the store as it came, or such an error wrapped by
    "could not delete deployment: " or by "could not delete service: ";
    the failures of [Get], [Create] and [Update] are returned without
    context.  The error of a User pass is always an error of the store
    as it came. *)
Theorem errors_of_a_pass (req : Request) (w : World) (e : error) :
  ((TerminalReconciler.Reconcile req w).1.2 = Some e →
   ∃ r, e = StatusError r ∨
        e = Errorf "could not delete deployment: " (StatusError r) ∨
        e = Errorf "could not delete service: " (StatusError r)) ∧
  ((UserReconciler.Reconcile req w).1.2 = Some e → ∃ r, e = StatusError r).
Proof.
  split.
  - destruct (TerminalReconciler.Reconcile req w) as [[res err] w'] eqn:Hrun. simpl.
    intros ->. apply Terminal_Reconcile_inv in Hrun as (r0 & w1 & Hget & Hrest).
    destruct r0 as [e0|o].
    { destruct Hrest as [Herr _]. symmetry in Herr. apply IgnoreNotFound_Some in Herr as ->.
      apply GetOutcome_error in Hget as [r ->]. eauto. }
    destruct (fromObject o) as [terminal|]; [|destruct Hrest as [[= ->] _]; eauto].
    destruct Hrest as (t1 & e1 & w2 & Hdep & Hrest).
    destruct e1 as [e1|].
    { destruct Hrest as [[= ->] _].
      apply DerivedOutcome_error in Hdep as [r [->| ->]]; eauto. }
    destruct Hrest as (t2 & e2 & w3 & Hsvc & Hrest).
    destruct e2 as [e2|].
    { destruct Hrest as [[= ->] _].
      apply DerivedOutcome_error in Hsvc as [r [->| ->]]; eauto. }
    apply UpdateOutcome_error in Hrest as [r ->]. eauto.
  - destruct (UserReconciler.Reconcile req w) as [[res err] w'] eqn:Hrun. simpl.
    intros ->. apply User_Reconcile_inv in Hrun as (r0 & w1 & Hget & Hrest).
    destruct r0 as [e0|o].
    { destruct Hrest as [Herr _]. symmetry in Herr. apply IgnoreNotFound_Some in Herr as ->.
      by apply GetOutcome_error in Hget. }
    destruct (fromObject o) as [user|]; [|destruct Hrest as [[= ->] _]; eauto].
    destruct Hrest as (u1 & e1 & w2 & Hacc & Hrest).
    destruct e1 as [e1|].
    { destruct Hrest as [[= ->] _].
      apply DerivedOutcome_error in Hacc as [r [->| ->]]; eauto. }
    destruct Hrest as (u2 & e2 & w3 & Hloop & Hrest).
    destruct e2 as [e2|]; [|by apply UpdateOutcome_error in Hrest].
    destruct Hrest as [[= ->] _].
    unfold UserReconciler.reconcileRoleBindings in Hloop. run_inv Hloop.
    destruct a as [[e'|]|]; run_inv Hrest; [|done..].
    by apply roleBindingsLoop_error in Hcall.
Qed.

(** The refused [Create] of the Deployment comes back as it came. *)
Lemma errors_of_a_pass_witness :
  ∃ r, StatusError StatusReasonForbidden = StatusError r ∨
       StatusError StatusReasonForbidden =
         Errorf "could not delete deployment: " (StatusError r) ∨
       StatusError StatusReasonForbidden =
         Errorf "could not delete service: " (StatusError r).
Proof.
  apply (proj1 (errors_of_a_pass testTerminalRequest forbiddenCluster
                  (StatusError StatusReasonForbidden))).
  vm_compute. reflexivity.
Defined.

(** ** The command line *)

Lemma parsedBy_contextOf flags given : cmd.parsedBy flags (cmd.contextOf flags given).
Proof.
  intros name Hname. unfold cmd.contextOf. simpl.
  by rewrite bool_decide_eq_false_2.
Qed.

(** X20: leader election cannot be switched on from the command line.
    [App] declares the flag "enable-leader-election", and [start] reads
    "enable-leader-elect", a name that no flag of the App has; so for
    every command line the manager is set up with [LeaderElection]
    false. *)
Theorem leader_election_is_never_enabled (ctx : cmd.Context) :
  cmd.parsedBy cmd.Flags ctx →
  cmd.LeaderElection (cmd.ManagerOptions (cmd.start ctx)) = false.
Proof.
  intros Hctx. simpl. apply Hctx. vm_compute. intros Hin.
  repeat (apply elem_of_cons in Hin as [Heq|Hin]; [discriminate Heq|]).
  by apply elem_of_nil in Hin.
Qed.

(** The command line that asks for leader election sets the flag, and
    the manager is set up without it. *)
Lemma leader_election_is_never_enabled_witness :
  cmd.Bool (cmd.contextOf cmd.Flags leaderElectionAsked) "enable-leader-election" = true ∧
  cmd.LeaderElection
    (cmd.ManagerOptions (cmd.start (cmd.contextOf cmd.Flags leaderElectionAsked))) = false.
Proof.
  split; [vm_compute; reflexivity|].
  apply leader_election_is_never_enabled, parsedBy_contextOf.
Defined.

(** ** From creation to deletion *)

Lemma faultFree_tail w w1 : faultFree w → faults w1 = tail (faults w) → faultFree w1.
Proof. unfold faultFree. intros -> ->. done. Qed.

Lemma CreateOutcome_faultFree_absent o w r w1 :
  CreateOutcome o w r w1 → faultFree w → store w !! storeKey o = None →
  r = None ∧ store w1 = <[storeKey o := o]> (store w).
Proof.
  intros Hcr Hff Habs. inversion Hcr; subst; simpl.
  - rewrite faultFree_nextFault in * by done. done.
  - congruence.
  - done.
Qed.

Lemma DeleteOutcome_faultFree_present o w r w1 :
  DeleteOutcome o w r w1 → faultFree w → is_Some (store w !! storeKey o) → r = None.
Proof.
  intros Hdel Hff [old Hold]. inversion Hdel; subst; simpl; try done.
  - rewrite faultFree_nextFault in * by done. done.
  - congruence.
Qed.

Lemma UpdateOutcome_faultFree_present o w r w1 :
  UpdateOutcome o w r w1 → faultFree w → is_Some (store w !! storeKey o) → r = None.
Proof.
  intros Hup Hff [old Hold]. inversion Hup; subst; simpl; try done.
  - rewrite faultFree_nextFault in * by done. done.
  - congruence.
Qed.

Lemma Terminal_faultFree_live_pass req w res err w' terminal :
  let key := RequestNamespacedName req in
  let deployment := TerminalReconciler.deploymentForTerminal terminal in
  let service := TerminalReconciler.serviceForTerminal terminal in
  store w !! (KTerminal, key) = Some (ObjTerminal terminal) →
  storeKey (ObjTerminal terminal) = (KTerminal, key) →
  GetDeletionTimestamp terminal = None → faultFree w →
  store w !! storeKey (toObject deployment) = None →
  store w !! storeKey (toObject service) = None →
  TerminalReconciler.Reconcile req w = ((res, err), w') →
  err = None ∧ faultFree w' ∧
  store w' =
    <[(KTerminal, key) :=
        ObjTerminal
          (AddFinalizer
             (AddFinalizer terminal TerminalReconciler.TerminalDeploymentFinalizer)
             TerminalReconciler.TerminalServiceFinalizer)]>
      (<[storeKey (toObject service) := toObject service]>
         (<[storeKey (toObject deployment) := toObject deployment]> (store w))).
Proof.
  intros key deployment service Hstored Hkey Hd Hff HabsD HabsS Hrun. subst key.
  apply Terminal_Reconcile_inv in Hrun as (r0 & w1 & Hget & Hrest).
  destruct (GetOutcome_served_found _ _ _ _ _ Hget (faultFree_nextFault _ Hff) Hstored)
    as (-> & Hst1 & Hf1).
  pose proof (faultFree_tail _ _ Hff Hf1) as Hff1.
  simpl in Hrest. destruct Hrest as (t1 & e1 & w2 & Hdep & Hrest).
  destruct (DerivedOutcome_live _ _ _ _ _ _ _ _ Hd Hdep) as (cerr & -> & -> & Hcr1).
  pose proof (faultFree_tail _ _ Hff1 (CreateOutcome_faults _ _ _ _ Hcr1)) as Hff2.
  destruct (CreateOutcome_faultFree_absent _ _ _ _ Hcr1 Hff1) as [-> Hst2];
    [by rewrite Hst1|].
  cbn [IgnoreAlreadyExists] in Hrest. destruct Hrest as (t2 & e2 & w3 & Hsvc & Hrest).
  rewrite serviceForTerminal_AddFinalizer in Hsvc.
  assert (GetDeletionTimestamp
            (AddFinalizer terminal TerminalReconciler.TerminalDeploymentFinalizer) = None)
    as Hd1 by (by rewrite GetDeletionTimestamp_AddFinalizer).
  destruct (DerivedOutcome_live _ _ _ _ _ _ _ _ Hd1 Hsvc) as (serr & -> & -> & Hcr2).
  pose proof (faultFree_tail _ _ Hff2 (CreateOutcome_faults _ _ _ _ Hcr2)) as Hff3.
  destruct (CreateOutcome_faultFree_absent _ _ _ _ Hcr2 Hff2) as [-> Hst3].
  { rewrite Hst2, lookup_insert_ne, Hst1; [done|]. done. }
  cbn [IgnoreAlreadyExists] in Hrest.
  set (t2 := AddFinalizer (AddFinalizer terminal _) _) in *.
  assert (storeKey (ObjTerminal t2) = (KTerminal, RequestNamespacedName req)) as Hk2.
  { unfold t2. change (ObjTerminal ?x) with (toObject x).
    by rewrite !storeKey_AddFinalizer. }
  assert (GetDeletionTimestamp t2 = None) as Hd2
    by (unfold t2; by rewrite !GetDeletionTimestamp_AddFinalizer).
  assert (is_Some (store w3 !! storeKey (ObjTerminal t2))) as Hpresent.
  { rewrite Hk2, Hst3, lookup_insert_ne, Hst2, lookup_insert_ne, Hst1 by done. by eexists. }
  pose proof (UpdateOutcome_faultFree_present _ _ _ _ Hrest Hff3 Hpresent) as ->.
  split; [done|]. split.
  - by eapply faultFree_tail, UpdateOutcome_faults.
  - change (ObjTerminal t2) with (toObject t2) in Hrest.
    rewrite (UpdateOutcome_live _ _ _ _ Hd2 Hrest eq_refl).
    change (toObject t2) with (ObjTerminal t2). by rewrite Hk2, Hst3, Hst2, Hst1.
Qed.

Lemma Terminal_faultFree_teardown_pass req w res err w' terminal t :
  let key := RequestNamespacedName req in
  store w !! (KTerminal, key) = Some (ObjTerminal terminal) →
  storeKey (ObjTerminal terminal) = (KTerminal, key) →
  GetDeletionTimestamp terminal = Some t →
  ContainsFinalizer terminal TerminalReconciler.TerminalDeploymentFinalizer = true →
  ContainsFinalizer terminal TerminalReconciler.TerminalServiceFinalizer = true →
  faultFree w →
  is_Some (store w !! storeKey (toObject (TerminalReconciler.deploymentForTerminal terminal))) →
  is_Some (store w !! storeKey (toObject (TerminalReconciler.serviceForTerminal terminal))) →
  TerminalReconciler.Reconcile req w = ((res, err), w') →
  err = None.
Proof.
  intros key Hstored Hkey Hdel HfD HfS Hff HD HS Hrun. subst key.
  apply Terminal_Reconcile_inv in Hrun as (r0 & w1 & Hget & Hrest).
  destruct (GetOutcome_served_found _ _ _ _ _ Hget (faultFree_nextFault _ Hff) Hstored)
    as (-> & Hst1 & Hf1).
  pose proof (faultFree_tail _ _ Hff Hf1) as Hff1.
  simpl in Hrest. destruct Hrest as (t1 & e1 & w2 & Hdep & Hrest).
  destruct (DerivedOutcome_teardown _ _ _ _ _ _ _ _ _ Hdel HfD Hdep)
    as (derr & HdelD & Hcases).
  assert (derr = None) as ->
    by (eapply DeleteOutcome_faultFree_present; [done..|]; by rewrite Hst1).
  destruct Hcases as [(e & ? & _)|(_ & -> & ->)]; [done|].
  pose proof (faultFree_tail _ _ Hff1 (DeleteOutcome_faults _ _ _ _ HdelD)) as Hff2.
  destruct Hrest as (t2 & e2 & w3 & Hsvc & Hrest).
  rewrite serviceForTerminal_RemoveFinalizer in Hsvc.
  assert (GetDeletionTimestamp
            (RemoveFinalizer terminal TerminalReconciler.TerminalDeploymentFinalizer) = Some t)
    as Hdel1 by (by rewrite GetDeletionTimestamp_RemoveFinalizer).
  assert (ContainsFinalizer
            (RemoveFinalizer terminal TerminalReconciler.TerminalDeploymentFinalizer)
            TerminalReconciler.TerminalServiceFinalizer = true) as HfS1
    by (by apply ContainsFinalizer_RemoveFinalizer_keeps).
  destruct (DerivedOutcome_teardown _ _ _ _ _ _ _ _ _ Hdel1 HfS1 Hsvc)
    as (serr & HdelS & Hcases).
  pose proof (DeleteOutcome_frame _ _ _ _ HdelD) as HframeD.
  pose proof (DeleteOutcome_frame _ _ _ _ HdelS) as HframeS.
  assert (serr = None) as ->.
  { eapply DeleteOutcome_faultFree_present; [done..|].
    rewrite HframeD, Hst1; [done|]. by rewrite storeKey_deploymentForTerminal. }
  destruct Hcases as [(e & ? & _)|(_ & -> & ->)]; [done|].
  pose proof (faultFree_tail _ _ Hff2 (DeleteOutcome_faults _ _ _ _ HdelS)) as Hff3.
  eapply UpdateOutcome_faultFree_present; [done..|].
  change (ObjTerminal ?x) with (toObject x). rewrite !storeKey_RemoveFinalizer.
  change (toObject terminal) with (ObjTerminal terminal). rewrite Hkey.
  rewrite HframeS, HframeD, Hst1; [by eexists|..];
    by rewrite ?storeKey_deploymentForTerminal, ?storeKey_serviceForTerminal.
Qed.

(** A [Delete] of a Terminal that went through a live pass marks it: the
    stored object carries finalizers, so it stays, with a deletion
    timestamp. *)
Lemma kubectlDelete_marks (terminal : Terminal) w :
  let t2 := AddFinalizer
             (AddFinalizer terminal TerminalReconciler.TerminalDeploymentFinalizer)
             TerminalReconciler.TerminalServiceFinalizer in
  GetDeletionTimestamp terminal = None →
  store w !! storeKey (ObjTerminal terminal) = Some (ObjTerminal t2) →
  ∃ marked : Terminal,
    kubectlDelete (ObjTerminal terminal) w =
      served VerbDelete (storeKey (ObjTerminal terminal)) None
        (<[storeKey (ObjTerminal terminal) := ObjTerminal marked]> (store w))
        (withFaults [] w) ∧
    TerminalMeta marked = withDeletionTimestamp (Some (clock w)) (TerminalMeta t2) ∧
    TerminalSpec_ marked = TerminalSpec_ terminal.
Proof.
  intros t2 Hd Hstored. unfold kubectlDelete, apiDelete.
  change (nextFault (withFaults [] w)) with (@None StatusReason). cbv zeta.
  change (store (withFaults [] w)) with (store w). rewrite Hstored.
  change (objMeta (ObjTerminal t2)) with (getMeta t2).
  assert (Finalizers (getMeta t2) ≠ []) as Hne.
  { unfold t2, AddFinalizer. rewrite getMeta_setMeta. apply AddFinalizerMeta_nonempty. }
  assert (DeletionTimestamp (getMeta t2) = None) as Hd2.
  { change (DeletionTimestamp (getMeta t2)) with (GetDeletionTimestamp t2).
    unfold t2. by rewrite !GetDeletionTimestamp_AddFinalizer. }
  destruct (Finalizers (getMeta t2)) as [|f fs] eqn:Hfs; [done|]. rewrite Hd2.
  eexists {| TerminalMeta := _; TerminalSpec_ := _ |}. split; [reflexivity|]. split; [|done].
  simpl. done.
Qed.

(** X21: the whole life of a Terminal on a store that serves every call.
    A new Terminal without finalizers is reconciled (no error, its
    Deployment and its Service are stored as built), somebody deletes it,
    and the next pass returns no error and leaves neither the Terminal nor
    its Deployment nor its Service in the store. *)
Theorem Terminal_lifecycle (req : Request) (w : World) (terminal : Terminal) :
  let key := RequestNamespacedName req in
  let deployment := TerminalReconciler.deploymentForTerminal terminal in
  let service := TerminalReconciler.serviceForTerminal terminal in
  let kD := storeKey (toObject deployment) in
  let kS := storeKey (toObject service) in
  let created := TerminalReconciler.Reconcile req w in
  let deleted := kubectlDelete (ObjTerminal terminal) created.2 in
  let tornDown := TerminalReconciler.Reconcile req deleted in
  store w !! (KTerminal, key) = Some (ObjTerminal terminal) →
  storeKey (ObjTerminal terminal) = (KTerminal, key) →
  GetDeletionTimestamp terminal = None →
  Finalizers (TerminalMeta terminal) = [] →
  faultFree w →
  store w !! kD = None →
  store w !! kS = None →
  created.1.2 = None ∧
  store created.2 !! kD = Some (toObject deployment) ∧
  store created.2 !! kS = Some (toObject service) ∧
  tornDown.1.2 = None ∧
  store tornDown.2 !! (KTerminal, key) = None ∧
  store tornDown.2 !! kD = None ∧
  store tornDown.2 !! kS = None.
Proof.
  intros key deployment service kD kS created deleted tornDown
    Hst Hk Hdel Hfin Hff HD HS.
  subst tornDown deleted created.
  destruct (TerminalReconciler.Reconcile req w) as [[res1 err1] w1] eqn:Hc.
  cbn [fst snd].
  destruct (Terminal_faultFree_live_pass req w res1 err1 w1 terminal
              Hst Hk Hdel Hff HD HS Hc) as (-> & Hff1 & Hst1).
  fold deployment service kD kS in Hst1.
  assert (kD ≠ kS) as HDS by done.
  assert (kD ≠ (KTerminal, key)) as HDT by done.
  assert (kS ≠ (KTerminal, key)) as HST by done.
  assert (store w1 !! kD = Some (toObject deployment)) as HD1.
  { rewrite Hst1, lookup_insert_ne, lookup_insert_ne, lookup_insert_eq; done. }
  assert (store w1 !! kS = Some (toObject service)) as HS1.
  { rewrite Hst1, lookup_insert_ne, lookup_insert_eq; done. }
  destruct (kubectlDelete_marks terminal w1 Hdel) as (marked & Hdeleted & Hmeta & Hspec).
  { by rewrite Hk, Hst1, lookup_insert_eq. }
  rewrite Hdeleted, Hk. clear Hdeleted.
  set (w2 := served VerbDelete _ _ _ _).
  destruct (TerminalReconciler.Reconcile req w2) as [[res3 err3] w3] eqn:Ht.
  cbn [fst snd].
  destruct terminal as [[n ns l d f] sp]. destruct marked as [mm ms].
  unfold GetDeletionTimestamp in Hdel.
  simpl in Hmeta, Hspec, Hfin, Hdel. subst mm ms f d.
  set (marked := {| TerminalMeta := withDeletionTimestamp _ _; TerminalSpec_ := sp |}) in *.
  assert (store w2 !! (KTerminal, key) = Some (ObjTerminal marked)) as Hst2
    by apply lookup_insert_eq.
  assert (storeKey (ObjTerminal marked) = (KTerminal, key)) as Hk2 by exact Hk.
  assert (faultFree w2) as Hff2 by done.
  assert (store w2 !! kD = Some (toObject deployment)) as HD2.
  { unfold w2. cbn [store served]. by rewrite lookup_insert_ne. }
  assert (store w2 !! kS = Some (toObject service)) as HS2.
  { unfold w2. cbn [store served]. by rewrite lookup_insert_ne. }
  assert (err3 = None) as ->.
  { eapply (Terminal_faultFree_teardown_pass req w2 res3 err3 w3 marked);
      [exact Hst2|exact Hk2|reflexivity|reflexivity|reflexivity|exact Hff2| | |exact Ht].
    - exists (toObject deployment). exact HD2.
    - exists (toObject service). exact HS2. }
  destruct (Terminal_teardown_converges req w2 w3 marked res3 (clock w1))
    as (_ & _ & HDgone & HSgone & HTgone);
    [exact Hst2|exact Hk2|reflexivity|reflexivity|reflexivity| |exact Ht|].
  { rewrite Hff2. constructor. }
  split_and!; try done.
  - apply HTgone. intros f' Hf'.
    change (f' ∈ [TerminalReconciler.TerminalDeploymentFinalizer;
                  TerminalReconciler.TerminalServiceFinalizer]) in Hf'.
    apply elem_of_cons in Hf' as [->|Hf']; [by left|].
    apply list_elem_of_singleton in Hf' as ->. by right.
  - apply HDgone. intros o Ho.
    change (store w2 !! kD = Some o) in Ho. rewrite HD2 in Ho. by injection Ho as <-.
  - apply HSgone. intros o Ho.
    change (store w2 !! kS = Some o) in Ho. rewrite HS2 in Ho. by injection Ho as <-.
Qed.

Lemma Terminal_lifecycle_witness :
  (TerminalReconciler.Reconcile testTerminalRequest newTerminalCluster).1.2 = None ∧
  (TerminalReconciler.Reconcile testTerminalRequest
     (kubectlDelete (ObjTerminal testTerminal)
        (TerminalReconciler.Reconcile testTerminalRequest newTerminalCluster).2)).1.2 = None ∧
  store (TerminalReconciler.Reconcile testTerminalRequest
           (kubectlDelete (ObjTerminal testTerminal)
              (TerminalReconciler.Reconcile testTerminalRequest newTerminalCluster).2)).2
    !! (KTerminal, ("marina-system", "terminal-test")) = None.
Proof.
  destruct (Terminal_lifecycle testTerminalRequest newTerminalCluster testTerminal)
    as (Hcreated & _ & _ & Htorn & Hgone & _ & _);
    [reflexivity|reflexivity|reflexivity|reflexivity|reflexivity|reflexivity|reflexivity|].
  split_and!; [exact Hcreated|exact Htorn|exact Hgone].
Defined.
